(* ===== verification/_CoqProject ===== *)
-Q . S2P
Prelude.v
Store.v
Saver.v
Controller.v
ControllerTests.v
Pool.v
ThreadedTests.v
Upload.v
UploadRun.v
UploadForm.v
Serializer.v
Status.v
