(* ===== verification/Prelude.v ===== *)
(** * A verification development for the AmCAT scraping controller

    The program is AmCAT's harvesting core, [src/amcat/scraping/controller.py],
    with the article-upload script [src/amcat/scripts/article_upload/upload.py],
    the REST serializers under [src/api/rest/] and the status endpoint
    [src/api/rest/views/status.py].  The controller drives
    pluggable scrapers (the "harvesters" of the spec): a scraper discovers
    units ([get_units]) and turns each unit into article objects
    ([scrape_unit]); the controller persists those articles through
    [Controller.save] (one savepoint per write) and [Controller.save_in_order]
    (parents before children), attaches them to the scraper's article set,
    optionally deduplicates, and flags the sets for reindexing.

    Files, in dependency order:
    - [Prelude.v] (this file): the Python exception classes and their
      subclass order ([exc_class], [isinstance]), results [res], the
      state-and-exception monad [PyM] (stdpp's [MRet]/[MBind] instances,
      so [x ← m; k] reads like the Python body), [try_except], [zoom],
      [py_flat_map] and [py_for] for Python loops, [py_strip], the
      predicates [moves_along] (frame reasoning), [total] (never
      raises), [returns] (returns a result with a property) and
      [ensures] (a postcondition of a computation that may raise) with
      their combinator lemmas, and the hint database [amcat].
    - [Store.v]: article objects on a heap of Python objects ([obj],
      [heap]), Django's model equality ([py_eq]), the persistence layer as
      an interface ([Storage], a class with laws) with a Postgres-like
      instance ([PgTable]: a table with a foreign-key constraint and the
      "transaction aborted" state), and [Controller.save] ([save]).
    - [Saver.v]: [Controller.save_in_order] as a FIFO work-list loop with
      fuel ([save_loop], [adopt], [save_in_order]); its loop invariant
      [loop_inv], the induction principle [save_loop_ind], and the
      theorems: termination, parent-first order, rows, foreign keys,
      no duplicates, cycles dropped.
    - [Controller.v]: [Controller.scrape] over any strategy given as the
      class [ScrapeStrategy], [SimpleController._scrape] and
      [RobustController._scrape]/[scrape_unit] as its two instances, over
      the [scraper] record; isolation of failures, attachment to sets,
      deduplication, accumulated [ScrapeError]s.
    - [ControllerTests.v]: the controller's own unit tests
      ([_TestScraper], [_ErrorScraper] and the assertions of
      [test_scraper], [test_set] and [test_rollback]) proved for every
      [n] and every live transaction.
    - [Pool.v]: [ThreadedController.scrape] with the worker pool and the
      committer of [amcat.tools.multithread] (not under [src/]: modelled
      from the spec) as the step relation [pstep]; its invariant
      [pool_inv] by rule induction, termination by a lexicographic
      measure ([pool_wf]) and progress, hence [join] returns; the retry
      budget; an executable one-worker schedule [run_serial] proved to be
      a run of [pstep]; equivalence with [SimpleController] on batches
      without parent links, and, for every state of the table, the
      parent link the committer loses otherwise.
    - [ThreadedTests.v]: [ThreadedController.__init__] and
      [_scrape_to_queue] on the caller's queue (the one-worker schedule
      [queue_serial], proved to be a run of [pstep] in which the
      committer never steps); [test_threaded], whose schedule (fill the
      queue, then save in the test's thread) is proved to be one run of
      the pool and whose assertion is proved for every [n] under every
      interleaving of the workers; the two
      production tests over the fixtures' tables, with Python's binding
      of keyword arguments, the first proved to raise [TypeError] before
      it scrapes.
    - [Upload.v]: [UploadScript.article_from_dict], [_scrape_unit] and
      [parse_file] over Python values [pyval] and dicts ([gmap] from
      strings).
    - [UploadRun.v]: [UploadScript.run] on the tables it writes
      ([ustate]), the [articlesets] property, [_set_project], the
      provenance line, the [postprocess] hook (a section variable, any
      subclass's) and [UploadForm.clean_articleset_name]; the
      equivalence [same_content] of upload states that agree on the
      tables, up to which no hook can change what a run writes.  The
      hook is a pure function and [create_articles] and the creation
      of a set never raise in the model, so nothing is claimed about
      the state a run leaves when one of them raises after the checks.
    - [UploadForm.v]: [UploadForm]'s fields and [get_empty], and the
      script's inputs from its bound form ([decode], the cached
      [uploaded_texts], [_get_files], [_get_units]).
    - [Serializer.v]: [ArticleSerializer.__init__] ([serializer_init]),
      [restore_fields] (medium names
      through the cache [self.media], date padding, default project),
      [from_native] with its children, [save] with [_flatten], and
      [ProjectSerializer.is_favourite] with its cached favourites.
    - [Status.v]: [StatusView.get], [queue_status], [git_status] and
      [date2iso] over the class [StatusBackend] (celery, Elastic, git and
      the AMQP broker); [time.gmtime] by its calendar arithmetic
      ([Gmtime]) with its inverse [timegm]; the response schema
      [status_schema] checked by the executable [json_typeb].

    Each file ends with a module of concrete runs ([StoreRuns],
    [SaverRuns], [ControllerRuns], [ControllerTestsRuns], [PoolRuns],
    [ThreadedTestsRuns],
    [UploadRuns], [SerializerRuns], [StatusRuns]) whose lemmas apply the theorems to inputs
    evaluated by [vm_compute].

    Bounds and fuel: [save_loop] gets the batch's length as fuel, which
    [save_loop_enough] shows is enough for a batch of unsaved articles
    (each article enters the work list at most once);
    [run_serial] gets [retry_exceptions] (3) attempts per unit, which
    [run_serial_enough] shows is enough since every step uses one
    attempt.  The pool's relation [pstep] needs no fuel: [pool_wf]
    shows it has no infinite run.

    [from_native] recurses once per level of children; its fuel stands
    for Python's recursion limit, and running out of it raises the
    [RecursionError] Python would.  [gmtime] gives its year loop one
    round more than the number of days to move ([year_of_spec] shows a
    year moves at least 365 of them) and its month loop twelve.

    Not modelled: logging and progress monitors, Django's form and file
    plumbing below [UploadForm] ([RawFileUploadForm], not under [src/],
    enters as the bound form's methods), the code the production tests
    import from outside [src/] (a parameter of their model), the
    module's [__main__] block, and the upload and REST test files:
    [test_upload.py] holds only a disabled test ([todo_test_zip_file]),
    and [test_query.py] tests [QueryViewSet], which is not under [src/],
    through Django's HTTP client.  The external collaborators (Django's ORM,
    [amcat.models], the deduplication script, [amcat.tools.multithread])
    are modelled by their effect on an explicit state, never by
    assumption. *)

From stdpp Require Import base list gmap sets strings.

(** ** Python exception classes *)

(** The classes the modelled code raises or catches, with the Django
    database errors ([django.db.utils]), the upload errors of
    [upload.py], Django's form [ValidationError] and a model's
    [DoesNotExist], and celery's [TimeoutError] ([celery.exceptions]). *)
Inductive exc_class :=
| Exception | NameError | UnboundLocalError | TypeError | ValueError
| KeyError | NotImplementedError
| DbError | DatabaseError | IntegrityError
| ParseError | ArticleError | MissingValueError | ValidationError
| TimeoutError | DoesNotExist.

#[export] Instance exc_class_eq_dec : EqDecision exc_class.
Proof. solve_decision. Defined.

(** The method resolution order of each class (itself first). *)
Definition exc_mro (c : exc_class) : list exc_class :=
  match c with
  | Exception => [Exception]
  | NameError => [NameError; Exception]
  | UnboundLocalError => [UnboundLocalError; NameError; Exception]
  | TypeError => [TypeError; Exception]
  | ValueError => [ValueError; Exception]
  | KeyError => [KeyError; Exception]
  | NotImplementedError => [NotImplementedError; Exception]
  | DbError => [DbError; Exception]
  | DatabaseError => [DatabaseError; DbError; Exception]
  | IntegrityError => [IntegrityError; DatabaseError; DbError; Exception]
  | ParseError => [ParseError; Exception]
  | ArticleError => [ArticleError; ParseError; Exception]
  | MissingValueError => [MissingValueError; ArticleError; ParseError; Exception]
  | ValidationError => [ValidationError; Exception]
  | TimeoutError => [TimeoutError; Exception]
  | DoesNotExist => [DoesNotExist; Exception]
  end.

(** The class's [__name__]. *)
Definition exc_name (c : exc_class) : string :=
  match c with
  | Exception => "Exception" | NameError => "NameError"
  | UnboundLocalError => "UnboundLocalError" | TypeError => "TypeError"
  | ValueError => "ValueError" | KeyError => "KeyError"
  | NotImplementedError => "NotImplementedError" | DbError => "Error"
  | DatabaseError => "DatabaseError" | IntegrityError => "IntegrityError"
  | ParseError => "ParseError" | ArticleError => "ArticleError"
  | MissingValueError => "MissingValueError" | ValidationError => "ValidationError"
  | TimeoutError => "TimeoutError" | DoesNotExist => "DoesNotExist"
  end.

(** [issubclass c t]: an [except t] clause catches an exception of class [c]. *)
Definition issubclass (c t : exc_class) : bool := bool_decide (t ∈ exc_mro c).

(** A raised exception: its class and its message ([str(e)]). *)
Record exn := mk_exn { exn_class : exc_class; exn_msg : string }.

Definition isinstance (e : exn) (t : exc_class) : bool := issubclass (exn_class e) t.

(** ** Results and the state-and-exception monad *)

Inductive res (A : Type) := Ret (a : A) | Raise (e : exn).
Arguments Ret {A} a.
Arguments Raise {A} e.

(** A Python statement sequence run on a state [S]: the state it leaves
    and whether it returned or raised.  The state survives an exception,
    as Python's side effects do. *)
Definition PyM (S A : Type) : Type := S -> S * res A.

#[export] Instance py_ret S : MRet (PyM S) := fun A a s => (s, Ret a).
#[export] Instance py_bind S : MBind (PyM S) := fun A B k m s =>
  match m s with
  | (s', Ret a) => k a s'
  | (s', Raise e) => (s', Raise e)
  end.

Definition raise {S A} (e : exn) : PyM S A := fun s => (s, Raise e).
Definition get {S} : PyM S S := fun s => (s, Ret s).
Definition put {S} (x : S) : PyM S unit := fun _ => (x, Ret tt).
Definition modify {S} (f : S -> S) : PyM S unit := fun s => (f s, Ret tt).

(** [try: m except t as e: h e]: the handler runs on the state the
    failed body left; an exception of another class propagates. *)
Definition try_except {S A} (m : PyM S A) (t : exc_class) (h : exn -> PyM S A)
  : PyM S A := fun s =>
  match m s with
  | (s', Raise e) => if isinstance e t then h e s' else (s', Raise e)
  | r => r
  end.

(** Run a computation on one component of a larger state. *)
Definition zoom {S T A} (getf : S -> T) (setf : T -> S -> S) (m : PyM T A)
  : PyM S A := fun s => let '(t, r) := m (getf s) in (setf t s, r).

(** [for x in xs: out += f(x)]: run [f] on each element in order and
    concatenate the results; the first exception stops the loop. *)
Fixpoint py_flat_map {S A B} (f : A -> PyM S (list B)) (xs : list A) : PyM S (list B) :=
  match xs with
  | [] => mret []
  | x :: rest => ys ← f x; zs ← py_flat_map f rest; mret (ys ++ zs)
  end.

(** [for x in xs: f(x)] for a statement [f]. *)
Fixpoint py_for {S A} (f : A -> PyM S unit) (xs : list A) : PyM S unit :=
  match xs with
  | [] => mret tt
  | x :: rest => f x;; py_for f rest
  end.

(** ** Python's string helpers *)

Fixpoint lstrip (s : string) : string :=
  match s with
  | EmptyString => EmptyString
  | String a s' => if Ascii.is_space a then lstrip s' else s
  end.

(** The string of one line feed. *)
Definition newline : string := String (Ascii.ascii_of_nat 10) EmptyString.

(** [s.strip()] *)
Definition py_strip (s : string) : string := String.rev (lstrip (String.rev (lstrip s))).

(** [enumerate(xs)]: the elements paired with their positions from 0. *)
Definition enumerate {A} (xs : list A) : list (nat * A) := zip (seq 0 (length xs)) xs.

(** ** Automation *)

Create HintDb amcat discriminated.
Create Rewrite HintDb amcat_rw.

Lemma py_bind_Ret {S A B} (m : PyM S A) (k : A -> PyM S B) s s' a :
  m s = (s', Ret a) -> (x ← m; k x) s = k a s'.
Proof. intros H. cbv [mbind py_bind]. by rewrite H. Qed.

Lemma py_bind_Raise {S A B} (m : PyM S A) (k : A -> PyM S B) s s' e :
  m s = (s', Raise e) -> (x ← m; k x) s = (s', Raise e).
Proof. intros H. cbv [mbind py_bind]. by rewrite H. Qed.

(** A sequence that returned: both parts returned. *)
Lemma py_bind_Ret_inv {S A B} (m : PyM S A) (k : A -> PyM S B) s s' b :
  (x ← m; k x) s = (s', Ret b) -> exists s1 a, m s = (s1, Ret a) /\ k a s1 = (s', Ret b).
Proof. cbv [mbind py_bind]. destruct (m s) as [s1 [a|e]]; [eauto | discriminate]. Qed.

(** Every modelled class derives from [Exception]: [except Exception]
    catches all of them. *)
Lemma isinstance_Exception e : isinstance e Exception = true.
Proof. destruct e as [[] ?]; reflexivity. Qed.

Lemma issubclass_DatabaseError_Integrity : issubclass IntegrityError DatabaseError = true.
Proof. reflexivity. Qed.

#[export] Hint Resolve isinstance_Exception : amcat.
#[export] Hint Rewrite isinstance_Exception : amcat_rw.

(** ** Frame reasoning: computations that only move the state along a
    preorder *)

Record moves_along {S A} (R : relation S) (m : PyM S A) : Prop := MovesAlong {
  moves_along_step : forall s s' r, m s = (s', r) -> R s s' }.
Arguments MovesAlong {_ _ _ _} _.
Arguments moves_along_step {_ _ _ _} _ _ _ _ _.

Section MovesAlong.
Context {S : Type} (R : relation S) `{!PreOrder R}.

Lemma moves_ret {A} (a : A) : moves_along R (mret a).
Proof. constructor. intros s s' r [= <- _]. reflexivity. Qed.

Lemma moves_raise {A} e : moves_along R (raise (A:=A) e).
Proof. constructor. intros s s' r [= <- _]. reflexivity. Qed.

Lemma moves_modify f : (forall s, R s (f s)) -> moves_along R (modify f).
Proof. constructor. intros s s' r [= <- _]. apply H. Qed.

Lemma moves_bind {A B} (m : PyM S A) (k : A -> PyM S B) :
  moves_along R m -> (forall a, moves_along R (k a)) -> moves_along R (x ← m; k x).
Proof.
  intros [Hm] Hk. constructor. intros s s' r. cbv [mbind py_bind].
  destruct (m s) as [s1 [a|e]] eqn:Hs.
  - intros Hr. transitivity s1; [by eapply Hm | by eapply (Hk a)].
  - intros [= <- _]. by eapply Hm.
Qed.

Lemma moves_try {A} (m : PyM S A) t h :
  moves_along R m -> (forall e, moves_along R (h e)) -> moves_along R (try_except m t h).
Proof.
  intros [Hm] Hh. constructor. intros s s' r. unfold try_except.
  destruct (m s) as [s1 [a|e]] eqn:Hs.
  - intros [= <- _]. by eapply Hm.
  - destruct (isinstance e t).
    + intros Hr. transitivity s1; [by eapply Hm | by eapply (Hh e)].
    + intros [= <- _]. by eapply Hm.
Qed.

Lemma moves_flat_map {A B} (f : A -> PyM S (list B)) xs :
  (forall x, moves_along R (f x)) -> moves_along R (py_flat_map f xs).
Proof.
  intros Hf. induction xs as [|x xs IH]; simpl.
  - apply moves_ret.
  - apply moves_bind; [done|]. intros ys. apply moves_bind; [done|]. intros. apply moves_ret.
Qed.

End MovesAlong.

(** ** Computations that never raise *)

Definition total {S A} (m : PyM S A) : Prop := forall s, exists s' a, m s = (s', Ret a).

Lemma total_ret {S A} (a : A) : total (S:=S) (mret a).
Proof. intros s. by exists s, a. Qed.

Lemma total_modify {S} (f : S -> S) : total (modify f).
Proof. intros s. by exists (f s), tt. Qed.

Lemma total_bind {S A B} (m : PyM S A) (k : A -> PyM S B) :
  total m -> (forall a, total (k a)) -> total (x ← m; k x).
Proof.
  intros Hm Hk s. destruct (Hm s) as (s1 & a & Hs). destruct (Hk a s1) as (s2 & b & Hb).
  exists s2, b. by rewrite (py_bind_Ret _ _ _ _ _ Hs).
Qed.

Lemma total_for {S A} (f : A -> PyM S unit) xs : (forall x, total (f x)) -> total (py_for f xs).
Proof.
  intros Hf. induction xs as [|x xs IH]; simpl; [apply total_ret|].
  apply total_bind; [done|]. intros _. exact IH.
Qed.

(** A total computation returns. *)
Lemma total_Raise {S A} (m : PyM S A) s s' e : total m -> m s <> (s', Raise e).
Proof. intros Hm Heq. destruct (Hm s) as (? & ? & Hs). congruence. Qed.

Lemma total_flat_map {S A B} (f : A -> PyM S (list B)) xs :
  (forall x, x ∈ xs -> total (f x)) -> total (py_flat_map f xs).
Proof.
  intros Hf. induction xs as [|x xs IH]; simpl; [apply total_ret|].
  apply total_bind; [apply Hf; set_solver|]. intros ys.
  apply total_bind; [apply IH; intros; apply Hf; set_solver|]. intros. apply total_ret.
Qed.

#[export] Hint Resolve total_ret total_modify total_bind total_for total_flat_map : amcat.

(** A computation that returns, with a result satisfying [P]. *)
Definition returns {S A} (P : A -> Prop) (m : PyM S A) : Prop :=
  forall s, exists s' a, m s = (s', Ret a) /\ P a.

Lemma returns_total {S A} (P : A -> Prop) (m : PyM S A) : returns P m -> total m.
Proof. intros Hm s. destruct (Hm s) as (s' & a & Hs & _). eauto. Qed.

Lemma total_returns {S A} (m : PyM S A) : total m -> returns (fun _ => True) m.
Proof. intros Hm s. destruct (Hm s) as (s' & a & Hs). eauto. Qed.

Lemma returns_bind {S A B} (P : A -> Prop) (Q : B -> Prop) (m : PyM S A) (k : A -> PyM S B) :
  returns P m -> (forall a, P a -> returns Q (k a)) -> returns Q (x ← m; k x).
Proof.
  intros Hm Hk s. destruct (Hm s) as (s1 & a & Hs & Ha). destruct (Hk a Ha s1) as (s2 & b & Hb & Hq).
  exists s2, b. by rewrite (py_bind_Ret _ _ _ _ _ Hs).
Qed.

Lemma returns_ret {S A} (P : A -> Prop) (a : A) : P a -> returns (S:=S) P (mret a).
Proof. intros Ha s. by exists s, a. Qed.

(** ** Postconditions of computations that may raise *)

(** Whenever [m] returns normally, its result satisfies [P]. *)
Definition ensures {S A} (P : A -> Prop) (m : PyM S A) : Prop :=
  forall s s' a, m s = (s', Ret a) -> P a.

Lemma ensures_ret {S A} (P : A -> Prop) (a : A) : P a -> ensures (S:=S) P (mret a).
Proof. by intros Ha s s' b [= _ <-]. Qed.

Lemma ensures_any {S A} (m : PyM S A) : ensures (fun _ => True) m.
Proof. done. Qed.

Lemma ensures_bind {S A B} (P : A -> Prop) (Q : B -> Prop) (m : PyM S A) (k : A -> PyM S B) :
  ensures P m -> (forall a, P a -> ensures Q (k a)) -> ensures Q (x ← m; k x).
Proof.
  intros Hm Hk s s' b. cbv [mbind py_bind]. destruct (m s) as [s1 [a|e]] eqn:Hs; [|done].
  apply (Hk a (Hm _ _ _ Hs)).
Qed.

Lemma ensures_try {S A} (P : A -> Prop) (m : PyM S A) t h :
  ensures P m -> (forall e, ensures P (h e)) -> ensures P (try_except m t h).
Proof.
  intros Hm Hh s s' a. unfold try_except. destruct (m s) as [s1 [b|e]] eqn:Hs.
  - intros [= <- <-]. by apply (Hm s s1).
  - destruct (isinstance e t); [apply Hh|done].
Qed.

#[export] Hint Resolve ensures_ret ensures_any ensures_bind ensures_try : amcat.

(** Decompose a frame goal along the structure of the computation. *)
Ltac moves_auto :=
  repeat match goal with
  | |- PreOrder _ => apply _
  | |- moves_along _ (mret _) => apply moves_ret
  | |- moves_along _ (raise _) => apply moves_raise
  | |- moves_along _ (mbind _ _) => apply moves_bind
  | |- moves_along _ (try_except _ _ _) => apply moves_try
  | |- moves_along _ (py_flat_map _ _) => apply moves_flat_map
  | |- forall _, _ => intro
  end.

(** ** Generic list lemmas *)

(** [filter] only looks at the list's elements. *)
Lemma filter_ext_in {A} (P Q : A -> Prop) `{!∀ x, Decision (P x)} `{!∀ x, Decision (Q x)}
    (l : list A) :
  (forall x, x ∈ l -> P x <-> Q x) -> filter P l = filter Q l.
Proof.
  induction l as [|a l IH]; intros HPQ; [done|].
  rewrite !filter_cons, IH by (intros; apply HPQ, elem_of_cons; by right).
  assert (Ha : P a <-> Q a) by (apply HPQ, elem_of_cons; by left).
  destruct (decide (P a)), (decide (Q a)); first [reflexivity | exfalso; tauto].
Qed.

(** [filter] keeps a list whose elements all pass. *)
Lemma filter_all {A} (P : A -> Prop) `{!∀ x, Decision (P x)} (l : list A) :
  (forall x, x ∈ l -> P x) -> filter P l = l.
Proof.
  induction l as [|a l IH]; intros HP; [done|]. rewrite filter_cons_True by (apply HP; set_solver).
  f_equal. apply IH. intros x Hx. apply HP. set_solver.
Qed.

(** The pairs of [enumerate] are the list's positions and elements. *)
Lemma enumerate_lookup {A} (xs : list A) i x : (i, x) ∈ enumerate xs -> xs !! i = Some x.
Proof.
  unfold enumerate. intros Hin.
  assert (Hgen : forall k, (i, x) ∈ zip (seq k (length xs)) xs -> xs !! (i - k) = Some x /\ k <= i).
  { clear Hin. induction xs as [|y xs IH]; intros k; simpl; [by rewrite elem_of_nil|].
    rewrite elem_of_cons. intros [[= -> ->] | Hin].
    - by rewrite Nat.sub_diag.
    - destruct (IH (S k) Hin) as [Hl Hk]. replace (i - k) with (S (i - S k)) by lia.
      split; [done | lia]. }
  destruct (Hgen 0 Hin) as [Hl _]. by rewrite Nat.sub_0_r in Hl.
Qed.

Lemma enumerate_fst {A} (xs : list A) : (enumerate xs).*1 = seq 0 (length xs).
Proof. unfold enumerate. apply fst_zip. by rewrite length_seq. Qed.

(** Unfold the monad's instances and combinators. *)
Ltac py_unfold :=
  cbv [mbind mret py_bind py_ret raise get put modify try_except zoom] in *.
