(* ===== verification/Store.v ===== *)
(** * Article objects, the persistence layer and [Controller.save]

    Articles are Python objects on a heap ([heap]: object identity to
    fields); Django's model equality is [py_eq].  The persistence layer is
    the interface [Storage] (the spec's "opaque save operation with
    transactional semantics"): a savepoint that may itself fail, and the
    write [article.save()], whose laws are that a write of an unsaved
    article appends exactly its row under a fresh primary key and that a
    failed write leaves the rows alone.  [PgTable] implements it like
    Postgres under Django: a foreign-key check, Django's refusal to save
    an article whose parent object is unsaved, and the "current
    transaction is aborted" state that only a savepoint rollback clears.
    [save] is [Controller.save] (controller.py, lines 78-90). *)

From stdpp Require Import base list gmap sets strings.
From S2P Require Import Prelude.

(** ** Objects and rows *)

(** Python object identities and database primary keys. *)
Abbreviation oid := nat (only parsing).
Abbreviation pk := nat (only parsing).

(** An [Article] instance: the related object [parent], its foreign-key
    column [parent_id] (Django copies the parent's pk into it when
    [parent] is assigned), its own [pk] (None until saved) and its
    content.  A missing [parent] attribute behaves as [None] in
    [save_in_order] ([hasattr] fails, and [None in articles] is false). *)
Record obj := mk_obj {
  a_parent : option oid;
  a_parent_id : option pk;
  a_pk : option pk;
  a_headline : string }.

Definition heap := oid -> obj.

Definition hupd (h : heap) (o : oid) (v : obj) : heap :=
  fun o' => if decide (o' = o) then v else h o'.

Definition set_pk (a : obj) (k : pk) : obj :=
  mk_obj (a_parent a) (a_parent_id a) (Some k) (a_headline a).

(** [a.parent = saved]: Django's descriptor sets the object and copies
    its pk into the column. *)
Definition set_parent (h : heap) (a s : oid) : obj :=
  mk_obj (Some s) (a_pk (h s)) (a_pk (h a)) (a_headline (h a)).

(** [x == y] on Django models (Django >= 1.7): instances without a pk are
    equal only to themselves, saved instances are equal when their pks
    are. *)
Definition py_eq (h : heap) (x y : oid) : bool :=
  match a_pk (h x) with
  | None => bool_decide (x = y)
  | Some k => bool_decide (a_pk (h y) = Some k)
  end.

(** [x in xs]: Python's membership test uses [==]. *)
Definition py_in (h : heap) (x : oid) (xs : list oid) : bool :=
  existsb (py_eq h x) xs.

(** A row of the article table. *)
Record row := mk_row { r_pk : pk; r_parent : option pk; r_headline : string }.

Definition row_of (k : pk) (a : obj) : row := mk_row k (a_parent_id a) (a_headline a).

Definition pks (rs : list row) : list pk := map r_pk rs.

(** ** The persistence interface *)

Class Storage := {
  DB : Type;
  db_rows : DB -> list row;
  (** [transaction.savepoint()]: [Some e] when the command raises. *)
  db_savepoint : DB -> option exn;
  (** [article.save()] for the object [o] of the heap. *)
  db_write : DB -> heap -> oid -> DB * res pk;
  db_write_new : forall d h o d' k,
    a_pk (h o) = None -> db_write d h o = (d', Ret k) ->
    db_rows d' = db_rows d ++ [row_of k (h o)] /\ k ∉ pks (db_rows d);
  db_write_fail : forall d h o d' e,
    db_write d h o = (d', Raise e) -> db_rows d' = db_rows d
}.

(** The state [Controller.save] works on: the heap and the database. *)
Record world `{Storage} := mk_world { w_heap : heap; w_db : DB }.
Arguments mk_world {_} _ _.
Arguments w_heap {_} _.
Arguments w_db {_} _.

(** Every saved object's pk names a row of the table. *)
Definition consistent `{Storage} (w : world) : Prop :=
  forall o k, a_pk (w_heap w o) = Some k -> k ∈ pks (db_rows (w_db w)).

(** ** [Controller.save] *)

Section Save.
Context `{Storage}.

Definition unbound_save : exn :=
  mk_exn UnboundLocalError "local variable 'save' referenced before assignment".

(** [try: save = transaction.savepoint(); article.save()
     except (IntegrityError, DatabaseError): savepoint_rollback(save); return
     return article].  When [savepoint()] itself raises a database error
    the handler reads the unbound [save]. *)
Definition save (o : oid) : PyM world (option oid) := fun w =>
  match db_savepoint (w_db w) with
  | Some e =>
      if isinstance e IntegrityError || isinstance e DatabaseError
      then (w, Raise unbound_save) else (w, Raise e)
  | None =>
      let sp := w_db w in
      match db_write (w_db w) (w_heap w) o with
      | (d', Ret k) => (mk_world (hupd (w_heap w) o (set_pk (w_heap w o) k)) d', Ret (Some o))
      | (d', Raise e) =>
          if isinstance e IntegrityError || isinstance e DatabaseError
          then (mk_world (w_heap w) sp, Ret None)
          else (mk_world (w_heap w) d', Raise e)
      end
  end.

End Save.

(** ** Facts about [save] *)

Section SaveFacts.
Context `{Storage}.

(** How a call of [save] ended, read off its result. *)
Lemma save_cases o w w' r :
  save o w = (w', r) ->
  (db_savepoint (w_db w) = None /\
     ((exists k, db_write (w_db w) (w_heap w) o = (w_db w', Ret k) /\
         w_heap w' = hupd (w_heap w) o (set_pk (w_heap w o) k) /\ r = Ret (Some o))
      \/ (w' = w /\ r = Ret None)
      \/ (exists e, db_write (w_db w) (w_heap w) o = (w_db w', Raise e) /\
            w_heap w' = w_heap w /\ r = Raise e)))
  \/ (w' = w /\ exists e, r = Raise e).
Proof.
  unfold save. destruct (db_savepoint (w_db w)) as [e|].
  - destruct (_ || _); intros [= <- <-]; eauto.
  - destruct (db_write (w_db w) (w_heap w) o) as [d' [k|e]] eqn:Hw.
    + intros [= <- <-]. left. split; [done|]. left. eauto.
    + destruct (_ || _); intros [= <- <-]; left; split; try done.
      * right. left. by destruct w.
      * right. right. eauto.
Qed.

(** A successful save of an unsaved article gives it a fresh key and
    appends exactly its row. *)
Lemma save_Some_new o w w' s :
  a_pk (w_heap w o) = None -> save o w = (w', Ret (Some s)) ->
  s = o /\ exists k,
    w_heap w' = hupd (w_heap w) o (set_pk (w_heap w o) k) /\
    db_rows (w_db w') = db_rows (w_db w) ++ [row_of k (w_heap w o)] /\
    k ∉ pks (db_rows (w_db w)).
Proof.
  intros Hun Hs. apply save_cases in Hs
    as [(_ & [(k & Hw & Hh & [= <-]) | [(_ & ?) | (e & _ & _ & ?)]]) | (_ & e & ?)];
    try discriminate.
  split; [done|]. exists k. split; [done|]. by apply (db_write_new _ _ _ _ _ Hun Hw).
Qed.

(** C3: scoped rollback.  When the write of an
    article fails with a database error, [save] returns [None] and leaves
    the world exactly as it found it: the database is back at the
    savepoint and the heap is untouched, so no earlier write is lost and
    the transaction can go on. *)
Theorem save_failure_restores o w w' :
  save o w = (w', Ret None) -> w' = w.
Proof.
  intros Hs. apply save_cases in Hs
    as [(_ & [(? & ? & ? & ?) | [[-> _] | (? & ? & ? & ?)]]) | [? [? ?]]]; congruence.
Qed.

End SaveFacts.

(** ** A Postgres-like table under Django *)

Module PgTable.

(** The table's rows and whether the current transaction is aborted. *)
Record pg := mk_pg { pg_rows : list row; pg_aborted : bool }.

Definition aborted_exn : exn :=
  mk_exn DatabaseError "current transaction is aborted, commands ignored until end of transaction block".

Definition unsaved_related_exn : exn :=
  mk_exn ValueError "save() prohibited to prevent data loss due to unsaved related object 'parent'".

(** The serial column: one past the largest key. *)
Definition pg_next (rs : list row) : pk := S (list_max (pks rs)).

Definition replace_row (r : row) (rs : list row) : list row :=
  map (fun x => if decide (r_pk x = r_pk r) then r else x) rs.

(** Whether the related [parent] object is unsaved (Django's check before
    any SQL runs). *)
Definition unsaved_parent (h : heap) (a : obj) : bool :=
  match a_parent a with
  | Some p => bool_decide (a_pk (h p) = None)
  | None => false
  end.

Section Pg.
(** The statement errors the database reports for a row (constraint
    violations, invalid SQL). *)
Variable reject : row -> option exn.

Definition pg_savepoint (d : pg) : option exn :=
  if pg_aborted d then Some aborted_exn else None.

(** [article.save()]: an UPDATE when the article has a pk present in the
    table, an INSERT otherwise; a rejected statement aborts the
    transaction. *)
Definition pg_write (d : pg) (h : heap) (o : oid) : pg * res pk :=
  let a := h o in
  if unsaved_parent h a then (d, Raise unsaved_related_exn)
  else if pg_aborted d then (d, Raise aborted_exn)
  else
    let k := match a_pk a with Some k => k | None => pg_next (pg_rows d) end in
    let r := row_of k a in
    match reject r with
    | Some e => (mk_pg (pg_rows d) true, Raise e)
    | None =>
        let rs := if bool_decide (k ∈ pks (pg_rows d))
                  then replace_row r (pg_rows d) else pg_rows d ++ [r] in
        (mk_pg rs false, Ret k)
    end.

Lemma pg_next_fresh rs : pg_next rs ∉ pks rs.
Proof.
  unfold pg_next. intros Hin.
  assert (Hle : Forall (fun k => k <= list_max (pks rs)) (pks rs))
    by (apply list_max_le; lia).
  rewrite Forall_forall in Hle.
  apply Hle in Hin. lia.
Qed.

Lemma pg_write_new d h o d' k :
  a_pk (h o) = None -> pg_write d h o = (d', Ret k) ->
  pg_rows d' = pg_rows d ++ [row_of k (h o)] /\ k ∉ pks (pg_rows d).
Proof.
  unfold pg_write. intros Hpk.
  rewrite Hpk. pose proof (pg_next_fresh (pg_rows d)) as Hf.
  destruct (unsaved_parent h (h o)), (pg_aborted d),
    (reject (row_of (pg_next (pg_rows d)) (h o))); try discriminate.
  intros [= <- <-]. simpl. by rewrite bool_decide_false.
Qed.

Lemma pg_write_fail d h o d' e :
  pg_write d h o = (d', Raise e) -> pg_rows d' = pg_rows d.
Proof.
  unfold pg_write.
  destruct (unsaved_parent h (h o)); [by intros [= <- _] |].
  destruct (pg_aborted d); [by intros [= <- _] |].
  by destruct (reject _); intros [= <- _].
Qed.

#[export] Instance PgStorage : Storage := {|
  DB := pg;
  db_rows := pg_rows;
  db_savepoint := pg_savepoint;
  db_write := pg_write;
  db_write_new := pg_write_new;
  db_write_fail := pg_write_fail |}.

(** [Controller.save] of an unsaved article whose parent, if it has one,
    is saved, in a live transaction: accepted, it is inserted under the
    next serial key with the [parent_id] it carries ... *)
Lemma pg_save_insert (w : @world PgStorage) o :
  pg_aborted (w_db w) = false -> unsaved_parent (w_heap w) (w_heap w o) = false ->
  a_pk (w_heap w o) = None ->
  reject (row_of (pg_next (pg_rows (w_db w))) (w_heap w o)) = None ->
  save o w = (mk_world (hupd (w_heap w) o (set_pk (w_heap w o) (pg_next (pg_rows (w_db w)))))
                (mk_pg (pg_rows (w_db w) ++ [row_of (pg_next (pg_rows (w_db w))) (w_heap w o)]) false),
              Ret (Some o)).
Proof.
  intros Ha Hu Hk Hr. unfold save; simpl. unfold pg_savepoint, pg_write.
  rewrite Ha, Hu, Hk, Hr, bool_decide_false; [done|]. apply pg_next_fresh.
Qed.

(** ... in particular an article without a parent ... *)
Lemma pg_save_new (w : @world PgStorage) o :
  pg_aborted (w_db w) = false -> a_parent (w_heap w o) = None -> a_pk (w_heap w o) = None ->
  reject (row_of (pg_next (pg_rows (w_db w))) (w_heap w o)) = None ->
  save o w = (mk_world (hupd (w_heap w) o (set_pk (w_heap w o) (pg_next (pg_rows (w_db w)))))
                (mk_pg (pg_rows (w_db w) ++ [row_of (pg_next (pg_rows (w_db w))) (w_heap w o)]) false),
              Ret (Some o)).
Proof.
  intros Ha Hp. apply pg_save_insert; [done|]. unfold unsaved_parent. by rewrite Hp.
Qed.

(** ... and rejected with a database error, it is rolled back. *)
Lemma pg_save_rejected (w : @world PgStorage) o e :
  pg_aborted (w_db w) = false -> a_parent (w_heap w o) = None -> a_pk (w_heap w o) = None ->
  reject (row_of (pg_next (pg_rows (w_db w))) (w_heap w o)) = Some e ->
  isinstance e DatabaseError = true -> save o w = (w, Ret None).
Proof.
  intros Ha Hp Hk Hr He. unfold save; simpl. unfold pg_savepoint, pg_write, unsaved_parent.
  rewrite Ha, Hp, Hk, Hr, He, orb_true_r. by destruct w.
Qed.

(** The serial column after an insert under [pg_next]. *)
Lemma pg_next_app rs r : r_pk r = pg_next rs -> pg_next (rs ++ [r]) = S (pg_next rs).
Proof.
  intros Hr. unfold pg_next, pks. rewrite map_app, list_max_app. simpl. rewrite Hr.
  unfold pg_next, pks. lia.
Qed.

(** C36: when the surrounding transaction is
    already aborted, [transaction.savepoint()] raises a [DatabaseError];
    the [except] clause then calls [savepoint_rollback(save)] on the
    unassigned name [save], so [Controller.save] raises
    [UnboundLocalError] instead of returning [None], and the caller sees
    a name error that hides the database error. *)
Theorem save_in_aborted_transaction (w : @world PgStorage) o :
  pg_aborted (w_db w) = true -> save o w = (w, Raise unbound_save).
Proof. intros Ha. unfold save. simpl. unfold pg_savepoint. by rewrite Ha. Qed.

End Pg.
End PgTable.

(** ** Concrete runs

    A table that rejects the row of one article (as [_ErrorArticle] of the
    controller's tests does), and a heap of six unsaved articles: [0]
    and [1] are roots, [2] is a child of [0], [3] a child of the rejected
    [1], and [4] and [5] point at each other. *)
Module StoreRuns.
Import PgTable.

Definition reject_bad (r : row) : option exn :=
  if bool_decide (r_headline r = "bad") then Some (mk_exn DatabaseError "syntax error at or near This") else None.

Definition h_demo : heap := fun o =>
  match o with
  | 0 => mk_obj None None None "ok"
  | 1 => mk_obj None None None "bad"
  | 2 => mk_obj (Some 0) None None "child"
  | 3 => mk_obj (Some 1) None None "orphan"
  | 4 => mk_obj (Some 5) None None "loop-a"
  | 5 => mk_obj (Some 4) None None "loop-b"
  | _ => mk_obj None None None "other"
  end.

Definition w_demo : @world (PgStorage reject_bad) :=
  @mk_world (PgStorage reject_bad) h_demo (mk_pg [] false).

Definition w_aborted : @world (PgStorage reject_bad) :=
  @mk_world (PgStorage reject_bad) h_demo (mk_pg [] true).

Lemma h_demo_unsaved o : a_pk (h_demo o) = None.
Proof. by do 6 (destruct o as [|o]; [done|]). Qed.

Lemma save_failure_restores_witness :
  save 1 w_demo = (w_demo, Ret None) /\ fst (save 1 w_demo) = w_demo.
Proof.
  split; [reflexivity|].
  apply (save_failure_restores 1 w_demo (fst (save 1 w_demo))). reflexivity.
Defined.

Lemma save_in_aborted_transaction_witness :
  pg_aborted (w_db w_aborted) = true /\ save 0 w_aborted = (w_aborted, Raise unbound_save).
Proof.
  split; [reflexivity|]. apply (save_in_aborted_transaction reject_bad w_aborted 0).
  reflexivity.
Defined.

End StoreRuns.
