(* ===== verification/Saver.v ===== *)
(** * [Controller.save_in_order]: the dependency-ordered saver

    [save_in_order] (controller.py, lines 92-108) saves a batch of
    articles so that every parent is saved before its children.  Python
    iterates [for unsaved in toprocess] over a list it appends to, so the
    loop is a FIFO work list: [save_loop] takes the queue's head, saves it
    with [save], and on success runs the children scan [adopt] (lines
    103-106), which points every article whose parent equals the saved one
    at it ([a.parent = saved]) and appends it to the queue.  The roots
    ([roots], line 95) are the articles without a parent in the batch.

    The loop is a [Fixpoint] on fuel; [save_in_order] gives it the batch's
    length, which [save_loop_total] shows enough for every batch of
    distinct unsaved articles.  The generator's output is the list of
    yielded articles with the exception that ended it, if any. *)

From stdpp Require Import base list gmap sets strings.
From S2P Require Import Prelude Store.

Section Saver.
Context `{Storage}.

(** [(not hasattr(a, 'parent')) or not a.parent in articles] *)
Definition is_root (h : heap) (arts : list oid) (a : oid) : bool :=
  match a_parent (h a) with
  | None => true
  | Some p => negb (py_in h p arts)
  end.

Definition roots (h : heap) (arts : list oid) : list oid :=
  filter (fun a => is_root h arts a = true) arts.

(** [hasattr(a, 'parent') and a.parent == unsaved] *)
Definition parent_eq (h : heap) (unsaved a : oid) : bool :=
  match a_parent (h a) with Some p => py_eq h p unsaved | None => false end.

(** [for a in articles: if hasattr(a, 'parent') and a.parent == unsaved:
       a.parent = saved; toprocess.append(a)]: the updated heap and the
    appended articles, in batch order. *)
Fixpoint adopt (arts : list oid) (unsaved saved : oid) (h : heap) : heap * list oid :=
  match arts with
  | [] => (h, [])
  | a :: rest =>
      let '(h1, kid) :=
        if parent_eq h unsaved a then (hupd h a (set_parent h a saved), [a]) else (h, []) in
      let '(h2, kids) := adopt rest unsaved saved h1 in
      (h2, kid ++ kids)
  end.

(** The work-list loop over [queue] (the unprocessed tail of
    [toprocess]).  [None] when the fuel runs out. *)
Fixpoint save_loop (fuel : nat) (arts queue : list oid) (w : world)
  : option (world * (list oid * option exn)) :=
  match queue with
  | [] => Some (w, ([], None))
  | unsaved :: rest =>
      match fuel with
      | 0 => None
      | S fuel' =>
          match save unsaved w with
          | (w1, Raise e) => Some (w1, ([], Some e))
          | (w1, Ret None) => save_loop fuel' arts rest w1
          | (w1, Ret (Some saved)) =>
              let '(h2, kids) := adopt arts unsaved saved (w_heap w1) in
              match save_loop fuel' arts (rest ++ kids) (mk_world h2 (w_db w1)) with
              | Some (w3, (ys, e)) => Some (w3, (saved :: ys, e))
              | None => None
              end
          end
      end
  end.

(** [save_in_order(articles)] run to the end by its consumer: the
    articles it yielded, in order, and the exception it raised, if any. *)
Definition save_in_order (arts : list oid) : PyM world (list oid * option exn) := fun w =>
  match save_loop (length arts) arts (roots (w_heap w) arts) w with
  | Some (w', r) => (w', Ret r)
  | None => (w, Ret ([], None))
  end.

End Saver.

(** ** The children scan *)

Section AdoptFacts.
Context `{Storage}.

Lemma proj_hupd {T} (f : obj -> T) h a v z :
  f v = f (h a) -> f (hupd h a v z) = f (h z).
Proof. intros Hv. unfold hupd. by case_decide; subst. Qed.

Lemma a_pk_hupd h a v z :
  a_pk v = a_pk (h a) -> a_pk (hupd h a v z) = a_pk (h z).
Proof. intros Hv. unfold hupd. by case_decide; subst. Qed.

Lemma py_eq_hupd h a v x y :
  a_pk v = a_pk (h a) -> py_eq (hupd h a v) x y = py_eq h x y.
Proof. intros Hv. unfold py_eq. by rewrite !(a_pk_hupd _ _ _ _ Hv). Qed.

Lemma hupd_ne h a v z : z <> a -> hupd h a v z = h z.
Proof. intros Hz. unfold hupd. by case_decide. Qed.

Lemma hupd_eq h a v : hupd h a v a = v.
Proof. unfold hupd. by case_decide. Qed.

Lemma set_parent_hupd h a v z s :
  z <> a -> a_pk v = a_pk (h a) -> set_parent (hupd h a v) z s = set_parent h z s.
Proof. intros Hz Hv. unfold set_parent. by rewrite (a_pk_hupd h a v s Hv), (hupd_ne h a v z Hz). Qed.

(** On a batch of distinct articles, the scan appends exactly the
    articles whose parent equals [u], in batch order, and re-points each
    of them at [s]; the other objects are untouched. *)
Lemma adopt_spec (B : list oid) u s h :
  NoDup B ->
  snd (adopt B u s h) = filter (fun a => parent_eq h u a = true) B /\
  forall x, fst (adopt B u s h) x =
    if bool_decide (x ∈ filter (fun a => parent_eq h u a = true) B)
    then set_parent h x s else h x.
Proof.
  revert h. induction B as [|a B IH]; intros h Hnd; simpl.
  { split; [done|]. done. }
  apply NoDup_cons in Hnd as [Ha Hnd].
  assert (Hfilt : forall h', (forall z, z <> a -> h' z = h z) ->
            (forall x y, py_eq h' x y = py_eq h x y) ->
            filter (fun b => parent_eq h' u b = true) B =
            filter (fun b => parent_eq h u b = true) B).
  { intros h' Hh' Hpy. apply filter_ext_in. intros b Hb.
    unfold parent_eq. rewrite Hh'; [|by intros ->].
    destruct (a_parent (h b)); [by rewrite Hpy | done]. }
  destruct (parent_eq h u a) eqn:Hpa.
  - set (h1 := hupd h a (set_parent h a s)).
    destruct (IH h1 Hnd) as [IHk IHh].
    destruct (adopt B u s h1) as [h2 kids]; simpl in *.
    pose proof (Hfilt h1 (fun z Hz => hupd_ne h a (set_parent h a s) z Hz)
                  (fun x y => py_eq_hupd h a (set_parent h a s) x y eq_refl)) as Hf1.
    rewrite Hf1 in IHk, IHh. rewrite filter_cons_True by done.
    split; [by rewrite IHk|]. intros x. rewrite IHh.
    subst h1. destruct (decide (x = a)) as [->|Hxa].
    + rewrite (bool_decide_true (a ∈ a :: _)) by constructor.
      rewrite bool_decide_false; [by rewrite hupd_eq|].
      intros Hin. by apply list_elem_of_filter in Hin as [_ ?].
    + rewrite (bool_decide_ext (x ∈ a :: _)
                 (x ∈ filter (fun b => parent_eq h u b = true) B)) by set_solver.
      rewrite !hupd_ne, set_parent_hupd by done. done.
  - destruct (IH h Hnd) as [IHk IHh].
    destruct (adopt B u s h) as [h2 kids]; simpl in *.
    rewrite filter_cons_False by (rewrite Hpa; discriminate).
    split; [done|]. intros x. by rewrite IHh.
Qed.

End AdoptFacts.

(** ** The loop invariant *)

Section LoopInvariant.
Context `{Storage}.
(** The batch: distinct objects. *)
Variable B : list oid.
Hypothesis HB : NoDup B.

(** The parent of [x] when it is an object of the batch. *)
Definition bparent (h : heap) (x : oid) : option oid :=
  match a_parent (h x) with
  | Some p => if bool_decide (p ∈ B) then Some p else None
  | None => None
  end.

(** The invariant of [save_loop] after the articles [dn] were taken from
    the work list, of which [sv] were saved, with [q] still queued:
    nothing is queued twice, the batch's articles are unsaved unless in
    [sv], every saved pk is a row, an article is queued only once its
    in-batch parent is saved, an article not yet queued has an unsaved
    in-batch parent, and a child of a saved article carries its pk. *)
Record loop_inv (w : world) (dn sv q : list oid) : Prop := {
  inv_nodup : NoDup (dn ++ q);
  inv_batch : forall x, x ∈ dn ++ q -> x ∈ B;
  inv_sv : forall x, x ∈ sv -> x ∈ dn;
  inv_unsaved : forall x, x ∈ B -> x ∉ sv -> a_pk (w_heap w x) = None;
  inv_saved : forall x, x ∈ sv -> is_Some (a_pk (w_heap w x));
  inv_cons : consistent w;
  inv_queued : forall x p, x ∈ dn ++ q -> bparent (w_heap w) x = Some p -> p ∈ sv;
  inv_pending : forall x, x ∈ B -> x ∉ dn ++ q ->
    exists p, bparent (w_heap w) x = Some p /\ p ∉ sv;
  inv_fk : forall x p, x ∈ B -> bparent (w_heap w) x = Some p -> p ∈ sv ->
    a_parent_id (w_heap w x) = a_pk (w_heap w p)
}.

(** On a batch of unsaved objects, [x in articles] is identity membership. *)
Lemma py_in_unsaved h p :
  (forall x, x ∈ B -> a_pk (h x) = None) -> py_in h p B = bool_decide (p ∈ B).
Proof.
  intros Hun. unfold py_in. case_bool_decide as Hp.
  - apply existsb_exists. exists p. split; [by apply list_elem_of_In|].
    unfold py_eq. rewrite Hun by done. by apply bool_decide_eq_true.
  - apply not_true_iff_false. intros (b & Hb%list_elem_of_In & Hbq)%existsb_exists.
    unfold py_eq in Hbq. destruct (a_pk (h p)) eqn:Hpk.
    + rewrite Hun in Hbq by done. by apply bool_decide_eq_true in Hbq.
    + apply bool_decide_eq_true in Hbq. by subst.
Qed.

(** Right after [u] got the fresh key [k], [p == u] is identity. *)
Lemma py_eq_fresh w u k p :
  consistent w -> k ∉ pks (db_rows (w_db w)) ->
  py_eq (hupd (w_heap w) u (set_pk (w_heap w u) k)) p u = bool_decide (p = u).
Proof.
  intros Hc Hk. unfold py_eq. rewrite hupd_eq.
  destruct (decide (p = u)) as [->|Hpu].
  - rewrite hupd_eq. simpl. by rewrite !bool_decide_true.
  - rewrite hupd_ne by done. rewrite (bool_decide_false (p = u)) by done.
    destruct (a_pk (w_heap w p)) as [k'|] eqn:Hp; [|done].
    apply bool_decide_false. simpl. intros [= ->]. by apply Hk, (Hc p).
Qed.

Lemma inv_init w :
  (forall x, x ∈ B -> a_pk (w_heap w x) = None) -> consistent w ->
  loop_inv w [] [] (roots (w_heap w) B).
Proof.
  intros Hun Hc. unfold roots, is_root. split; simpl.
  - by apply NoDup_filter.
  - intros x Hx%list_elem_of_filter. tauto.
  - set_solver.
  - intros x Hx _. by apply Hun.
  - set_solver.
  - done.
  - intros x p Hx%list_elem_of_filter. unfold bparent.
    destruct Hx as [Hr _]. destruct (a_parent (w_heap w x)); [|done].
    rewrite py_in_unsaved in Hr by done. case_bool_decide; naive_solver.
  - intros x Hx Hnot. unfold bparent.
    rewrite list_elem_of_filter in Hnot.
    destruct (a_parent (w_heap w x)) as [p|] eqn:Hp; [|tauto].
    rewrite py_in_unsaved in Hnot by done.
    exists p. split; [|set_solver]. case_bool_decide; [done|].
    exfalso. by apply Hnot.
  - set_solver.
Qed.

(** An article whose save was rolled back is dropped from the work list. *)
Lemma inv_skip w dn sv u rest :
  loop_inv w dn sv (u :: rest) -> loop_inv w (dn ++ [u]) sv rest.
Proof.
  intros [Hnd Hb Hsv Hun Hsd Hc Hq Hp Hfk].
  assert (Heq : (dn ++ [u]) ++ rest = dn ++ u :: rest) by (by rewrite <-app_assoc).
  split; rewrite ?Heq; try done. set_solver.
Qed.

(** A successful save of the queue's head [u] followed by the children
    scan: [u] gets a fresh key [k] and its row, the scan appends the
    articles whose parent object is [u], and re-points them at [u]. *)
Lemma save_adopt w u w1 s h2 kids :
  consistent w -> a_pk (w_heap w u) = None ->
  save u w = (w1, Ret (Some s)) -> adopt B u s (w_heap w1) = (h2, kids) ->
  s = u /\ exists k,
    db_rows (w_db w1) = db_rows (w_db w) ++ [row_of k (w_heap w u)] /\
    k ∉ pks (db_rows (w_db w)) /\
    kids = filter (fun a => a_parent (w_heap w a) = Some u) B /\
    forall x,
      a_pk (h2 x) = (if decide (x = u) then Some k else a_pk (w_heap w x)) /\
      a_parent (h2 x) = a_parent (w_heap w x) /\
      a_headline (h2 x) = a_headline (w_heap w x) /\
      a_parent_id (h2 x) =
        (if bool_decide (x ∈ kids) then Some k else a_parent_id (w_heap w x)).
Proof.
  intros Hc Hun Hs Had.
  destruct (save_Some_new _ _ _ _ Hun Hs) as [-> (k & Hh1 & Hrows & Hk)].
  split; [done|]. exists k. split; [done|]. split; [done|].
  set (h1 := hupd (w_heap w) u (set_pk (w_heap w u) k)) in *.
  destruct (adopt_spec B u u (w_heap w1) HB) as [Hkids Hh2].
  rewrite Had, Hh1 in Hkids, Hh2. simpl in Hkids, Hh2.
  assert (Hpar : forall z, a_parent (h1 z) = a_parent (w_heap w z))
    by (intros; by apply proj_hupd).
  assert (Hfilt : filter (fun a => parent_eq h1 u a = true) B =
                  filter (fun a => a_parent (w_heap w a) = Some u) B).
  { apply filter_ext_in. intros a _. unfold parent_eq. rewrite Hpar.
    destruct (a_parent (w_heap w a)) as [p|]; [|done].
    unfold h1. rewrite py_eq_fresh by done. rewrite bool_decide_eq_true. naive_solver. }
  rewrite Hfilt in Hkids, Hh2. split; [done|]. subst kids.
  intros x. rewrite Hh2. unfold h1.
  case_bool_decide as Hx; [apply list_elem_of_filter in Hx as [Hxu _]; unfold set_parent|];
    simpl; rewrite ?hupd_eq;
    (destruct (decide (x = u)) as [->|Hne]; [rewrite hupd_eq | rewrite hupd_ne by done]);
    simpl; by rewrite ?Hxu.
Qed.

Lemma bparent_Some h x p :
  bparent h x = Some p <-> a_parent (h x) = Some p /\ p ∈ B.
Proof.
  unfold bparent. destruct (a_parent (h x)) as [q|]; [|naive_solver].
  case_bool_decide; naive_solver.
Qed.

Lemma bparent_ext h h' x :
  a_parent (h' x) = a_parent (h x) -> bparent h' x = bparent h x.
Proof. unfold bparent. by intros ->. Qed.

Lemma nodup_head_not_done (dn rest : list oid) u :
  NoDup (dn ++ u :: rest) -> u ∉ dn.
Proof. intros (_ & Hd & _)%NoDup_app Hu. apply (Hd u Hu). by left. Qed.

(** A saved head keeps the invariant, with its children queued. *)
Lemma inv_save w dn sv u rest w1 s h2 kids :
  loop_inv w dn sv (u :: rest) ->
  save u w = (w1, Ret (Some s)) -> adopt B u s (w_heap w1) = (h2, kids) ->
  loop_inv (mk_world h2 (w_db w1)) (dn ++ [u]) (sv ++ [u]) (rest ++ kids).
Proof.
  intros Hi Hs Had. pose proof Hi as [Hnd Hb Hsv Hun Hsd Hc Hq Hp Hfk].
  assert (HuB : u ∈ B) by (apply Hb; set_solver).
  assert (Hudn : u ∉ dn) by (by eapply nodup_head_not_done).
  assert (Husv : u ∉ sv) by (intros ?; by apply Hudn, Hsv).
  destruct (save_adopt w u w1 s h2 kids Hc (Hun u HuB Husv) Hs Had)
    as [-> (k & Hrows & Hk & -> & Hf)].
  assert (Hbp : forall x, bparent h2 x = bparent (w_heap w) x)
    by (intros x; apply bparent_ext, Hf).
  assert (Hkid : forall x, x ∈ filter (fun a => a_parent (w_heap w a) = Some u) B <->
                           x ∈ B /\ bparent (w_heap w) x = Some u).
  { intros x. rewrite list_elem_of_filter, bparent_Some. naive_solver. }
  assert (Heq : (dn ++ [u]) ++ rest ++ filter (fun a => a_parent (w_heap w a) = Some u) B
              = (dn ++ u :: rest) ++ filter (fun a => a_parent (w_heap w a) = Some u) B)
    by (by rewrite <-!app_assoc).
  split; simpl; rewrite ?Heq, ?Hbp.
  - apply NoDup_app. split; [done|]. split; [|by apply NoDup_filter].
    intros x Hx [_ Hxu]%Hkid. by apply Husv, (Hq x).
  - intros x [Hx | Hx%Hkid]%elem_of_app; [by apply Hb | tauto].
  - set_solver.
  - intros x Hx Hnx. destruct (Hf x) as [-> _].
    case_decide; [set_solver|]. apply Hun; set_solver.
  - intros x Hx. destruct (Hf x) as [-> _].
    case_decide; [done|]. apply Hsd. set_solver.
  - intros o k' Ho. cbn [w_heap w_db] in *. rewrite Hrows. unfold pks. rewrite map_app.
    destruct (Hf o) as [Hpk _]. rewrite Hpk in Ho.
    case_decide; [injection Ho as ->; set_solver|].
    apply elem_of_app. left. by apply (Hc o).
  - intros x p [Hx | Hx%Hkid]%elem_of_app Hxp; rewrite Hbp in Hxp.
    + apply elem_of_app. left. by apply (Hq x).
    + destruct Hx as [_ Hx]. rewrite Hx in Hxp. injection Hxp as <-. set_solver.
  - intros x Hx Hnx.
    destruct (Hp x Hx) as (p & Hxp & Hpsv); [set_solver|].
    exists p. rewrite Hbp. split; [done|]. intros [Hpsv' | ->%list_elem_of_singleton]%elem_of_app;
      [done|]. apply Hnx, elem_of_app. right. by apply Hkid.
  - intros x p Hx Hxp Hpsv. rewrite Hbp in Hxp. destruct (Hf x) as (_ & _ & _ & ->).
    destruct (Hf p) as [-> _].
    apply elem_of_app in Hpsv as [Hpsv | ->%list_elem_of_singleton].
    + assert (p <> u) by (intros ->; by apply Husv).
      rewrite decide_False by done. rewrite bool_decide_false.
      * by apply Hfk.
      * intros [_ Hxu]%Hkid. congruence.
    + rewrite decide_True by done. rewrite bool_decide_true; [done|]. by apply Hkid.
Qed.

(** The invariant lets a run of [save_loop] be read branch by branch:
    an induction principle with one case per branch of the Python loop. *)
Section LoopInd.
Variable P : world -> list oid -> list oid -> list oid ->
             world * (list oid * option exn) -> Prop.
Hypothesis P_done : forall w dn sv, loop_inv w dn sv [] -> P w dn sv [] (w, ([], None)).
Hypothesis P_raise : forall w dn sv u rest w1 e,
  loop_inv w dn sv (u :: rest) -> save u w = (w1, Raise e) ->
  P w dn sv (u :: rest) (w1, ([], Some e)).
Hypothesis P_skip : forall w dn sv u rest r,
  loop_inv w dn sv (u :: rest) -> save u w = (w, Ret None) ->
  P w (dn ++ [u]) sv rest r -> P w dn sv (u :: rest) r.
Hypothesis P_save : forall w dn sv u rest w1 h2 kids w3 ys e,
  loop_inv w dn sv (u :: rest) -> save u w = (w1, Ret (Some u)) ->
  adopt B u u (w_heap w1) = (h2, kids) ->
  (exists f, save_loop f B (rest ++ kids) (mk_world h2 (w_db w1)) = Some (w3, (ys, e))) ->
  P (mk_world h2 (w_db w1)) (dn ++ [u]) (sv ++ [u]) (rest ++ kids) (w3, (ys, e)) ->
  P w dn sv (u :: rest) (w3, (u :: ys, e)).

Lemma save_loop_ind fuel w dn sv q r :
  loop_inv w dn sv q -> save_loop fuel B q w = Some r -> P w dn sv q r.
Proof.
  revert w dn sv q r. induction fuel as [|fuel IH]; intros w dn sv [|u rest] r Hi Hl;
    simpl in Hl; try discriminate; [by injection Hl as <-; apply P_done ..|].
  pose proof Hi as [Hnd Hb Hsv Hun _ _ _ _ _].
  assert (Hu : a_pk (w_heap w u) = None).
  { apply Hun; [apply Hb; set_solver|]. intros ?%Hsv. by eapply nodup_head_not_done. }
  destruct (save u w) as [w1 [[s|]|e]] eqn:Hs.
  - destruct (save_Some_new _ _ _ _ Hu Hs) as [-> _].
    destruct (adopt B u u (w_heap w1)) as [h2 kids] eqn:Had.
    destruct (save_loop fuel B (rest ++ kids) _) as [[w3 [ys e]]|] eqn:Hl';
      [|discriminate]. injection Hl as <-.
    eapply P_save; [done..| by eexists |]. apply IH; [|done]. by eapply inv_save.
  - assert (w1 = w) as ->.
    { apply save_cases in Hs as [(_ & [(? & ? & ? & ?) | [[? ?] | (? & ? & ? & ?)]]) | [? [? ?]]];
        congruence. }
    apply P_skip; [done..|]. apply IH; [|done]. by apply inv_skip.
  - injection Hl as <-. by apply P_raise.
Qed.
End LoopInd.

(** Every element of the work list is taken at most once, so the batch's
    length bounds the iterations. *)
Lemma save_loop_enough fuel w dn sv q :
  loop_inv w dn sv q -> length B <= fuel + length dn ->
  is_Some (save_loop fuel B q w).
Proof.
  revert w dn sv q. induction fuel as [|fuel IH]; intros w dn sv [|u rest] Hi Hlen;
    simpl; [done| |done|].
  - exfalso. pose proof (inv_nodup _ _ _ _ Hi) as Hnd.
    assert (length (dn ++ u :: rest) <= length B).
    { apply NoDup_incl_length; [by apply NoDup_ListNoDup|]. intros x Hx.
      apply list_elem_of_In, (inv_batch _ _ _ _ Hi). by apply list_elem_of_In. }
    rewrite length_app in *. simpl in *. lia.
  - pose proof Hi as [Hnd Hb Hsv Hun _ _ _ _ _].
    assert (Hu : a_pk (w_heap w u) = None).
    { apply Hun; [apply Hb; set_solver|]. intros ?%Hsv. by eapply nodup_head_not_done. }
    destruct (save u w) as [w1 [[s|]|e]] eqn:Hs; [|..|done].
    + destruct (save_Some_new _ _ _ _ Hu Hs) as [-> _].
      destruct (adopt B u u (w_heap w1)) as [h2 kids] eqn:Had.
      destruct (IH (mk_world h2 (w_db w1)) (dn ++ [u]) (sv ++ [u]) (rest ++ kids))
        as [[w3 [ys e]] ->]; [by eapply inv_save | rewrite length_app; simpl; lia |done].
    + assert (w1 = w) as ->.
      { apply save_cases in Hs as [(_ & [(? & ? & ? & ?) | [[? ?] | (? & ? & ? & ?)]]) | [? [? ?]]];
          congruence. }
      apply (IH w (dn ++ [u]) sv rest); [by apply inv_skip | rewrite length_app; simpl; lia].
Qed.

Lemma obj_eq (a b : obj) :
  a_parent a = a_parent b -> a_parent_id a = a_parent_id b ->
  a_pk a = a_pk b -> a_headline a = a_headline b -> a = b.
Proof. destruct a, b; simpl; congruence. Qed.

(** One saved head, read on the heap: parents are kept, the articles
    already saved are untouched, and [u] gets its key and its row. *)
Lemma save_step w dn sv u rest w1 h2 kids :
  loop_inv w dn sv (u :: rest) -> save u w = (w1, Ret (Some u)) ->
  adopt B u u (w_heap w1) = (h2, kids) ->
  (forall x, a_parent (h2 x) = a_parent (w_heap w x)) /\
  (forall x, x ∈ sv -> h2 x = w_heap w x) /\
  exists k, db_rows (w_db w1) = db_rows (w_db w) ++ [row_of k (h2 u)] /\
    a_pk (h2 u) = Some k.
Proof.
  intros Hi Hs Had. pose proof Hi as [Hnd Hb Hsv Hun Hsd Hc Hq Hp Hfk].
  assert (HuB : u ∈ B) by (apply Hb; set_solver).
  assert (Husv : u ∉ sv) by (intros ?%Hsv; by eapply nodup_head_not_done).
  destruct (save_adopt w u w1 u h2 kids Hc (Hun u HuB Husv) Hs Had)
    as [_ (k & Hrows & Hk & -> & Hf)].
  (* an article already taken, or [u] itself, is not a child of [u] *)
  assert (Hnk : forall x, x ∈ dn ++ u :: rest ->
            x ∉ filter (fun a => a_parent (w_heap w a) = Some u) B).
  { intros x Hx [Hxu HxB]%list_elem_of_filter. apply Husv, (Hq x); [done|].
    by apply bparent_Some. }
  split; [intros x; apply Hf|]. split.
  - intros x Hx. assert (x <> u) by (intros ->; by apply Husv).
    destruct (Hf x) as (Hpk & Hpar & Hhd & Hpid).
    apply obj_eq; try done.
    + rewrite Hpid, bool_decide_false; [done|]. apply Hnk. apply elem_of_app. left. by apply Hsv.
    + rewrite Hpk. by rewrite decide_False.
  - exists k. destruct (Hf u) as (Hpk & Hpar & Hhd & Hpid).
    rewrite decide_True in Hpk by done. split; [|done].
    rewrite Hrows. unfold row_of. rewrite Hhd, Hpid, bool_decide_false; [done|].
    apply Hnk. set_solver.
Qed.

(** The rows a run appends: one per yielded article, with its key. *)
Definition row_rel (h : heap) (x : oid) (r : row) : Prop :=
  a_pk (h x) = Some (r_pk r) /\ r = row_of (r_pk r) (h x).

Lemma save_raise_rows w u w1 e :
  save u w = (w1, Raise e) -> db_rows (w_db w1) = db_rows (w_db w) /\ w_heap w1 = w_heap w.
Proof.
  intros Hs. apply save_cases in Hs
    as [(_ & [(? & ? & ? & ?) | [[? ?] | (e' & Hw & Hh & _)]]) | [-> _]]; try done.
  split; [by eapply db_write_fail | done].
Qed.

Lemma loop_frozen fuel w dn sv q w' r :
  loop_inv w dn sv q -> save_loop fuel B q w = Some (w', r) ->
  forall x, x ∈ sv -> w_heap w' x = w_heap w x.
Proof.
  intros Hi Hl. change w' with (fst (w', r)). revert Hi Hl. generalize (w', r). intros res.
  apply (save_loop_ind (fun w dn sv q res => forall x, x ∈ sv -> w_heap (fst res) x = w_heap w x)).
  - done.
  - intros w0 dn0 sv0 u rest w1 e Hi0 Hs x _. simpl. by rewrite (proj2 (save_raise_rows _ _ _ _ Hs)).
  - done.
  - intros w0 dn0 sv0 u rest w1 h2 kids w3 ys e Hi0 Hs Had _ IH x Hx. simpl in *.
    rewrite IH by set_solver. by apply (save_step _ _ _ _ _ _ _ _ Hi0 Hs Had).
Qed.

Lemma loop_rows fuel w dn sv q w' ys e :
  loop_inv w dn sv q -> save_loop fuel B q w = Some (w', (ys, e)) ->
  exists new, db_rows (w_db w') = db_rows (w_db w) ++ new /\
    Forall2 (row_rel (w_heap w')) ys new.
Proof.
  apply (save_loop_ind (fun w dn sv q '(w', (ys, e)) => exists new,
           db_rows (w_db w') = db_rows (w_db w) ++ new /\ Forall2 (row_rel (w_heap w')) ys new)).
  - intros. exists []. by rewrite app_nil_r.
  - intros w0 dn0 sv0 u rest w1 e0 Hi0 Hs. exists [].
    rewrite app_nil_r. split; [apply (save_raise_rows _ _ _ _ Hs)|done].
  - done.
  - intros w0 dn0 sv0 u rest w1 h2 kids w3 ys0 e0 Hi0 Hs Had [f Hl] (new & Hr & Hf).
    destruct (save_step _ _ _ _ _ _ _ _ Hi0 Hs Had) as (_ & _ & k & Hr1 & Hk).
    assert (Hfz : w_heap w3 u = h2 u).
    { apply (loop_frozen f _ _ (sv0 ++ [u]) _ _ _ (inv_save _ _ _ _ _ _ _ _ _ Hi0 Hs Had) Hl).
      set_solver. }
    exists (row_of k (h2 u) :: new). simpl in Hr. rewrite Hr, Hr1, <-app_assoc.
    split; [done|]. constructor; [|done]. unfold row_rel. by rewrite Hfz.
Qed.

Lemma loop_order fuel w dn sv q w' ys e :
  loop_inv w dn sv q -> save_loop fuel B q w = Some (w', (ys, e)) ->
  forall l1 x l2 p, ys = l1 ++ x :: l2 -> bparent (w_heap w) x = Some p -> p ∈ sv ++ l1.
Proof.
  intros Hi Hl.
  refine (save_loop_ind (fun w dn sv q '(w', (ys, e)) =>
           forall l1 x l2 p, ys = l1 ++ x :: l2 -> bparent (w_heap w) x = Some p -> p ∈ sv ++ l1) _ _ _ _ fuel w dn sv q (w', (ys, e)) Hi Hl).
  - intros ? ? ? ? [] ? ? ? ?; discriminate.
  - intros ? ? ? ? ? ? ? ? ? [] ? ? ? ?; discriminate.
  - done.
  - intros w0 dn0 sv0 u rest w1 h2 kids w3 ys0 e0 Hi0 Hs Had _ IH [|y l1] x l2 p Hys Hxp;
      simpl in Hys; injection Hys as -> Hys.
    + rewrite app_nil_r. apply (inv_queued _ _ _ _ Hi0 x); [set_solver|done].
    + destruct (save_step _ _ _ _ _ _ _ _ Hi0 Hs Had) as (Hpar & _).
      rewrite <-(bparent_ext (w_heap w0) h2) in Hxp by apply Hpar.
      rewrite cons_middle, app_assoc. by eapply IH.
Qed.

Lemma loop_fk fuel w dn sv q w' ys e :
  loop_inv w dn sv q -> save_loop fuel B q w = Some (w', (ys, e)) ->
  forall x p, x ∈ ys -> bparent (w_heap w) x = Some p ->
    a_parent_id (w_heap w' x) = a_pk (w_heap w' p) /\ is_Some (a_pk (w_heap w' p)).
Proof.
  intros Hi Hl.
  refine (save_loop_ind (fun w dn sv q '(w', (ys, e)) =>
           forall x p, x ∈ ys -> bparent (w_heap w) x = Some p ->
             a_parent_id (w_heap w' x) = a_pk (w_heap w' p) /\ is_Some (a_pk (w_heap w' p))) _ _ _ _ fuel w dn sv q (w', (ys, e)) Hi Hl).
  - intros ? ? ? ? ? ? Hx. by apply not_elem_of_nil in Hx.
  - intros ? ? ? ? ? ? ? ? ? ? ? Hx. by apply not_elem_of_nil in Hx.
  - done.
  - intros w0 dn0 sv0 u rest w1 h2 kids w3 ys0 e0 Hi0 Hs Had [f Hl2] IH x p Hx Hxp.
    destruct (save_step _ _ _ _ _ _ _ _ Hi0 Hs Had) as (Hpar & _).
    pose proof (inv_save _ _ _ _ _ _ _ _ _ Hi0 Hs Had) as Hi2.
    rewrite <-(bparent_ext (w_heap w0) h2) in Hxp by apply Hpar.
    apply elem_of_cons in Hx as [-> | Hx]; [|by apply IH].
    assert (Hp : p ∈ sv0).
    { apply (inv_queued _ _ _ _ Hi0 u); [set_solver|].
      by rewrite <-(bparent_ext (w_heap w0) h2) by apply Hpar. }
    rewrite !(loop_frozen _ _ _ _ _ _ _ Hi2 Hl2) by set_solver. simpl.
    split; [|apply (inv_saved _ _ _ _ Hi2); set_solver].
    apply (inv_fk _ _ _ _ Hi2); [|done|set_solver].
    apply (inv_batch _ _ _ _ Hi0). set_solver.
Qed.

Lemma loop_nodup fuel w dn sv q w' ys e :
  loop_inv w dn sv q -> save_loop fuel B q w = Some (w', (ys, e)) ->
  NoDup ys /\ (forall x, x ∈ ys -> x ∉ sv /\ x ∈ B).
Proof.
  intros Hi Hl.
  refine (save_loop_ind (fun w dn sv q '(w', (ys, e)) =>
           NoDup ys /\ (forall x, x ∈ ys -> x ∉ sv /\ x ∈ B)) _ _ _ _ fuel w dn sv q (w', (ys, e)) Hi Hl).
  - intros. split; [constructor | set_solver].
  - intros. split; [constructor | set_solver].
  - done.
  - intros w0 dn0 sv0 u rest w1 h2 kids w3 ys0 e0 Hi0 Hs Had _ [Hnd Hys].
    pose proof Hi0 as [Hnd0 Hb Hsv _ _ _ _ _ _].
    assert (Husv : u ∉ sv0) by (intros ?%Hsv; by eapply nodup_head_not_done).
    split.
    + constructor; [|done]. intros Hu. apply (Hys u Hu). set_solver.
    + intros x [-> | Hx]%elem_of_cons; [split; [done|]; apply Hb; set_solver|].
      destruct (Hys x Hx) as [Hx1 Hx2]. split; [set_solver|done].
Qed.

End LoopInvariant.

(** ** Theorems about [save_in_order] *)

Section SaverTheorems.
Context `{Storage}.

(** The batches [save_in_order] is specified for: distinct articles, none
    saved yet, in a world whose saved objects all have their rows. *)
Definition fresh_batch (w : world) (arts : list oid) : Prop :=
  NoDup arts /\ (forall x, x ∈ arts -> a_pk (w_heap w x) = None) /\ consistent w.

(** An article whose chain of in-batch parents ends at a root. *)
Inductive grounded (h : heap) (arts : list oid) : oid -> Prop :=
| grounded_root x :
    (forall p, a_parent (h x) = Some p -> p ∉ arts) -> grounded h arts x
| grounded_child x p :
    a_parent (h x) = Some p -> p ∈ arts -> grounded h arts p -> grounded h arts x.

Lemma fresh_batch_inv w arts :
  fresh_batch w arts -> loop_inv arts w [] [] (roots (w_heap w) arts).
Proof. intros (Hnd & Hun & Hc). by apply inv_init. Qed.

Lemma save_in_order_loop w arts w' r :
  fresh_batch w arts -> save_in_order arts w = (w', Ret r) ->
  save_loop (length arts) arts (roots (w_heap w) arts) w = Some (w', r).
Proof.
  intros Hf. unfold save_in_order.
  destruct (save_loop_enough arts (proj1 Hf) (length arts) w [] []
              (roots (w_heap w) arts) (fresh_batch_inv w arts Hf) ltac:(lia)) as [[w1 r1] Hl].
  rewrite Hl. congruence.
Qed.

(** C32: the work-list loop of [save_in_order]
    finishes within the fuel it is given, the batch's length, on every
    batch of distinct unsaved articles: no article is taken from the work
    list twice. *)
Theorem save_in_order_terminates w arts :
  fresh_batch w arts ->
  is_Some (save_loop (length arts) arts (roots (w_heap w) arts) w).
Proof.
  intros Hf. apply (save_loop_enough arts (proj1 Hf) _ w [] []); [|simpl; lia].
  by apply fresh_batch_inv.
Qed.

(** What the loop's order invariant says of [save_in_order]: a yielded
    article's parent from the batch was yielded before it. *)
Lemma parent_yielded_before w arts w' ys e l1 x l2 p :
  fresh_batch w arts -> save_in_order arts w = (w', Ret (ys, e)) ->
  ys = l1 ++ x :: l2 -> a_parent (w_heap w x) = Some p -> p ∈ arts -> p ∈ l1.
Proof.
  intros Hf Hs Hys Hx Hp.
  pose proof (loop_order arts (proj1 Hf) _ _ _ _ _ _ _ _
                (fresh_batch_inv w arts Hf) (save_in_order_loop w arts _ _ Hf Hs)) as Ho.
  apply (Ho l1 x l2 p Hys). by apply bparent_Some.
Qed.

(** C1: dependency order.  Whenever
    [save_in_order] yields an article whose parent is in the batch, it
    has yielded (and so saved) that parent before. *)
Theorem save_in_order_parent_first w arts w' ys e l1 x l2 p :
  fresh_batch w arts -> save_in_order arts w = (w', Ret (ys, e)) ->
  ys = l1 ++ x :: l2 -> a_parent (w_heap w x) = Some p -> p ∈ arts ->
  p ∈ l1.
Proof.
  apply parent_yielded_before.
Qed.

(** C2: persistence.  The table after [save_in_order]
    is the table before with one row appended per yielded article, in
    yield order, carrying the key the article was given: no row committed
    before, or by an earlier article of the batch, is lost when a later
    write fails. *)
Theorem save_in_order_rows w arts w' ys e :
  fresh_batch w arts -> save_in_order arts w = (w', Ret (ys, e)) ->
  exists new, db_rows (w_db w') = db_rows (w_db w) ++ new /\
    Forall2 (row_rel (w_heap w')) ys new.
Proof.
  intros Hf Hs.
  exact (loop_rows arts (proj1 Hf) _ _ _ _ _ _ _ _
           (fresh_batch_inv w arts Hf) (save_in_order_loop w arts _ _ Hf Hs)).
Qed.

(** C31: reference resolution.  A yielded article whose
    parent is in the batch carries, in its foreign-key column, the key
    its parent was saved under ([a.parent = saved]). *)
Theorem save_in_order_fk w arts w' ys e x p :
  fresh_batch w arts -> save_in_order arts w = (w', Ret (ys, e)) ->
  x ∈ ys -> a_parent (w_heap w x) = Some p -> p ∈ arts ->
  exists k, a_pk (w_heap w' p) = Some k /\ a_parent_id (w_heap w' x) = Some k.
Proof.
  intros Hf Hs Hx Hxp Hp.
  destruct (loop_fk arts (proj1 Hf) _ _ _ _ _ _ _ _
              (fresh_batch_inv w arts Hf) (save_in_order_loop w arts _ _ Hf Hs) x p Hx)
    as [Hid [k Hk]]; [by apply bparent_Some|].
  exists k. by rewrite Hid.
Qed.

(** Every yielded article is an article of the
    batch, and none is yielded (or written) twice. *)
Theorem save_in_order_nodup w arts w' ys e :
  fresh_batch w arts -> save_in_order arts w = (w', Ret (ys, e)) ->
  NoDup ys /\ (forall x, x ∈ ys -> x ∈ arts).
Proof.
  intros Hf Hs.
  destruct (loop_nodup arts (proj1 Hf) _ _ _ _ _ _ _ _
              (fresh_batch_inv w arts Hf) (save_in_order_loop w arts _ _ Hf Hs)) as [? Hx].
  split; [done|]. intros x ?. by apply Hx.
Qed.

(** C34: every yielded article reaches a root of
    the batch through its chain of in-batch parents.  An article on a
    cycle of parent references never does, so it is never saved: the
    saver drops cycles silently. *)
Theorem save_in_order_grounded w arts w' ys e x :
  fresh_batch w arts -> save_in_order arts w = (w', Ret (ys, e)) ->
  x ∈ ys -> grounded (w_heap w) arts x.
Proof.
  intros Hf Hs Hx. apply list_elem_of_split in Hx as (l1 & l2 & Hys).
  remember (length l1) as n eqn:Hn. revert l1 x l2 Hys Hn.
  induction (lt_wf n) as [n _ IH]. intros l1 x l2 Hys ->.
  destruct (a_parent (w_heap w x)) as [p|] eqn:Hp;
    [destruct (decide (p ∈ arts)) as [Hpa|Hpa]|].
  - apply (grounded_child _ _ x p Hp Hpa).
    pose proof (parent_yielded_before w arts w' ys e l1 x l2 p Hf Hs Hys Hp Hpa) as Hl1.
    apply list_elem_of_split in Hl1 as (la & lb & ->).
    apply (IH (length la)) with la (lb ++ x :: l2); [|by rewrite Hys, <-app_assoc|done].
    rewrite length_app. simpl. lia.
  - apply grounded_root. intros p' Hp'. congruence.
  - apply grounded_root. intros p' Hp'. congruence.
Qed.

End SaverTheorems.

(** ** A batch of one parentless article *)

Section SingleArticle.
Context `{Storage}.

Lemma roots_one h o : a_parent (h o) = None -> roots h [o] = [o].
Proof. intros Hp. unfold roots. rewrite filter_cons_True; [done|]. unfold is_root. by rewrite Hp. Qed.

Lemma save_in_order_one w o w1 :
  a_parent (w_heap w o) = None -> save o w = (w1, Ret (Some o)) ->
  a_parent (w_heap w1 o) = None -> save_in_order [o] w = (w1, Ret ([o], None)).
Proof.
  intros Hp Hs Hp1. unfold save_in_order. rewrite roots_one by done. simpl.
  rewrite Hs. unfold parent_eq. rewrite Hp1. by destruct w1.
Qed.

Lemma save_in_order_one_failed w o :
  a_parent (w_heap w o) = None -> save o w = (w, Ret None) ->
  save_in_order [o] w = (w, Ret ([], None)).
Proof.
  intros Hp Hs. unfold save_in_order. rewrite roots_one by done. simpl.
  by rewrite Hs.
Qed.

End SingleArticle.

(** ** Concrete runs *)

Module SaverRuns.
Import PgTable StoreRuns.

Definition demo_batch : list oid := [3; 2; 1; 0].
Definition demo_run := save_in_order demo_batch w_demo.
Definition demo_end := fst demo_run.

Lemma demo_fresh : fresh_batch w_demo demo_batch.
Proof.
  split; [repeat constructor; set_solver|]. split.
  - intros x _. apply h_demo_unsaved.
  - intros o k. simpl. by rewrite h_demo_unsaved.
Qed.

(** The rejected [1] is rolled back, its child [3] is dropped, and [2]
    follows its parent [0]. *)
Example demo_run_yields : demo_run = (demo_end, Ret ([0; 2], None)).
Proof. reflexivity. Qed.

(** The two articles that point at each other are never saved. *)
Example cycle_dropped : snd (save_in_order [5; 4; 0] w_demo) = Ret ([0], None).
Proof. reflexivity. Qed.

Lemma save_in_order_terminates_witness :
  is_Some (save_loop (length demo_batch) demo_batch (roots (w_heap w_demo) demo_batch) w_demo).
Proof. apply (save_in_order_terminates w_demo demo_batch demo_fresh). Defined.

Lemma save_in_order_parent_first_witness :
  demo_run = (demo_end, Ret ([0; 2], None)) /\ 0 ∈ [0].
Proof.
  split; [reflexivity|].
  apply (save_in_order_parent_first w_demo demo_batch demo_end [0; 2] None [0] 2 [] 0
           demo_fresh); [reflexivity | reflexivity | reflexivity | set_solver].
Defined.

Lemma save_in_order_rows_witness :
  demo_run = (demo_end, Ret ([0; 2], None)) /\
  exists new, db_rows (w_db demo_end) = db_rows (w_db w_demo) ++ new /\
    Forall2 (row_rel (w_heap demo_end)) [0; 2] new.
Proof.
  split; [reflexivity|].
  apply (save_in_order_rows w_demo demo_batch demo_end [0; 2] None demo_fresh).
  reflexivity.
Defined.

Lemma save_in_order_fk_witness :
  demo_run = (demo_end, Ret ([0; 2], None)) /\
  exists k, a_pk (w_heap demo_end 0) = Some k /\ a_parent_id (w_heap demo_end 2) = Some k.
Proof.
  split; [reflexivity|].
  apply (save_in_order_fk w_demo demo_batch demo_end [0; 2] None 2 0 demo_fresh);
    [reflexivity | set_solver | reflexivity | set_solver].
Defined.

Lemma save_in_order_nodup_witness :
  demo_run = (demo_end, Ret ([0; 2], None)) /\
  NoDup [0; 2] /\ (forall x, x ∈ [0; 2] -> x ∈ demo_batch).
Proof.
  split; [reflexivity|].
  apply (save_in_order_nodup w_demo demo_batch demo_end [0; 2] None demo_fresh).
  reflexivity.
Defined.

Lemma save_in_order_grounded_witness :
  demo_run = (demo_end, Ret ([0; 2], None)) /\ grounded h_demo demo_batch 2.
Proof.
  split; [reflexivity|].
  apply (save_in_order_grounded w_demo demo_batch demo_end [0; 2] None 2 demo_fresh);
    [reflexivity | set_solver].
Defined.

End SaverRuns.
