(* ===== verification/Controller.v ===== *)
(** * The controllers: [Controller.scrape], [SimpleController],
      [RobustController]

    A scraper (the spec's harvester) is the record [scraper]: its unit
    discovery [get_units], its per-unit harvest [scrape_unit] (which
    creates article objects on the heap), its options' [date] and its
    article set.  The controller's state [cstate] is the world of
    [Store.v] with the article-set tables the controller writes
    ([add_articles], the [index_dirty] flags), the runs of the
    deduplication script, and [RobustController.errors].

    [scrape] is [Controller.scrape] (controller.py, lines 48-76), generic
    over the per-scraper strategy [_scrape], given as the class
    [ScrapeStrategy] with its frame law (a strategy does not touch the
    article-set tables).  [simple_scrape] is [SimpleController._scrape]
    (lines 115-121) and [robust_scrape] is [RobustController._scrape]
    with [scrape_unit] (lines 132-168); both are instances. *)

From stdpp Require Import base list gmap sets strings.
From S2P Require Import Prelude Store Saver.

(** ** Scrapers and the controller's state *)

Section Types.
Context `{Storage}.

(** A unit generator: the units it yields, and the exception it raises
    after them, if any. *)
Record scraper (U : Type) := mk_scraper {
  get_units : PyM world (list U * option exn);
  scrape_unit : U -> PyM world (list oid);
  sc_date : option string;
  sc_articleset : nat }.

(** [ScrapeError(i, unit, error)] *)
Record scrape_error (U : Type) := mk_scrape_error {
  se_i : option nat; se_unit : option U; se_error : exn }.

(** A run of [DeduplicateScript] with its options. *)
Record dedup_call := mk_dedup {
  dd_articleset : nat; dd_first_date : option string; dd_last_date : option string }.

Record cstate (U : Type) := mk_cstate {
  cs_world : world;
  cs_sets : gmap nat (gset oid);
  cs_dirty : gset nat;
  cs_dedup : list dedup_call;
  cs_errors : list (scrape_error U) }.

End Types.

Arguments mk_scraper {_ _} _ _ _ _.
Arguments get_units {_ _} _.
Arguments scrape_unit {_ _} _ _.
Arguments sc_date {_ _} _.
Arguments sc_articleset {_ _} _.
Arguments mk_scrape_error {_} _ _ _.
Arguments se_i {_} _.
Arguments se_unit {_} _.
Arguments se_error {_} _.
Arguments mk_cstate {_ _} _ _ _ _ _.
Arguments cs_world {_ _} _.
Arguments cs_sets {_ _} _.
Arguments cs_dirty {_ _} _.
Arguments cs_dedup {_ _} _.
Arguments cs_errors {_ _} _.

(** The argument of [scrape]: one scraper, or an iterable of them
    ([iter(scrapers)] raises [TypeError] on a single scraper). *)
Inductive scrapers_arg (A : Type) := One (s : A) | Many (ss : list A).
Arguments One {_} _.
Arguments Many {_} _.

Section Controller.
Context `{Storage} {U : Type}.

Definition set_world (w : world) (st : cstate U) : cstate U :=
  mk_cstate w (cs_sets st) (cs_dirty st) (cs_dedup st) (cs_errors st).

(** Run a computation of the world inside the controller's state. *)
Definition on_world {A} (m : PyM world A) : PyM (cstate U) A := zoom cs_world set_world m.

(** [scraper.articleset.add_articles(articles, set_dirty=False)] *)
Definition add_articles (sid : nat) (arts : list oid) : PyM (cstate U) unit :=
  modify (fun st => mk_cstate (cs_world st)
    (<[sid := cs_sets st !!! sid ∪ list_to_set arts]> (cs_sets st))
    (cs_dirty st) (cs_dedup st) (cs_errors st)).

(** [options = {'articleset': id}], with [first_date] and [last_date] set
    to the scraper's [date] option when it has one. *)
Definition dedup_options (s : scraper U) : dedup_call :=
  match sc_date s with
  | Some d => mk_dedup (sc_articleset s) (Some d) (Some d)
  | None => mk_dedup (sc_articleset s) None None
  end.

(** [DeduplicateScript(...).run(None)] with the options above. *)
Definition run_dedup (c : dedup_call) : PyM (cstate U) unit :=
  modify (fun st => mk_cstate (cs_world st) (cs_sets st) (cs_dirty st)
    (cs_dedup st ++ [c]) (cs_errors st)).

(** [ArticleSet.objects.filter(pk__in=used_sets).update(index_dirty=True)] *)
Definition flag_dirty (used : gset nat) : PyM (cstate U) unit :=
  modify (fun st => mk_cstate (cs_world st) (cs_sets st) (cs_dirty st ∪ used)
    (cs_dedup st) (cs_errors st)).

Definition add_error (e : scrape_error U) : PyM (cstate U) unit :=
  modify (fun st => mk_cstate (cs_world st) (cs_sets st) (cs_dirty st)
    (cs_dedup st) (cs_errors st ++ [e])).

(** The per-scraper strategy of a controller ([self._scrape]) and what
    it promises [Controller.scrape]: it leaves the article-set tables and
    the deduplication runs alone. *)
Class ScrapeStrategy := {
  _scrape : scraper U -> PyM (cstate U) (list oid);
  _scrape_frame : forall s st st' r, _scrape s st = (st', r) ->
    cs_sets st' = cs_sets st /\ cs_dirty st' = cs_dirty st /\ cs_dedup st' = cs_dedup st
}.

Context `{ScrapeStrategy}.

(** The loop body of [Controller.scrape] over the remaining scrapers. *)
Fixpoint scrape_loop (ss : list (scraper U)) (deduplicate : bool)
    (used : gset nat) (all : gset oid) : PyM (cstate U) (gset nat * gset oid) :=
  match ss with
  | [] => mret (used, all)
  | s :: rest =>
      r ← try_except (a ← _scrape s; mret (Some a)) Exception (fun _ => mret None);
      match r with
      | None => scrape_loop rest deduplicate used all
      | Some articles =>
          add_articles (sc_articleset s) articles;;
          (if deduplicate then run_dedup (dedup_options s) else mret ());;
          scrape_loop rest deduplicate ({[sc_articleset s]} ∪ used)
            (all ∪ list_to_set articles)
      end
  end.

(** [Controller.scrape(scrapers, deduplicate)] *)
Definition scrape (scrapers : scrapers_arg (scraper U)) (deduplicate : bool)
  : PyM (cstate U) (gset oid) :=
  let ss := match scrapers with One s => [s] | Many ss => ss end in
  '(used, all) ← scrape_loop ss deduplicate ∅ ∅;
  flag_dirty used;;
  mret all.

End Controller.

(** ** The two strategies *)

Section Strategies.
Context `{Storage} {U : Type}.

(** [SimpleController._scrape]: every unit's articles through
    [save_in_order]; the first exception (discovery, harvest or save)
    aborts the scraper and the [@to_list] result is lost. *)
Definition simple_unit (s : scraper U) (unit : U) : PyM world (list oid) :=
  articles ← scrape_unit s unit;
  '(ys, e) ← save_in_order articles;
  match e with None => mret ys | Some e => raise e end.

Definition simple_scrape (s : scraper U) : PyM world (list oid) :=
  '(units, err) ← get_units s;
  arts ← py_flat_map (simple_unit s) units;
  match err with None => mret arts | Some e => raise e end.

(** [RobustController.scrape_unit]: [list(scraper.scrape_unit(unit))],
    then the articles [save_in_order] yields and how it ended. *)
Definition robust_scrape_unit (s : scraper U) (unit : U) : PyM world (list oid * option exn) :=
  scrapedunits ← scrape_unit s unit;
  save_in_order scrapedunits.

(** The loop [for i, unit in units: try: ... except Exception as e:
    self.errors.append(ScrapeError(i, unit, e))]: the articles a unit
    yields before failing are kept in [result]. *)
Fixpoint robust_units (s : scraper U) (units : list (nat * U)) (result : list oid)
  : PyM (cstate U) (list oid) :=
  match units with
  | [] => mret result
  | (i, unit) :: rest =>
      out ← try_except (p ← on_world (robust_scrape_unit s unit); mret (inr p))
              Exception (fun e => mret (inl e));
      match out with
      | inl e =>
          add_error (mk_scrape_error (Some i) (Some unit) e);;
          robust_units s rest result
      | inr (ys, None) => robust_units s rest (result ++ ys)
      | inr (ys, Some e) =>
          add_error (mk_scrape_error (Some i) (Some unit) e);;
          robust_units s rest (result ++ ys)
      end
  end.

Definition no_results_exn : exn := mk_exn Exception "No results returned by _get_units()".

(** [units = list(enumerate(scraper.get_units()))] inside its
    [try/except Exception]: a failure of discovery, raised by the call
    itself or by the generator, is recorded as
    [ScrapeError(None, None, e)] and re-raised. *)
Definition discover_units (s : scraper U) : PyM (cstate U) (list U) :=
  try_except
    ('(units, err) ← on_world (get_units s);
     match err with Some e => raise e | None => mret units end)
    Exception (fun e => add_error (mk_scrape_error None None e);; raise e).

(** [RobustController._scrape] *)
Definition robust_scrape (s : scraper U) : PyM (cstate U) (list oid) :=
  units ← discover_units s;
  result ← robust_units s (enumerate units) [];
  if bool_decide (result = []) then raise no_results_exn else mret result.

(** The part of the state the strategies must leave alone. *)
Definition cs_frame (st st' : cstate U) : Prop :=
  cs_sets st' = cs_sets st /\ cs_dirty st' = cs_dirty st /\ cs_dedup st' = cs_dedup st.

#[export] Instance cs_frame_preorder : PreOrder cs_frame.
Proof.
  split; [by repeat split|].
  intros a b c (? & ? & ?) (? & ? & ?). repeat split; congruence.
Qed.

Lemma on_world_frame {A} (m : PyM world A) : moves_along cs_frame (on_world m).
Proof.
  constructor. intros st st' r. unfold on_world, zoom. destruct (m (cs_world st)).
  intros [= <- _]. by repeat split.
Qed.

Lemma add_error_frame e : moves_along cs_frame (add_error e).
Proof. apply moves_modify. all: first [apply _ | by repeat split]. Qed.

Lemma robust_units_frame s units result : moves_along cs_frame (robust_units s units result).
Proof.
  revert result. induction units as [|[i u] units IH]; intros result; simpl; moves_auto;
    [apply on_world_frame|].
  destruct a as [e|[ys [e|]]]; moves_auto; auto using add_error_frame.
Qed.

Lemma robust_scrape_frame s : moves_along cs_frame (robust_scrape s).
Proof.
  unfold robust_scrape, discover_units. moves_auto; [apply on_world_frame| | |apply robust_units_frame|].
  - destruct a as [units [e|]]; moves_auto.
  - apply add_error_frame.
  - case_bool_decide; moves_auto.
Qed.

#[export] Instance SimpleController : ScrapeStrategy (U:=U) := {|
  _scrape s := on_world (simple_scrape s);
  _scrape_frame s := moves_along_step (on_world_frame (simple_scrape s)) |}.

#[export] Instance RobustController : ScrapeStrategy (U:=U) := {|
  _scrape := robust_scrape;
  _scrape_frame s := moves_along_step (robust_scrape_frame s) |}.

End Strategies.

(** ** [Controller.scrape], for any strategy *)

Section ScrapeFacts.
Context `{Storage} {U : Type} {H0 : ScrapeStrategy (U:=U)}.

Definition after_success (s : scraper U) (deduplicate : bool) (arts : list oid)
    (st : cstate U) : cstate U :=
  let st1 := fst (add_articles (sc_articleset s) arts st) in
  if deduplicate then fst (run_dedup (dedup_options s) st1) else st1.

(** The loop body, on a scraper whose [_scrape] raised ... *)
Lemma scrape_loop_raise s rest d used all st st1 e :
  _scrape s st = (st1, Raise e) ->
  scrape_loop (s :: rest) d used all st = scrape_loop rest d used all st1.
Proof.
  intros Hs. simpl. cbv [mbind py_bind try_except mret py_ret]. rewrite Hs.
  by rewrite isinstance_Exception.
Qed.

(** ... and on one whose [_scrape] returned. *)
Lemma scrape_loop_ret s rest d used all st st1 arts :
  _scrape s st = (st1, Ret arts) ->
  scrape_loop (s :: rest) d used all st =
  scrape_loop rest d ({[sc_articleset s]} ∪ used) (all ∪ list_to_set arts)
    (after_success s d arts st1).
Proof.
  intros Hs. simpl. cbv [mbind py_bind try_except mret py_ret]. rewrite Hs.
  unfold after_success. by destruct d.
Qed.

Lemma scrape_loop_returns ss d used all st :
  exists st' r, scrape_loop ss d used all st = (st', Ret r).
Proof.
  revert used all st. induction ss as [|s rest IH]; intros used all st; [by eexists _, _|].
  destruct (_scrape s st) as [st1 [arts|e]] eqn:Hs.
  - rewrite (scrape_loop_ret _ _ _ _ _ _ _ _ Hs). apply IH.
  - rewrite (scrape_loop_raise _ _ _ _ _ _ _ _ Hs). apply IH.
Qed.

Lemma after_success_facts s d arts st :
  let st' := after_success s d arts st in
  (forall sid, cs_sets st !!! sid ⊆ cs_sets st' !!! sid) /\
  (forall x, x ∈ arts -> x ∈ cs_sets st' !!! sc_articleset s) /\
  cs_dirty st' = cs_dirty st /\
  cs_dedup st' = cs_dedup st ++ (if d then [dedup_options s] else []).
Proof.
  unfold after_success. destruct d; simpl; rewrite ?app_nil_r;
    (split; [intros sid; rewrite lookup_total_insert; case_decide; subst; set_solver|]);
    (split; [intros x Hx; rewrite lookup_total_insert_eq; set_solver|]); done.
Qed.

(** What a run of the loop did: the sets only grew, every article it
    returns is in the set of a scraper it used, the dirty flags are not
    touched yet, and the deduplication runs it added are those of used
    scrapers, none when [deduplicate] is false. *)
Lemma scrape_loop_spec ss d used all st st' used' all' :
  scrape_loop ss d used all st = (st', Ret (used', all')) ->
  (forall x, x ∈ all -> exists sid, sid ∈ used /\ x ∈ cs_sets st !!! sid) ->
  used ⊆ used' /\
  (forall x, x ∈ all' -> exists sid, sid ∈ used' /\ x ∈ cs_sets st' !!! sid) /\
  cs_dirty st' = cs_dirty st /\
  exists new, cs_dedup st' = cs_dedup st ++ new /\ (d = false -> new = []) /\
    forall c, c ∈ new -> exists s, s ∈ ss /\ c = dedup_options s /\ dd_articleset c ∈ used'.
Proof.
  revert used all st. induction ss as [|s rest IH]; intros used all st Hl Hall.
  { injection Hl as <- <- <-. split; [done|]. split; [done|]. split; [done|].
    exists []. rewrite app_nil_r. set_solver. }
  destruct (_scrape s st) as [st1 [arts|e]] eqn:Hs;
    pose proof (_scrape_frame s st st1 _ Hs) as (Hsets & Hdirty & Hdedup).
  - rewrite (scrape_loop_ret _ _ _ _ _ _ _ _ Hs) in Hl.
    destruct (after_success_facts s d arts st1) as (Hgrow & Hin & Hd1 & Hdd1).
    destruct (IH _ _ _ Hl) as (Hu & Hall' & Hdirty' & new & Hnew & Hnd & Hc).
    { intros x [Hx | Hx%elem_of_list_to_set]%elem_of_union.
      - destruct (Hall x Hx) as (sid & ? & ?). exists sid.
        split; [set_solver|]. apply Hgrow. by rewrite Hsets.
      - exists (sc_articleset s). split; [set_solver|]. by apply Hin. }
    split; [set_solver|]. split; [done|]. split; [by rewrite Hdirty', Hd1|].
    exists ((if d then [dedup_options s] else []) ++ new).
    rewrite Hnew, Hdd1, Hdedup, app_assoc. split; [done|].
    split; [intros ->; by apply Hnd|].
    intros c [Hc1 | Hc2]%elem_of_app.
    + destruct d; [|set_solver]. apply list_elem_of_singleton in Hc1 as ->.
      exists s. split; [set_solver|]. split; [done|].
      apply Hu. unfold dedup_options. destruct (sc_date s); set_solver.
    + destruct (Hc c Hc2) as (s' & ? & ? & ?). exists s'. set_solver.
  - rewrite (scrape_loop_raise _ _ _ _ _ _ _ _ Hs) in Hl.
    destruct (IH _ _ _ Hl) as (Hu & Hall' & Hdirty' & new & Hnew & Hnd & Hc).
    { intros x Hx. rewrite Hsets. by apply Hall. }
    split; [done|]. split; [done|]. split; [congruence|].
    exists new. rewrite Hnew, Hdedup. split; [done|]. split; [done|].
    intros c Hc'. destruct (Hc c Hc') as (s' & ? & ?). exists s'. set_solver.
Qed.

Lemma scrape_run sc d st st1 used all :
  scrape_loop (match sc with One s => [s] | Many ss => ss end) d ∅ ∅ st = (st1, Ret (used, all)) ->
  scrape sc d st = (fst (flag_dirty used st1), Ret all).
Proof. intros Hl. unfold scrape. cbv [mbind py_bind mret py_ret]. by rewrite Hl. Qed.

(** [scrape] on one scraper whose [_scrape] returned. *)
Lemma scrape_one_ret s d st st1 arts :
  _scrape s st = (st1, Ret arts) ->
  scrape (One s) d st =
  (fst (flag_dirty ({[sc_articleset s]} ∪ ∅) (after_success s d arts st1)), Ret (∅ ∪ list_to_set arts)).
Proof. intros Hs. apply scrape_run. by rewrite (scrape_loop_ret _ _ _ _ _ _ _ _ Hs). Qed.

(** C7: failure isolation per scraper.  Whatever
    each scraper's [_scrape] does, [Controller.scrape] returns normally:
    the [except Exception] around [_scrape] catches every exception, so
    no failure of a harvester reaches the caller. *)
Theorem scrape_never_raises sc d st :
  exists st' all, scrape sc d st = (st', Ret all).
Proof.
  destruct (scrape_loop_returns (match sc with One s => [s] | Many ss => ss end) d ∅ ∅ st)
    as (st1 & [used all] & Hl).
  eexists _, _. by apply scrape_run.
Qed.

(** C5: multi-harvester independence.  A scraper
    whose [_scrape] raises contributes nothing: [scrape] on it followed by
    others behaves as [scrape] on the others alone, started from the state
    the failed scraper left. *)
Theorem scrape_skips_failed s rest d st st1 e :
  _scrape s st = (st1, Raise e) ->
  scrape (Many (s :: rest)) d st = scrape (Many rest) d st1.
Proof.
  intros Hs. unfold scrape. cbv [mbind py_bind].
  by rewrite (scrape_loop_raise _ _ _ _ _ _ _ _ Hs).
Qed.

(** Every article [scrape] returns is in the article
    set of a scraper that produced it ([add_articles]), and that set is
    flagged [index_dirty] at the end. *)
Theorem scrape_attached sc d st st' all x :
  scrape sc d st = (st', Ret all) -> x ∈ all ->
  exists sid, sid ∈ cs_dirty st' /\ x ∈ cs_sets st' !!! sid.
Proof.
  intros Hs Hx.
  destruct (scrape_loop_returns (match sc with One s => [s] | Many ss => ss end) d ∅ ∅ st)
    as (st1 & [used all1] & Hl).
  rewrite (scrape_run _ _ _ _ _ _ Hl) in Hs. injection Hs as <- <-.
  destruct (scrape_loop_spec _ _ _ _ _ _ _ _ Hl) as (_ & Hall & _); [set_solver|].
  destruct (Hall x Hx) as (sid & Hsid & Hin). exists sid. simpl. set_solver.
Qed.

(** Deduplication.  Without [deduplicate] no
    deduplication runs; with it, every run is the one of a scraper that
    succeeded, on that scraper's article set (flagged dirty) and over its
    [date] option when it has one. *)
Theorem scrape_dedup_scoped sc d st st' all :
  scrape sc d st = (st', Ret all) ->
  exists new, cs_dedup st' = cs_dedup st ++ new /\ (d = false -> new = []) /\
    forall c, c ∈ new -> exists s,
      s ∈ (match sc with One s => [s] | Many ss => ss end) /\ c = dedup_options s /\
      dd_articleset c ∈ cs_dirty st'.
Proof.
  intros Hs.
  destruct (scrape_loop_returns (match sc with One s => [s] | Many ss => ss end) d ∅ ∅ st)
    as (st1 & [used all1] & Hl).
  rewrite (scrape_run _ _ _ _ _ _ Hl) in Hs. injection Hs as <- <-.
  destruct (scrape_loop_spec _ _ _ _ _ _ _ _ Hl) as (_ & _ & _ & new & Hn & Hd & Hc);
    [set_solver|].
  exists new. split; [done|]. split; [done|].
  intros c Hc'. destruct (Hc c Hc') as (s & ? & ? & ?). exists s. simpl. set_solver.
Qed.

End ScrapeFacts.

(** ** The two controllers *)

Section RobustFacts.
Context `{Storage} {U : Type}.

Definition with_error (e : scrape_error U) (st : cstate U) : cstate U :=
  fst (add_error e st).

(** One unit of the robust loop, by how [scrape_unit] ended. *)
Lemma robust_units_unit_raises s i u rest result (st : cstate U) w1 e :
  robust_scrape_unit s u (cs_world st) = (w1, Raise e) ->
  robust_units s ((i, u) :: rest) result st =
  robust_units s rest result (with_error (mk_scrape_error (Some i) (Some u) e) (set_world w1 st)).
Proof.
  intros Hu. simpl. cbv [mbind py_bind try_except mret py_ret on_world zoom].
  by rewrite Hu, isinstance_Exception.
Qed.

Lemma robust_units_unit_ok s i u rest result (st : cstate U) w1 ys :
  robust_scrape_unit s u (cs_world st) = (w1, Ret (ys, None)) ->
  robust_units s ((i, u) :: rest) result st = robust_units s rest (result ++ ys) (set_world w1 st).
Proof. intros Hu. simpl. cbv [mbind py_bind try_except mret py_ret on_world zoom]. by rewrite Hu. Qed.

Lemma robust_units_unit_partial s i u rest result (st : cstate U) w1 ys e :
  robust_scrape_unit s u (cs_world st) = (w1, Ret (ys, Some e)) ->
  robust_units s ((i, u) :: rest) result st =
  robust_units s rest (result ++ ys) (with_error (mk_scrape_error (Some i) (Some u) e) (set_world w1 st)).
Proof. intros Hu. simpl. cbv [mbind py_bind try_except mret py_ret on_world zoom]. by rewrite Hu. Qed.

(** C4: unit isolation.  The robust unit loop never
    raises; the articles already collected are kept (articles a failing
    unit yielded before its exception included); and it records at most
    one [ScrapeError] per unit, each naming the index and the unit that
    failed. *)
Theorem robust_units_isolated s units result (st st' : cstate U) r :
  robust_units s units result st = (st', r) ->
  exists res, r = Ret res /\ result `prefix_of` res /\
  exists errs, cs_errors st' = cs_errors st ++ errs /\ length errs <= length units /\
    forall e, e ∈ errs -> exists i u, (i, u) ∈ units /\ se_i e = Some i /\ se_unit e = Some u.
Proof.
  revert result st. induction units as [|[i u] rest IH]; intros result st Hl.
  { injection Hl as <- <-. exists result. split; [done|]. split; [done|].
    exists []. rewrite app_nil_r. simpl. split; [done|]. split; [lia|set_solver]. }
  assert (Hpre : forall ys res, (result ++ ys) `prefix_of` res -> result `prefix_of` res).
  { intros ys res Hp. transitivity (result ++ ys); [by apply prefix_app_r|done]. }
  assert (Hmem : forall e, e ∈ rest -> e ∈ (i, u) :: rest) by set_solver.
  destruct (robust_scrape_unit s u (cs_world st)) as [w1 [[ys [e|]]|e]] eqn:Hu.
  - rewrite (robust_units_unit_partial _ _ _ _ _ _ _ _ _ Hu) in Hl.
    destruct (IH _ _ Hl) as (res & -> & Hp & errs & Herr & Hlen & Hin).
    exists res. split; [done|]. split; [by eapply Hpre|].
    exists (mk_scrape_error (Some i) (Some u) e :: errs). simpl in *.
    rewrite Herr, <-app_assoc. split; [done|]. split; [lia|].
    intros e' [-> | He']%elem_of_cons; [exists i, u; set_solver|].
    destruct (Hin e' He') as (i' & u' & ? & ?). exists i', u'. set_solver.
  - rewrite (robust_units_unit_ok _ _ _ _ _ _ _ _ Hu) in Hl.
    destruct (IH _ _ Hl) as (res & -> & Hp & errs & Herr & Hlen & Hin).
    exists res. split; [done|]. split; [by eapply Hpre|].
    exists errs. simpl in *. split; [done|]. split; [lia|].
    intros e' He'. destruct (Hin e' He') as (i' & u' & ? & ?). exists i', u'. set_solver.
  - rewrite (robust_units_unit_raises _ _ _ _ _ _ _ _ Hu) in Hl.
    destruct (IH _ _ Hl) as (res & -> & Hp & errs & Herr & Hlen & Hin).
    exists res. split; [done|]. split; [done|].
    exists (mk_scrape_error (Some i) (Some u) e :: errs). simpl in *.
    rewrite Herr, <-app_assoc. split; [done|]. split; [lia|].
    intros e' [-> | He']%elem_of_cons; [exists i, u; set_solver|].
    destruct (Hin e' He') as (i' & u' & ? & ?). exists i', u'. set_solver.
Qed.

(** A discovery that returns gives [RobustController] its units. *)
Lemma discover_units_ok s (st : cstate U) w1 us :
  get_units s (cs_world st) = (w1, Ret (us, None)) ->
  discover_units s st = (set_world w1 st, Ret us).
Proof. intros Hg. unfold discover_units. cbv [mbind py_bind on_world zoom try_except]. by rewrite Hg. Qed.

(** A discovery failure, whether [get_units()] raises or the generator
    it returns does, is recorded as
    [ScrapeError(None, None, e)] and re-raised, before any unit is
    harvested: the state is the one discovery left, with the error. *)
Theorem robust_discovery_failure s (st : cstate U) w1 e :
  (exists us, get_units s (cs_world st) = (w1, Ret (us, Some e))) \/
  get_units s (cs_world st) = (w1, Raise e) ->
  robust_scrape s st =
    (with_error (mk_scrape_error None None e) (set_world w1 st), Raise e).
Proof.
  intros [[us Hg]|Hg]; unfold robust_scrape, discover_units;
    cbv [mbind py_bind on_world zoom try_except]; rewrite Hg; cbv [raise];
    by rewrite isinstance_Exception.
Qed.

(** A scraper whose units yield no article at all
    makes [RobustController._scrape] raise "No results returned by
    _get_units()", even when no unit failed. *)
Theorem robust_zero_output s (st st2 : cstate U) w1 us :
  get_units s (cs_world st) = (w1, Ret (us, None)) ->
  robust_units s (enumerate us) [] (set_world w1 st) = (st2, Ret []) ->
  robust_scrape s st = (st2, Raise no_results_exn).
Proof.
  intros Hg Hr. unfold robust_scrape, discover_units. cbv [mbind py_bind on_world zoom try_except].
  rewrite Hg. cbv [mret py_ret]. rewrite Hr. by rewrite bool_decide_true.
Qed.

(** The exception [RobustController._scrape]
    raises (discovery failure or no output) never reaches the caller of
    [scrape]: the inherited [Controller.scrape] catches it and returns an
    empty result, flagging nothing. *)
Theorem robust_failure_swallowed s d (st st1 : cstate U) e :
  robust_scrape s st = (st1, Raise e) ->
  scrape (H0:=RobustController) (One s) d st = (fst (flag_dirty ∅ st1), Ret ∅).
Proof.
  intros Hs. apply scrape_run. simpl. cbv [mbind py_bind try_except mret py_ret].
  rewrite Hs. by rewrite isinstance_Exception.
Qed.

(** [RobustController.errors] only grows. *)
Definition errs_grow (st st' : cstate U) : Prop := cs_errors st `prefix_of` cs_errors st'.

#[export] Instance errs_grow_preorder : PreOrder errs_grow.
Proof.
  split; [intros st; unfold errs_grow; reflexivity|].
  intros a b c H1 H2. unfold errs_grow in *. by etrans.
Qed.

Lemma on_world_errs {A} (m : PyM world A) : moves_along errs_grow (on_world m).
Proof.
  constructor. intros st st' r. unfold on_world, zoom. destruct (m (cs_world st)).
  intros [= <- _]. unfold errs_grow. reflexivity.
Qed.

Lemma modify_errs f : (forall st, cs_errors (f st) = cs_errors st) ->
  moves_along errs_grow (modify f).
Proof. intros Hf. apply moves_modify. intros st. unfold errs_grow. rewrite Hf. reflexivity. Qed.

Lemma add_error_errs e : moves_along errs_grow (add_error e).
Proof. apply moves_modify. intros st. by apply prefix_app_r. Qed.

Lemma robust_scrape_errs s : moves_along errs_grow (robust_scrape s).
Proof.
  assert (Hu : forall units result, moves_along errs_grow (robust_units s units result)).
  { induction units as [|[i u] units IH]; intros result; simpl; moves_auto;
      [apply on_world_errs|].
    destruct a as [e|[ys [e|]]]; moves_auto; auto using add_error_errs. }
  unfold robust_scrape, discover_units. moves_auto; [apply on_world_errs| | |apply Hu|].
  - destruct a as [units [e|]]; moves_auto.
  - apply add_error_errs.
  - case_bool_decide; moves_auto.
Qed.

Lemma robust_loop_errs ss d used all :
  moves_along errs_grow (scrape_loop (H0:=RobustController) ss d used all).
Proof.
  revert used all. induction ss as [|s ss IH]; intros used all; simpl; moves_auto;
    [apply robust_scrape_errs|].
  destruct a as [arts|]; moves_auto; [apply modify_errs; done| |apply IH..].
  destruct d; moves_auto. apply modify_errs. done.
Qed.

(** C33: [RobustController.errors] is set once,
    in the constructor, and never cleared: after [scrape] it still holds
    the errors of every earlier call, followed by the new ones. *)
Theorem robust_errors_accumulate sc d (st st' : cstate U) r :
  scrape (H0:=RobustController) sc d st = (st', r) -> cs_errors st `prefix_of` cs_errors st'.
Proof.
  revert st st' r. apply moves_along_step. unfold scrape. moves_auto;
    [apply robust_loop_errs|].
  destruct a as [used all]. moves_auto. by apply modify_errs.
Qed.

End RobustFacts.

Section SimpleFacts.
Context `{Storage} {U : Type}.

(** When discovery raises after yielding
    some units, [SimpleController] has already harvested and saved those
    units' articles (the world [w2]), but [scrape] returns nothing for
    the scraper and attaches none of them to its article set: the rows
    stay in the table, in no set. *)
Theorem simple_partial_discarded s d (st : cstate U) w1 us e w2 arts :
  get_units s (cs_world st) = (w1, Ret (us, Some e)) ->
  py_flat_map (simple_unit s) us w1 = (w2, Ret arts) ->
  scrape (H0:=SimpleController) (One s) d st = (fst (flag_dirty ∅ (set_world w2 st)), Ret ∅).
Proof.
  intros Hg Hu.
  assert (Hs : _scrape (ScrapeStrategy:=SimpleController) s st = (set_world w2 st, Raise e)).
  { simpl. cbv [on_world zoom simple_scrape mbind py_bind]. rewrite Hg.
    cbv [mbind py_bind] in Hu. by rewrite Hu. }
  apply scrape_run. by rewrite (scrape_loop_raise _ _ _ _ _ _ _ _ Hs).
Qed.

End SimpleFacts.

(** ** Concrete runs *)

Module ControllerRuns.
Import PgTable StoreRuns.

Definition St : Storage := PgStorage reject_bad.

Definition st0 : @cstate St nat := mk_cstate w_demo ∅ ∅ [] [].

(** [_ErrorScraper] of the controller's tests: unit [1] yields an article
    whose save fails with a database error, unit [2] a good one. *)
Definition error_scraper : @scraper St nat := mk_scraper
  (fun w => (w, Ret ([1; 2], None)))
  (fun u w => (w, Ret (if bool_decide (u = 1) then [1] else [0])))
  None 7.

(** [test_rollback]: the failed article is rolled back, the other one is
    saved and added to the set, and no error is recorded. *)
Example test_rollback :
  let '(st', r) := scrape (H0:=RobustController) (One error_scraper) false st0 in
  r = Ret {[0]} /\ cs_sets st' !!! 7 = {[0]} /\ cs_errors st' = [] /\ 7 ∈ cs_dirty st'.
Proof. vm_compute. repeat split; set_solver. Qed.

(** The spec's isolation scenario: unit [1] of three raises. *)
Definition parse_exn : exn := mk_exn ParseError "cannot parse unit".

Definition isolation_scraper : @scraper St nat := mk_scraper
  (fun w => (w, Ret ([10; 11; 12], None)))
  (fun u w => if bool_decide (u = 11) then (w, Raise parse_exn)
              else (w, Ret (if bool_decide (u = 10) then [0] else [2])))
  (Some "2014-01-01") 8.

Example isolation_run :
  let '(st', r) := scrape (H0:=RobustController) (One isolation_scraper) true st0 in
  r = Ret {[0; 2]} /\ cs_errors st' = [mk_scrape_error (Some 1) (Some 11) parse_exn] /\
  cs_dedup st' = [mk_dedup 8 (Some "2014-01-01") (Some "2014-01-01")].
Proof. vm_compute. repeat split; set_solver. Qed.

(** A scraper whose discovery fails outright, one whose units yield
    nothing, and one whose discovery fails after yielding a unit. *)
Definition broken_scraper : @scraper St nat := mk_scraper
  (fun w => (w, Ret ([], Some (mk_exn ValueError "source unavailable"))))
  (fun u w => (w, Ret [])) None 9.

Definition empty_scraper : @scraper St nat := mk_scraper
  (fun w => (w, Ret ([3], None))) (fun u w => (w, Ret [])) None 10.

Definition partial_scraper : @scraper St nat := mk_scraper
  (fun w => (w, Ret ([20], Some (mk_exn ValueError "connection reset"))))
  (fun u w => (w, Ret [0])) None 11.

Definition rollback_run := scrape (H0:=RobustController) (One error_scraper) false st0.
Definition isolation_run_dedup := scrape (H0:=RobustController) (One isolation_scraper) true st0.
Definition source_down : exn := mk_exn ValueError "source unavailable".

Lemma scrape_skips_failed_witness :
  robust_scrape broken_scraper st0 = (fst (robust_scrape broken_scraper st0), Raise source_down) /\
  scrape (H0:=RobustController) (Many [broken_scraper; error_scraper]) false st0 =
  scrape (H0:=RobustController) (Many [error_scraper]) false (fst (robust_scrape broken_scraper st0)).
Proof.
  split; [reflexivity|].
  apply (scrape_skips_failed (H0:=RobustController) broken_scraper [error_scraper] false st0
           _ source_down). reflexivity.
Defined.

Lemma scrape_attached_witness :
  rollback_run = (fst rollback_run, Ret {[0]}) /\
  exists sid, sid ∈ cs_dirty (fst rollback_run) /\ 0 ∈ cs_sets (fst rollback_run) !!! sid.
Proof.
  split; [vm_compute; reflexivity|].
  apply (scrape_attached (H0:=RobustController) (One error_scraper) false st0 _ {[0]} 0);
    [vm_compute; reflexivity | set_solver].
Defined.

Lemma scrape_dedup_scoped_witness :
  isolation_run_dedup = (fst isolation_run_dedup, Ret {[0; 2]}) /\
  exists new, cs_dedup (fst isolation_run_dedup) = cs_dedup st0 ++ new /\ (true = false -> new = []) /\
    forall c, c ∈ new -> exists s, s ∈ [isolation_scraper] /\ c = dedup_options s /\
      dd_articleset c ∈ cs_dirty (fst isolation_run_dedup).
Proof.
  split; [vm_compute; reflexivity|].
  apply (scrape_dedup_scoped (H0:=RobustController) (One isolation_scraper) true st0 _ {[0; 2]}).
  vm_compute. reflexivity.
Defined.

Lemma robust_units_isolated_witness :
  let run := robust_units isolation_scraper (enumerate [10; 11; 12]) [] st0 in
  run = (fst run, Ret [0; 2]) /\
  exists res, snd run = Ret res /\ [] `prefix_of` res /\
  exists errs, cs_errors (fst run) = cs_errors st0 ++ errs /\ length errs <= 3 /\
    forall e, e ∈ errs -> exists i u, (i, u) ∈ enumerate [10; 11; 12] /\
      se_i e = Some i /\ se_unit e = Some u.
Proof.
  split; [vm_compute; reflexivity|].
  apply (robust_units_isolated isolation_scraper (enumerate [10; 11; 12]) [] st0 _ _).
  reflexivity.
Defined.

Lemma robust_discovery_failure_witness :
  get_units broken_scraper (cs_world st0) = (cs_world st0, Ret ([], Some source_down)) /\
  robust_scrape broken_scraper st0 =
    (with_error (mk_scrape_error None None source_down) (set_world (cs_world st0) st0),
     Raise source_down).
Proof.
  split; [reflexivity|].
  apply (robust_discovery_failure broken_scraper st0 (cs_world st0) source_down). left. by exists [].
Defined.

Lemma robust_zero_output_witness :
  robust_units empty_scraper (enumerate [3]) [] (set_world (cs_world st0) st0) =
    (set_world (cs_world st0) st0, Ret []) /\
  robust_scrape empty_scraper st0 = (set_world (cs_world st0) st0, Raise no_results_exn).
Proof.
  split; [reflexivity|].
  apply (robust_zero_output empty_scraper st0 _ (cs_world st0) [3]); reflexivity.
Defined.

Lemma robust_failure_swallowed_witness :
  robust_scrape broken_scraper st0 = (fst (robust_scrape broken_scraper st0), Raise source_down) /\
  scrape (H0:=RobustController) (One broken_scraper) false st0 =
    (fst (flag_dirty ∅ (fst (robust_scrape broken_scraper st0))), Ret ∅).
Proof.
  split; [reflexivity|].
  apply (robust_failure_swallowed broken_scraper false st0 _ source_down). reflexivity.
Defined.

Definition st_with_error : @cstate St nat :=
  mk_cstate w_demo ∅ ∅ [] [mk_scrape_error None None source_down].

Lemma robust_errors_accumulate_witness :
  let run := scrape (H0:=RobustController) (One isolation_scraper) false st_with_error in
  run = (fst run, snd run) /\ cs_errors st_with_error `prefix_of` cs_errors (fst run).
Proof.
  split; [reflexivity|].
  apply (robust_errors_accumulate (One isolation_scraper) false st_with_error _ (snd
    (scrape (H0:=RobustController) (One isolation_scraper) false st_with_error))).
  reflexivity.
Defined.

Lemma simple_partial_discarded_witness :
  let w2 := fst (py_flat_map (simple_unit partial_scraper) [20] (cs_world st0)) in
  py_flat_map (simple_unit partial_scraper) [20] (cs_world st0) = (w2, Ret [0]) /\
  scrape (H0:=SimpleController) (One partial_scraper) false st0 =
    (fst (flag_dirty ∅ (set_world w2 st0)), Ret ∅).
Proof.
  split; [vm_compute; reflexivity|].
  apply (simple_partial_discarded partial_scraper false st0 (cs_world st0) [20]
           (mk_exn ValueError "connection reset") _ [0]); [reflexivity|].
  vm_compute. reflexivity.
Defined.

End ControllerRuns.
