(* ===== verification/ControllerTests.v ===== *)
(** * The controllers' unit tests (controller.py, lines 206-285)

    The test module of controller.py defines two scrapers and checks the
    controllers against a live table.  [_TestScraper] discovers
    [range(n)] and yields one new [Article(headline=str(unit))] per unit;
    [_ErrorScraper] discovers [[1, 2]] and yields, for unit [1], an
    [_ErrorArticle] whose [save()] runs invalid SQL, and for unit [2] an
    ordinary article.  A new object ([make_article]) is put on the heap
    at an identity of its own: the object created for unit [u] lives at
    [base + u], a range of identities no other object uses.  The test
    database [TestDB] is the Postgres-like table of [Store.v] that
    rejects exactly the invalid statement ([test_reject]).

    [test_scraper_asserts], [test_set_asserts] and [test_rollback_asserts]
    are the assertions of the three test methods.  The theorems show what
    the tests check, for every [n] and every state of the table in which
    the transaction is live, not only for the [n = 10] of the test run:
    [test_scraper] and [test_set] (every unit's article saved under
    consecutive keys, returned, and added to the set) and [test_rollback]
    (the invalid article rolled back, the other one saved and added, no
    error recorded); on a new project and set, the tests' assertions
    follow. *)

From stdpp Require Import base list gmap sets strings pretty.
From S2P Require Import Prelude Store Saver Controller.

Import PgTable.

(** ** The test scrapers *)

Section TestScrapers.
Context `{Storage}.

(** [Article(headline=..., date=date.today())]: a new, unsaved object
    without a parent, at identity [o]. *)
Definition make_article (o : oid) (headline : string) : PyM world oid :=
  modify (fun w => mk_world (hupd (w_heap w) o (mk_obj None None None headline)) (w_db w));;
  mret o.

(** [_TestScraper(project, articleset=sid, n)]: [_get_units] is
    [range(n)], [_scrape_unit(unit)] yields
    [Article(headline=str(unit), date=date.today())]. *)
Definition _TestScraper (base n sid : nat) : scraper nat := mk_scraper
  (fun w => (w, Ret (seq 0 n, None)))
  (fun unit => o ← make_article (base + unit) (pretty unit); mret [o])
  None sid.

(** What [_ErrorArticle.save()] runs: [Article.objects.raw(...)]. *)
Definition invalid_sql : string := "This is not valid SQL".

(** [_ErrorScraper(project, articleset=sid)]: units [[1, 2]]; unit [1]
    yields an [_ErrorArticle] (an object without [parent] whose write is
    the statement above), unit [2] an [Article(headline=str(unit))]. *)
Definition _ErrorScraper (base sid : nat) : scraper nat := mk_scraper
  (fun w => (w, Ret ([1; 2], None)))
  (fun unit =>
     if bool_decide (unit = 1) then o ← make_article (base + unit) invalid_sql; mret [o]
     else o ← make_article (base + unit) (pretty unit); mret [o])
  None sid.

End TestScrapers.

(** ** A table that runs every statement but the invalid one *)

(** Postgres rejects the raw statement with a [ProgrammingError], a
    [DatabaseError]; any other row of the tests is a valid INSERT. *)
Definition test_reject (r : row) : option exn :=
  if bool_decide (r_headline r = invalid_sql)
  then Some (mk_exn DatabaseError "syntax error at or near This") else None.

Definition TestDB : Storage := PgStorage test_reject.

(** ** The tests' assertions *)

(** [test_scraper], after [articles = c.scrape(ts)] on a new project:
    [p.articles.count() == ts.n] and
    [set(articles) == set(p.articles.all())], articles being equal when
    their keys are. *)
Definition test_scraper_asserts (n : nat) (st' : @cstate TestDB nat) (articles : gset oid) : Prop :=
  length (pg_rows (w_db (cs_world st'))) = n /\
  forall k, k ∈ pks (pg_rows (w_db (cs_world st'))) <->
    exists o, o ∈ articles /\ a_pk (w_heap (cs_world st') o) = Some k.

(** [test_set], after [c.scrape(ts)] with a new set [s]:
    [p.articles.count() == ts.n] and [s.articles.count() == ts.n]. *)
Definition test_set_asserts (n sid : nat) (st' : @cstate TestDB nat) : Prop :=
  length (pg_rows (w_db (cs_world st'))) = n /\ size (cs_sets st' !!! sid) = n.

(** [test_rollback], after [list(c.scrape(sc))] with a new set [s]:
    [s.articles.count() == 1]. *)
Definition test_rollback_asserts (sid : nat) (st' : @cstate TestDB nat) : Prop :=
  size (cs_sets st' !!! sid) = 1.

(** ** Helper facts *)

(** [str(unit)] is a numeral, never the invalid statement. *)
Lemma pretty_ne_invalid_sql (u : nat) : pretty u ≠ invalid_sql.
Proof.
  assert (Hgo : ∀ x s, s ≠ invalid_sql → pretty_N_go x s ≠ invalid_sql).
  { intros x. induction (N.lt_wf_0 x) as [x _ IH]; intros s Hs.
    destruct (decide (x = 0%N)) as [->|Hx]; [by rewrite pretty_N_go_0|].
    rewrite pretty_N_go_step by lia. apply IH; [apply N.div_lt; lia|].
    unfold pretty_N_char, invalid_sql. by repeat case_match. }
  unfold pretty, pretty_nat. unfold pretty, pretty_N. case_decide; [done|]. by apply Hgo.
Qed.

Lemma new_article_run `{Storage} o hl w :
  make_article o hl w = (mk_world (hupd (w_heap w) o (mk_obj None None None hl)) (w_db w), Ret o).
Proof. reflexivity. Qed.

(** A new article saved on its own: inserted under the next serial key
    and yielded ... *)
Lemma new_article_saved o hl (w : @world TestDB) :
  pg_aborted (w_db w) = false -> hl ≠ invalid_sql ->
  let a := mk_obj None None None hl in
  let k := pg_next (pg_rows (w_db w)) in
  save_in_order [o] (fst (make_article o hl w)) =
  (@mk_world TestDB (hupd (hupd (w_heap w) o a) o (set_pk a k))
     (mk_pg (pg_rows (w_db w) ++ [mk_row k None hl]) false), Ret ([o], None)).
Proof.
  intros Ha Hl a k. rewrite new_article_run. cbn [fst].
  apply save_in_order_one; cbn [w_heap]; try by rewrite hupd_eq.
  rewrite (pg_save_new test_reject); cbn [w_heap w_db]; rewrite ?hupd_eq; try done.
  unfold test_reject. simpl. by rewrite bool_decide_false.
Qed.

(** ... unless it is the invalid statement, which is rolled back. *)
Lemma new_article_rejected o (w : @world TestDB) :
  pg_aborted (w_db w) = false ->
  save_in_order [o] (fst (make_article o invalid_sql w)) =
  (fst (make_article o invalid_sql w), Ret ([], None)).
Proof.
  intros Ha. rewrite new_article_run. cbn [fst].
  apply save_in_order_one_failed; cbn [w_heap]; [by rewrite hupd_eq|].
  apply (pg_save_rejected test_reject _ _ (mk_exn DatabaseError "syntax error at or near This"));
    cbn [w_heap w_db]; rewrite ?hupd_eq; try done.
Qed.

(** One unit of [_TestScraper] under [SimpleController]: its article is
    inserted under the next serial key and yielded. *)
Lemma test_unit_saved base n sid u (w : @world TestDB) :
  pg_aborted (w_db w) = false ->
  let a := mk_obj None None None (pretty u) in
  let k := pg_next (pg_rows (w_db w)) in
  simple_unit (_TestScraper base n sid) u w =
  (@mk_world TestDB (hupd (hupd (w_heap w) (base + u) a) (base + u) (set_pk a k))
     (mk_pg (pg_rows (w_db w) ++ [mk_row k None (pretty u)]) false), Ret [base + u]).
Proof.
  intros Ha a k. unfold simple_unit. cbn [scrape_unit _TestScraper].
  cbv [mbind py_bind mret py_ret].
  pose proof (new_article_saved (base + u) _ _ Ha (pretty_ne_invalid_sql u)) as Hs.
  rewrite new_article_run in Hs |- *. cbn [fst] in Hs. by rewrite Hs.
Qed.

(** The units [start, ..., start + len - 1] of [_TestScraper] under
    [SimpleController]: their articles are inserted under consecutive
    keys, in unit order, and yielded; no other object changes. *)
Lemma test_units_saved base n sid start len (w : @world TestDB) :
  pg_aborted (w_db w) = false ->
  let k0 := pg_next (pg_rows (w_db w)) in
  exists w' : @world TestDB,
    py_flat_map (simple_unit (_TestScraper base n sid)) (seq start len) w =
      (w', Ret (map (Nat.add base) (seq start len))) /\
    pg_aborted (w_db w') = false /\
    pg_rows (w_db w') = pg_rows (w_db w) ++
      map (fun i => mk_row (k0 + i) None (pretty (start + i))) (seq 0 len) /\
    (forall i, i < len ->
       w_heap w' (base + (start + i)) = mk_obj None None (Some (k0 + i)) (pretty (start + i))) /\
    (forall o, o < base + start \/ base + start + len <= o -> w_heap w' o = w_heap w o).
Proof.
  revert start w. induction len as [|len IH]; intros start w Ha k0.
  { exists w. rewrite app_nil_r. repeat split; (done || lia). }
  set (a := mk_obj None None None (pretty start)).
  set (w1 := @mk_world TestDB (hupd (hupd (w_heap w) (base + start) a) (base + start) (set_pk a k0))
               (mk_pg (pg_rows (w_db w) ++ [mk_row k0 None (pretty start)]) false)).
  assert (Hu : simple_unit (_TestScraper base n sid) start w = (w1, Ret [base + start]))
    by (apply test_unit_saved; done).
  destruct (IH (S start) w1) as (w' & Hrun & Ha' & Hrows & Hnew & Hold); [done|].
  assert (Hk1 : pg_next (pg_rows (w_db w1)) = S k0) by (apply pg_next_app; done).
  rewrite Hk1 in Hrows, Hnew.
  exists w'. cbn [seq py_flat_map]. cbv [mbind py_bind mret py_ret] in *.
  rewrite Hu, Hrun. split; [done|]. split; [done|]. split; [|split].
  - rewrite Hrows.
    change (pg_rows (w_db w1)) with (pg_rows (w_db w) ++ [mk_row k0 None (pretty start)]).
    rewrite <-app_assoc. f_equal. cbn [seq map app]. rewrite !Nat.add_0_r. f_equal.
    rewrite <-seq_shift, map_map. apply map_ext. intros i. by rewrite !Nat.add_succ_r.
  - intros [|i] Hi.
    + rewrite Hold by lia. unfold w1; cbn [w_heap]. rewrite !Nat.add_0_r, hupd_eq. done.
    + replace (start + S i) with (S start + i) by lia. rewrite Hnew by lia.
      f_equal. f_equal. lia.
  - intros o Ho. rewrite Hold by lia. unfold w1; cbn [w_heap]. rewrite !hupd_ne by lia. done.
Qed.

(** ** The tests' assertions from the table *)

Lemma size_test_articles base n : size (list_to_set (C:=gset oid) (map (Nat.add base) (seq 0 n))) = n.
Proof.
  rewrite size_list_to_set, length_map, length_seq; [done|].
  apply NoDup_fmap_2; [intros x y; lia | apply NoDup_seq].
Qed.

(** On a new project and a new set, the rows, keys and set that
    [SimpleController.scrape] leaves satisfy the assertions of
    [test_scraper] and [test_set]. *)
Lemma test_scraper_asserts_rows base n sid k0 (st st' : @cstate TestDB nat) :
  pg_rows (w_db (cs_world st)) = [] -> cs_sets st !!! sid = ∅ ->
  pg_rows (w_db (cs_world st')) =
    pg_rows (w_db (cs_world st)) ++ map (fun i => mk_row (k0 + i) None (pretty i)) (seq 0 n) ->
  (forall i, i < n -> a_pk (w_heap (cs_world st') (base + i)) = Some (k0 + i)) ->
  cs_sets st' !!! sid = cs_sets st !!! sid ∪ list_to_set (map (Nat.add base) (seq 0 n)) ->
  test_scraper_asserts n st' (list_to_set (map (Nat.add base) (seq 0 n))) /\ test_set_asserts n sid st'.
Proof.
  intros Hr Hs Hrows Hpk Hsets. rewrite Hr in Hrows. simpl in Hrows.
  assert (Hlen : length (pg_rows (w_db (cs_world st'))) = n) by by rewrite Hrows, length_map, length_seq.
  split; [split; [done|]|].
  - intros k. rewrite Hrows. unfold pks. rewrite map_map, list_elem_of_fmap.
    setoid_rewrite elem_of_list_to_set. setoid_rewrite list_elem_of_fmap.
    split.
    + intros (i & -> & Hi%elem_of_seq). exists (base + i). rewrite Hpk by lia.
      split; [exists i; split; [done|apply elem_of_seq; lia]|done].
    + intros (o & (i & -> & Hi%elem_of_seq) & Hk). rewrite Hpk in Hk by lia.
      injection Hk as <-. exists i. split; [done|apply elem_of_seq; lia].
  - split; [done|]. rewrite Hsets, Hs, union_empty_l_L. apply size_test_articles.
Qed.

(** ** [test_scraper] and [test_set] *)

(** C9: [test_scraper] and [test_set] pass for every
    [n].  [SimpleController(s).scrape(_TestScraper(articleset=s, n))], in
    a live transaction, saves the [n] articles of the scraper under [n]
    new consecutive keys, one row per unit with [str(unit)] as headline
    in unit order ([p.articles.count() == ts.n]), returns exactly those
    articles, each carrying the key of its row
    ([set(articles) == set(p.articles.all())]), adds them to the set
    ([s.articles.count() == ts.n] for a new set) and flags the set
    dirty. *)
Theorem test_scraper_saves_all base n sid (st : @cstate TestDB nat) :
  pg_aborted (w_db (cs_world st)) = false ->
  let k0 := pg_next (pg_rows (w_db (cs_world st))) in
  let arts := map (Nat.add base) (seq 0 n) in
  exists st',
    scrape (H0:=SimpleController) (One (_TestScraper base n sid)) false st =
      (st', Ret (list_to_set arts)) /\
    pg_rows (w_db (cs_world st')) =
      pg_rows (w_db (cs_world st)) ++ map (fun i => mk_row (k0 + i) None (pretty i)) (seq 0 n) /\
    (forall i, i < n -> a_pk (w_heap (cs_world st') (base + i)) = Some (k0 + i)) /\
    cs_sets st' !!! sid = cs_sets st !!! sid ∪ list_to_set arts /\
    cs_dirty st' = cs_dirty st ∪ {[sid]} /\
    (pg_rows (w_db (cs_world st)) = [] -> cs_sets st !!! sid = ∅ ->
     test_scraper_asserts n st' (list_to_set arts) /\ test_set_asserts n sid st').
Proof.
  intros Ha k0 arts.
  destruct (test_units_saved base n sid 0 n (cs_world st) Ha)
    as (w' & Hrun & _ & Hrows & Hnew & _).
  assert (Hs : @_scrape TestDB nat SimpleController (_TestScraper base n sid) st =
                 (set_world w' st, Ret arts)).
  { cbn [_scrape SimpleController]. unfold on_world, zoom, simple_scrape.
    cbv [mbind py_bind mret py_ret]. simpl. by rewrite Hrun. }
  rewrite (scrape_one_ret _ _ _ _ _ Hs), union_empty_l_L.
  eexists. split; [done|].
  assert (Hpk : forall i, i < n -> a_pk (w_heap w' (base + i)) = Some (k0 + i)).
  { intros i Hi. specialize (Hnew i Hi). simpl in Hnew. by rewrite Hnew. }
  assert (Hset : <[sid:=cs_sets st !!! sid ∪ list_to_set arts]> (cs_sets st) !!! sid =
                 cs_sets st !!! sid ∪ list_to_set arts) by by rewrite lookup_total_insert_eq.
  cbn. split; [done|]. split; [exact Hpk|]. split; [exact Hset|]. split; [by rewrite union_empty_r_L|].
  intros Hr Hs0. eapply (test_scraper_asserts_rows base n sid k0 st); [exact Hr|exact Hs0|exact Hrows|exact Hpk|exact Hset].
Qed.

(** ** [test_rollback] *)

(** The two units of [_ErrorScraper] under [RobustController.scrape_unit]:
    the [_ErrorArticle] is rolled back and yields nothing ... *)
Lemma error_unit_rolled_back base sid (w : @world TestDB) :
  pg_aborted (w_db w) = false ->
  robust_scrape_unit (_ErrorScraper base sid) 1 w =
  (fst (make_article (base + 1) invalid_sql w), Ret ([], None)).
Proof.
  intros Ha. pose proof (new_article_rejected (base + 1) w Ha) as Hr.
  unfold robust_scrape_unit. cbn [scrape_unit _ErrorScraper]. rewrite bool_decide_true by done.
  cbv [mbind py_bind mret py_ret]. rewrite new_article_run in Hr |- *. exact Hr.
Qed.

(** ... and the article of unit [2] is saved. *)
Lemma error_unit_saved base sid (w : @world TestDB) :
  pg_aborted (w_db w) = false ->
  let a := mk_obj None None None (pretty 2) in
  let k := pg_next (pg_rows (w_db w)) in
  robust_scrape_unit (_ErrorScraper base sid) 2 w =
  (@mk_world TestDB (hupd (hupd (w_heap w) (base + 2) a) (base + 2) (set_pk a k))
     (mk_pg (pg_rows (w_db w) ++ [mk_row k None (pretty 2)]) false), Ret ([base + 2], None)).
Proof.
  intros Ha a k. pose proof (new_article_saved (base + 2) _ _ Ha (pretty_ne_invalid_sql 2)) as Hs.
  unfold robust_scrape_unit. cbn [scrape_unit _ErrorScraper]. rewrite bool_decide_false by done.
  cbv [mbind py_bind mret py_ret]. rewrite new_article_run in Hs |- *. exact Hs.
Qed.

(** C10: [test_rollback] passes in every live
    transaction.  [RobustController().scrape(_ErrorScraper(articleset=s))]
    rolls the invalid statement of unit [1] back to its savepoint, so the
    transaction stays usable; the article of unit [2] is then inserted
    as the only new row and is the only article returned and added to
    the set ([s.articles.count() == 1] for a new set); the rolled-back
    save is not an error, so [errors] is unchanged. *)
Theorem test_rollback_passes base sid (st : @cstate TestDB nat) :
  pg_aborted (w_db (cs_world st)) = false ->
  let k0 := pg_next (pg_rows (w_db (cs_world st))) in
  exists st',
    scrape (H0:=RobustController) (One (_ErrorScraper base sid)) false st =
      (st', Ret {[base + 2]}) /\
    pg_rows (w_db (cs_world st')) = pg_rows (w_db (cs_world st)) ++ [mk_row k0 None "2"] /\
    a_pk (w_heap (cs_world st') (base + 2)) = Some k0 /\
    cs_sets st' !!! sid = cs_sets st !!! sid ∪ {[base + 2]} /\
    cs_errors st' = cs_errors st /\
    (cs_sets st !!! sid = ∅ -> test_rollback_asserts sid st').
Proof.
  intros Ha k0.
  set (w1 := fst (make_article (base + 1) invalid_sql (cs_world st))).
  assert (Ha1 : pg_aborted (w_db w1) = false) by done.
  assert (Hs : @_scrape TestDB nat RobustController (_ErrorScraper base sid) st =
    (set_world (fst (robust_scrape_unit (_ErrorScraper base sid) 2 w1))
       (set_world w1 (set_world (cs_world st) st)), Ret [base + 2])).
  { cbn [_scrape RobustController]. unfold robust_scrape. cbv [mbind py_bind].
    rewrite (discover_units_ok _ st (cs_world st) [1; 2]) by reflexivity.
    change (enumerate [1; 2]) with [(0, 1); (1, 2)].
    rewrite (robust_units_unit_ok _ _ _ _ _ (set_world (cs_world st) st) _ _
               (error_unit_rolled_back base sid _ Ha)).
    rewrite (robust_units_unit_ok _ _ _ _ _ (set_world w1 (set_world (cs_world st) st)) _ _
               (error_unit_saved base sid _ Ha1)).
    cbn [robust_units app]. cbv [mret py_ret]. rewrite bool_decide_false by done.
    by rewrite (error_unit_saved base sid _ Ha1). }
  rewrite (scrape_one_ret _ _ _ _ _ Hs), union_empty_l_L.
  rewrite list_to_set_cons, list_to_set_nil, !union_empty_r_L.
  eexists. split; [done|]. rewrite (error_unit_saved base sid _ Ha1). cbn.
  split; [done|]. split; [by rewrite hupd_eq|].
  split; [rewrite lookup_total_insert_eq; set_solver|]. split; [done|].
  intros Hs0. unfold test_rollback_asserts. cbn.
  by rewrite lookup_total_insert_eq, Hs0, union_empty_l_L, union_empty_r_L, size_singleton.
Qed.

(** ** Concrete runs *)

Module ControllerTestsRuns.

(** A fresh test database: no rows, a live transaction, an empty heap. *)
Definition st_test : @cstate TestDB nat :=
  mk_cstate (@mk_world TestDB (fun _ => mk_obj None None None "") (mk_pg [] false)) ∅ ∅ [] [].

(** [test_scraper] and [test_set] as the test runs them: [n = 10]. *)
Example test_set_ten :
  let '(st', r) := scrape (H0:=SimpleController) (One (_TestScraper 100 10 5)) false st_test in
  length (pg_rows (w_db (cs_world st'))) = 10 /\ size (cs_sets st' !!! 5) = 10 /\
  r = Ret (list_to_set (seq 100 10)).
Proof. vm_compute. auto. Qed.

Lemma test_scraper_saves_all_witness :
  pg_aborted (w_db (cs_world st_test)) = false /\
  exists st',
    scrape (H0:=SimpleController) (One (_TestScraper 100 3 5)) false st_test =
      (st', Ret (list_to_set (map (Nat.add 100) (seq 0 3)))) /\
    pg_rows (w_db (cs_world st')) =
      pg_rows (w_db (cs_world st_test)) ++ map (fun i => mk_row (1 + i) None (pretty i)) (seq 0 3) /\
    (forall i, i < 3 -> a_pk (w_heap (cs_world st') (100 + i)) = Some (1 + i)) /\
    cs_sets st' !!! 5 = cs_sets st_test !!! 5 ∪ list_to_set (map (Nat.add 100) (seq 0 3)) /\
    cs_dirty st' = cs_dirty st_test ∪ {[5]} /\
    (pg_rows (w_db (cs_world st_test)) = [] -> cs_sets st_test !!! 5 = ∅ ->
     test_scraper_asserts 3 st' (list_to_set (map (Nat.add 100) (seq 0 3))) /\ test_set_asserts 3 5 st').
Proof. split; [reflexivity|]. apply (test_scraper_saves_all 100 3 5 st_test). reflexivity. Defined.

Lemma test_rollback_passes_witness :
  pg_aborted (w_db (cs_world st_test)) = false /\
  exists st',
    scrape (H0:=RobustController) (One (_ErrorScraper 100 5)) false st_test = (st', Ret {[102]}) /\
    pg_rows (w_db (cs_world st')) = pg_rows (w_db (cs_world st_test)) ++ [mk_row 1 None "2"] /\
    a_pk (w_heap (cs_world st') 102) = Some 1 /\
    cs_sets st' !!! 5 = cs_sets st_test !!! 5 ∪ {[102]} /\
    cs_errors st' = cs_errors st_test /\
    (cs_sets st_test !!! 5 = ∅ -> test_rollback_asserts 5 st').
Proof. split; [reflexivity|]. apply (test_rollback_passes 100 5 st_test). reflexivity. Defined.

End ControllerTestsRuns.
