(* ===== verification/Pool.v ===== *)
(** * [ThreadedController]: the worker pool and the committer

    [ThreadedController.scrape(scraper)] (controller.py, lines 191-198)
    starts a [QueueProcessorThread] running [self.save] on every item put
    on its input queue and appending the result to [result], then
    [_scrape_to_queue] (lines 182-189) calls [distribute_tasks] over the
    units of [scraper.get_units()] with [scraper.scrape_unit] as the
    action, [nthreads] workers and [retry_exceptions=3], each worker
    putting the articles of a harvested unit on the committer's queue;
    finally [done] is set on the queue and the caller joins it.

    [amcat.tools.multithread] is not under [src/]: its protocol is modelled
    from the spec (section 4.4) as the step relation [pstep] on the
    explicit state [pool]: a work queue of [task]s, the tasks held by
    workers, the committer's queue, the [done] flag, the units given up,
    the units acknowledged by a worker, the failed attempts the pool logs,
    and the committer's result.  One harvest is one step (a worker runs
    [scrape_unit] atomically on the shared world); the committer's saves
    interleave with the workers' steps in any order.  As the spec says
    the committer returns the records it persisted, a save that returns
    [None] adds nothing to [result]; an exception of a save is logged and
    the committer goes on. *)

From stdpp Require Import base list gmap sets strings relations.
From S2P Require Import Prelude Store Saver Controller.

(** ** The pool's state *)

Section PoolState.
Context `{Storage} {U : Type}.

(** A unit on the work queue or held by a worker: its position in the
    discovery order, the unit, and the attempts it has left. *)
Record task := mk_task { t_i : nat; t_unit : U; t_left : nat }.

Record pool := mk_pool {
  p_world : world;
  p_work : list task;
  p_busy : list task;
  p_results : list oid;
  p_done : bool;
  p_failed : list (nat * exn);
  p_acked : list nat;
  p_log : list nat;
  p_out : list oid }.

End PoolState.

Arguments task : clear implicits.
Arguments pool {_} _.
Arguments mk_task {_} _ _ _.
Arguments t_i {_} _.
Arguments t_unit {_} _.
Arguments t_left {_} _.
Arguments mk_pool {_ _} _ _ _ _ _ _ _ _ _.
Arguments p_world {_ _} _.
Arguments p_work {_ _} _.
Arguments p_busy {_ _} _.
Arguments p_results {_ _} _.
Arguments p_done {_ _} _.
Arguments p_failed {_ _} _.
Arguments p_acked {_ _} _.
Arguments p_log {_ _} _.
Arguments p_out {_ _} _.

(** [distribute_tasks(..., retry_exceptions=3)]: a unit is attempted at
    most three times. *)
Definition retry_exceptions : nat := 3.

Section Pool.
Context `{Storage} {U : Type} (s : scraper U) (nthreads : nat).

(** The tasks of the discovered units, in discovery order. *)
Definition init_tasks (units : list U) : list (task U) :=
  map (fun '(i, u) => mk_task i u retry_exceptions) (enumerate units).

(** The state right after discovery: nothing harvested or saved yet. *)
Definition init_pool (w : world) (units : list U) : pool U :=
  mk_pool w (init_tasks units) [] [] false [] [] [] [].

Definition option_list {A} (o : option A) : list A :=
  match o with Some a => [a] | None => [] end.

(** One step of the pool.  Workers take the head of the work queue while
    fewer than [nthreads] units are held; a worker finishes any unit it
    holds: on success its articles go to the committer's queue and the
    unit is acknowledged; on an exception the failure is logged and the
    unit goes back to the work queue if it has attempts left, else it is
    given up.  The committer saves the head of its queue with
    [Controller.save] at any time.  When the work queue is empty and no worker holds
    a unit, [done] is set. *)
Inductive pstep : pool U -> pool U -> Prop :=
| step_take w t work busy rs d fl ak lg out :
    length busy < nthreads ->
    pstep (mk_pool w (t :: work) busy rs d fl ak lg out)
          (mk_pool w work (busy ++ [t]) rs d fl ak lg out)
| step_harvest w w' t work b1 b2 rs d fl ak lg out arts :
    scrape_unit s (t_unit t) w = (w', Ret arts) ->
    pstep (mk_pool w work (b1 ++ t :: b2) rs d fl ak lg out)
          (mk_pool w' work (b1 ++ b2) (rs ++ arts) d fl (ak ++ [t_i t]) lg out)
| step_retry w w' t work b1 b2 rs d fl ak lg out e :
    scrape_unit s (t_unit t) w = (w', Raise e) -> 1 < t_left t ->
    pstep (mk_pool w work (b1 ++ t :: b2) rs d fl ak lg out)
          (mk_pool w' (work ++ [mk_task (t_i t) (t_unit t) (pred (t_left t))]) (b1 ++ b2)
             rs d fl ak (lg ++ [t_i t]) out)
| step_give_up w w' t work b1 b2 rs d fl ak lg out e :
    scrape_unit s (t_unit t) w = (w', Raise e) -> t_left t <= 1 ->
    pstep (mk_pool w work (b1 ++ t :: b2) rs d fl ak lg out)
          (mk_pool w' work (b1 ++ b2) rs d (fl ++ [(t_i t, e)]) ak (lg ++ [t_i t]) out)
| step_commit w w' o work busy rs d fl ak lg out r :
    save o w = (w', Ret r) ->
    pstep (mk_pool w work busy (o :: rs) d fl ak lg out)
          (mk_pool w' work busy rs d fl ak lg (out ++ option_list r))
| step_commit_raise w w' o work busy rs d fl ak lg out e :
    save o w = (w', Raise e) ->
    pstep (mk_pool w work busy (o :: rs) d fl ak lg out)
          (mk_pool w' work busy rs d fl ak lg out)
| step_close w rs fl ak lg out :
    pstep (mk_pool w [] [] rs false fl ak lg out)
          (mk_pool w [] [] rs true fl ak lg out).

(** The caller's [join] returns: [done] is set and the committer has
    drained its queue. *)
Definition pool_final (p : pool U) : bool := p_done p && bool_decide (p_results p = []).

End Pool.

(** ** Termination and progress *)

Section Progress.
Context `{Storage} {U : Type} (s : scraper U) (nthreads : nat).

(** The pool's measure: a unit on the work queue weighs more than the
    same unit held by a worker, and a retried unit less than the one that
    failed, so every worker step and [close] lower the first component;
    a commit keeps it and shortens the committer's queue. *)
Definition pool_measure (p : pool U) : nat * nat :=
  (sum_list_with (fun t => 2 * t_left t + 2) (p_work p)
   + sum_list_with (fun t => 2 * t_left t + 1) (p_busy p)
   + (if p_done p then 0 else 1),
   length (p_results p)).

Definition lex_lt (a b : nat * nat) : Prop :=
  a.1 < b.1 \/ (a.1 = b.1 /\ a.2 < b.2).

Lemma pstep_measure p p' :
  pstep s nthreads p p' -> lex_lt (pool_measure p') (pool_measure p).
Proof.
  unfold lex_lt, pool_measure.
  destruct 1; simpl; rewrite ?sum_list_with_app; simpl;
    first [left; lia | right; split; lia].
Qed.

Lemma lex_lt_wf : well_founded lex_lt.
Proof.
  intros [a b]. revert b. induction a as [a IHa] using lt_wf_ind.
  intros b. induction b as [b IHb] using lt_wf_ind.
  constructor. intros [a' b'] [Hlt | [Heq Hlt]]; simpl in *.
  - by apply IHa.
  - subst a'. by apply IHb.
Qed.

(** Every step of the pool moves forward: there is no infinite run. *)
Lemma pool_wf : well_founded (fun p' p => pstep s nthreads p p').
Proof.
  apply (wf_projected lex_lt pool_measure); [| exact lex_lt_wf].
  intros p' p. apply pstep_measure.
Qed.

(** No deadlock: a state that is not final always has a step, provided
    the pool has a worker. *)
Lemma pool_progress p :
  0 < nthreads -> pool_final p = false -> exists p', pstep s nthreads p p'.
Proof.
  intros Hn Hf. destruct p as [w work busy rs d fl ak lg out].
  destruct rs as [|o rs].
  - destruct busy as [|t busy].
    + destruct work as [|t work].
      * destruct d; [done|]. eexists. apply step_close.
      * eexists. by apply step_take.
    + destruct (scrape_unit s (t_unit t) w) as [w' [arts|e]] eqn:Hsu.
      * eexists. eapply step_harvest with (b1 := []) (b2 := busy); eauto.
      * destruct (decide (1 < t_left t)).
        -- eexists. eapply step_retry with (b1 := []) (b2 := busy); eauto.
        -- eexists. eapply step_give_up with (b1 := []) (b2 := busy); eauto; lia.
  - destruct (save o w) as [w' [r|e]] eqn:Hsv.
    + eexists. by apply step_commit.
    + eexists. by eapply step_commit_raise.
Qed.

End Progress.

(** ** The pool's invariant *)

(** How many failed attempts of unit [i] the pool has logged. *)
Definition log_count (lg : list nat) (i : nat) : nat := length (filter (fun j => j = i) lg).

Lemma log_count_app lg lg' i : log_count (lg ++ lg') i = log_count lg i + log_count lg' i.
Proof. unfold log_count. by rewrite filter_app, length_app. Qed.

Lemma log_count_single j i : log_count [j] i = if decide (j = i) then 1 else 0.
Proof. unfold log_count. rewrite filter_cons. by case_decide. Qed.

Lemma log_count_notin lg i : i ∉ lg -> log_count lg i = 0.
Proof.
  unfold log_count. induction lg as [|j lg IH]; intros Hn; [done|].
  rewrite filter_cons. case_decide; [subst; set_solver|]. apply IH. set_solver.
Qed.

#[export] Hint Rewrite log_count_app log_count_single : amcat_rw.

Section Invariant.
Context `{Storage} {U : Type} (s : scraper U) (nthreads : nat) (units : list U).

(** Every discovered unit is in exactly one place (on the work queue,
    with a worker, given up or acknowledged); a queued or held unit has
    between one and three attempts left, and the pool has logged exactly
    as many failures of it as it has used attempts; a unit given up failed
    three times, an acknowledged one fewer; at most [nthreads] units are
    held; and [done] is set only when no unit is queued or held. *)
Record pool_inv (p : pool U) : Prop := {
  pi_perm : (t_i <$> (p_work p ++ p_busy p)) ++ (p_failed p).*1 ++ p_acked p
            ≡ₚ seq 0 (length units);
  pi_unit : forall t, t ∈ p_work p ++ p_busy p -> units !! t_i t = Some (t_unit t);
  pi_left : forall t, t ∈ p_work p ++ p_busy p ->
    1 <= t_left t /\ t_left t + log_count (p_log p) (t_i t) = retry_exceptions;
  pi_failed : forall i, i ∈ (p_failed p).*1 -> log_count (p_log p) i = retry_exceptions;
  pi_acked : forall i, i ∈ p_acked p -> log_count (p_log p) i < retry_exceptions;
  pi_log : forall i, i ∈ p_log p -> i < length units;
  pi_busy : length (p_busy p) <= nthreads;
  pi_done : p_done p = true -> p_work p = [] /\ p_busy p = [] }.

Lemma pool_inv_init w : pool_inv (init_pool w units).
Proof.
  split; simpl; rewrite ?app_nil_r; try done.
  - unfold init_tasks. rewrite <- list_fmap_compose, <- enumerate_fst.
    apply reflexive_eq, list_fmap_ext. by intros ? [].
  - unfold init_tasks. intros t ([i u] & -> & Hin)%list_elem_of_fmap.
    by apply enumerate_lookup.
  - unfold init_tasks. intros t ([i u] & -> & Hin)%list_elem_of_fmap.
    unfold retry_exceptions, log_count; simpl; lia.
  - intros i Hi. by apply elem_of_nil in Hi.
  - intros i Hi. by apply elem_of_nil in Hi.
  - intros i Hi. by apply elem_of_nil in Hi.
  - lia.
Qed.

Lemma log_count_other lg i j : j <> i -> log_count (lg ++ [j]) i = log_count lg i.
Proof. intros Hji. rewrite log_count_app, log_count_single. case_decide; [done | lia]. Qed.

Lemma log_count_same lg i : log_count (lg ++ [i]) i = S (log_count lg i).
Proof. rewrite log_count_app, log_count_single. case_decide; [lia | done]. Qed.

(** Taking a held unit out of the pool's bookkeeping. *)
Lemma perm_pick (work b1 b2 : list (task U)) t (F A : list nat) :
  (t_i <$> (work ++ b1 ++ t :: b2)) ++ F ++ A ≡ₚ t_i t :: ((t_i <$> (work ++ b1 ++ b2)) ++ F ++ A).
Proof. rewrite !fmap_app. simpl. solve_Permutation. Qed.

(** The unit a worker finishes is in no other place of the pool. *)
Lemma pick_fresh w work b1 t b2 rs d fl ak lg out :
  pool_inv (mk_pool w work (b1 ++ t :: b2) rs d fl ak lg out) ->
  (forall t', t' ∈ work ++ b1 ++ b2 -> t_i t' <> t_i t) /\ t_i t ∉ fl.*1 /\ t_i t ∉ ak.
Proof.
  intros Hi. pose proof (pi_perm _ Hi) as Hp. simpl in Hp.
  assert (Hnd : NoDup (t_i t :: ((t_i <$> (work ++ b1 ++ b2)) ++ fl.*1 ++ ak))).
  { rewrite <- perm_pick, Hp. apply NoDup_seq. }
  apply NoDup_cons in Hnd as [Hn _]. repeat split.
  - intros t' Ht' Heq. apply Hn. rewrite <- Heq. apply elem_of_app. left.
    by apply list_elem_of_fmap_2.
  - intros Hf. apply Hn. set_solver.
  - intros Ha. apply Hn. set_solver.
Qed.

Lemma inv_harvest w w' work b1 t b2 rs d fl ak lg out arts :
  pool_inv (mk_pool w work (b1 ++ t :: b2) rs d fl ak lg out) ->
  pool_inv (mk_pool w' work (b1 ++ b2) (rs ++ arts) d fl (ak ++ [t_i t]) lg out).
Proof.
  intros Hi. destruct (pick_fresh _ _ _ _ _ _ _ _ _ _ _ Hi) as (Hne & Hf & Ha).
  destruct Hi as [Hp Hu Hl Hfl Hak Hlg Hb Hd]; simpl in *.
  assert (Ht : t ∈ work ++ b1 ++ t :: b2) by set_solver.
  split; simpl.
  - rewrite <- Hp, perm_pick. solve_Permutation.
  - intros t' Ht'. apply Hu. set_solver.
  - intros t' Ht'. apply Hl. set_solver.
  - done.
  - intros i [Hi | ->%list_elem_of_singleton]%elem_of_app; [by apply Hak|].
    destruct (Hl t Ht). unfold retry_exceptions in *. lia.
  - done.
  - rewrite !length_app in Hb |- *. simpl in Hb. lia.
  - intros Hdn. destruct (Hd Hdn) as [_ Hbusy]. by destruct b1.
Qed.

(** The pool's bookkeeping when a worker's attempt fails: the log gets
    the unit's index and the other units' counts are unchanged. *)
Lemma inv_fail_common w work b1 t b2 rs d fl ak lg out :
  pool_inv (mk_pool w work (b1 ++ t :: b2) rs d fl ak lg out) ->
  (forall t', t' ∈ work ++ b1 ++ b2 -> log_count (lg ++ [t_i t]) (t_i t') = log_count lg (t_i t')) /\
  (forall i, i ∈ fl.*1 ++ ak -> log_count (lg ++ [t_i t]) i = log_count lg i) /\
  (forall i, i ∈ lg ++ [t_i t] -> i < length units) /\
  log_count (lg ++ [t_i t]) (t_i t) = S (log_count lg (t_i t)).
Proof.
  intros Hi. destruct (pick_fresh _ _ _ _ _ _ _ _ _ _ _ Hi) as (Hne & Hf & Ha).
  destruct Hi as [Hp Hu Hl Hfl Hak Hlg Hb Hd]; simpl in *.
  split; [|split; [|split]].
  - intros t' Ht'. apply log_count_other. by apply not_eq_sym, Hne.
  - intros i Hi. apply log_count_other. intros Heq. subst i. set_solver.
  - intros i [Hi | ->%list_elem_of_singleton]%elem_of_app; [by apply Hlg|].
    eapply lookup_lt_Some, Hu. set_solver.
  - apply log_count_same.
Qed.

Lemma elem_of_pick (work b1 b2 : list (task U)) t t' :
  t' ∈ work ++ b1 ++ b2 -> t' ∈ work ++ b1 ++ t :: b2.
Proof. rewrite !elem_of_app, elem_of_cons. tauto. Qed.

Lemma retry_cases (work b1 b2 : list (task U)) t t' :
  t' ∈ (work ++ [t]) ++ b1 ++ b2 -> t' = t \/ t' ∈ work ++ b1 ++ b2.
Proof. rewrite !elem_of_app, list_elem_of_singleton. tauto. Qed.

Lemma inv_retry w w' work b1 t b2 rs d fl ak lg out :
  1 < t_left t ->
  pool_inv (mk_pool w work (b1 ++ t :: b2) rs d fl ak lg out) ->
  pool_inv (mk_pool w' (work ++ [mk_task (t_i t) (t_unit t) (pred (t_left t))]) (b1 ++ b2)
              rs d fl ak (lg ++ [t_i t]) out).
Proof.
  intros Hlt Hi. destruct (inv_fail_common _ _ _ _ _ _ _ _ _ _ _ Hi) as (Ho & Hfa & Hlg' & Hs).
  destruct Hi as [Hp Hu Hl Hfl Hak Hlg Hb Hd]; simpl in *.
  assert (Ht : t ∈ work ++ b1 ++ t :: b2) by set_solver.
  split; simpl.
  - rewrite <- Hp, perm_pick, !fmap_app. simpl. solve_Permutation.
  - intros t' Ht'. apply retry_cases in Ht' as [-> | Ht']; [simpl; by apply Hu|].
    apply Hu. by apply elem_of_pick.
  - intros t' Ht'. apply retry_cases in Ht' as [-> | Ht'].
    + simpl. rewrite Hs. destruct (Hl t Ht). lia.
    + rewrite Ho by done. apply Hl. by apply elem_of_pick.
  - intros i Hi. rewrite Hfa by set_solver. by apply Hfl.
  - intros i Hi. rewrite Hfa by set_solver. by apply Hak.
  - done.
  - rewrite !length_app in Hb |- *. simpl in Hb. lia.
  - intros Hdn. destruct (Hd Hdn) as [_ Hbusy]. by destruct b1.
Qed.

Lemma inv_give_up w w' work b1 t b2 rs d fl ak lg out e :
  t_left t <= 1 ->
  pool_inv (mk_pool w work (b1 ++ t :: b2) rs d fl ak lg out) ->
  pool_inv (mk_pool w' work (b1 ++ b2) rs d (fl ++ [(t_i t, e)]) ak (lg ++ [t_i t]) out).
Proof.
  intros Hle Hi. destruct (inv_fail_common _ _ _ _ _ _ _ _ _ _ _ Hi) as (Ho & Hfa & Hlg' & Hs).
  destruct Hi as [Hp Hu Hl Hfl Hak Hlg Hb Hd]; simpl in *.
  assert (Ht : t ∈ work ++ b1 ++ t :: b2) by set_solver.
  split; simpl.
  - rewrite <- Hp, perm_pick, !fmap_app. simpl. solve_Permutation.
  - intros t' Ht'. apply Hu. set_solver.
  - intros t' Ht'. rewrite Ho by done. apply Hl. set_solver.
  - rewrite fmap_app. intros i [Hi | ->%list_elem_of_singleton]%elem_of_app.
    + rewrite Hfa by set_solver. by apply Hfl.
    + simpl. rewrite Hs. destruct (Hl t Ht). unfold retry_exceptions in *. lia.
  - intros i Hi. rewrite Hfa by set_solver. by apply Hak.
  - done.
  - rewrite !length_app in Hb |- *. simpl in Hb. lia.
  - intros Hdn. destruct (Hd Hdn) as [_ Hbusy]. by destruct b1.
Qed.

(** The invariant does not look at the world, the committer's queue or
    the result. *)
Lemma inv_frame w w' work busy rs rs' d fl ak lg out out' :
  pool_inv (mk_pool w work busy rs d fl ak lg out) ->
  pool_inv (mk_pool w' work busy rs' d fl ak lg out').
Proof. intros []. by split. Qed.

Lemma inv_take w t work busy rs d fl ak lg out :
  length busy < nthreads ->
  pool_inv (mk_pool w (t :: work) busy rs d fl ak lg out) ->
  pool_inv (mk_pool w work (busy ++ [t]) rs d fl ak lg out).
Proof.
  intros Hlt [Hp Hu Hl Hfl Hak Hlg Hb Hd]; simpl in *.
  split; simpl; try done.
  - rewrite <- Hp, !fmap_app. simpl. solve_Permutation.
  - intros t' Ht'. apply Hu. set_solver.
  - intros t' Ht'. apply Hl. set_solver.
  - rewrite length_app. simpl. lia.
  - intros Hdn. by destruct (Hd Hdn).
Qed.

Lemma inv_close w rs fl ak lg out :
  pool_inv (mk_pool w [] [] rs false fl ak lg out) ->
  pool_inv (mk_pool w [] [] rs true fl ak lg out).
Proof. intros []. by split. Qed.

(** Every step of the pool keeps the invariant. *)
Lemma pool_inv_step p p' : pool_inv p -> pstep s nthreads p p' -> pool_inv p'.
Proof.
  intros Hi Hs. destruct Hs.
  - by apply inv_take.
  - by eapply inv_harvest.
  - by eapply inv_retry.
  - by eapply inv_give_up.
  - by eapply inv_frame.
  - by eapply inv_frame.
  - by apply inv_close.
Qed.

Lemma pool_inv_rtc p p' : rtc (pstep s nthreads) p p' -> pool_inv p -> pool_inv p'.
Proof. induction 1; eauto using pool_inv_step. Qed.

Lemma pool_inv_reach w p :
  rtc (pstep s nthreads) (init_pool w units) p -> pool_inv p.
Proof. intros Hr. eapply pool_inv_rtc; [exact Hr | apply pool_inv_init]. Qed.

End Invariant.

(** ** What the pool guarantees *)

Section PoolTheorems.
Context `{Storage} {U : Type} (s : scraper U) (nthreads : nat).

(** C20: termination of the pool.  From any state
    of a pool with at least one worker, a state where [done] is set and
    the committer's queue is drained is reachable: [join] returns. *)
Theorem pool_join_returns p :
  0 < nthreads -> exists p', rtc (pstep s nthreads) p p' /\ pool_final p' = true.
Proof.
  intros Hn. induction p as [p IH] using (well_founded_ind (pool_wf s nthreads)).
  destruct (pool_final p) eqn:Hf.
  - exists p. split; [constructor | done].
  - destruct (pool_progress s nthreads p Hn Hf) as [p' Hs].
    destruct (IH p' Hs) as (p'' & Hr & Hf'').
    exists p''. split; [by eapply rtc_l | done].
Qed.

(** C8: when [join] returns, every discovered
    unit has been either acknowledged by a worker or given up, exactly
    once: a unit retried and then harvested is harvested once, a unit
    given up is never acknowledged, and no unit is lost. *)
Theorem pool_units_accounted units w p :
  rtc (pstep s nthreads) (init_pool w units) p -> pool_final p = true ->
  (p_failed p).*1 ++ p_acked p ≡ₚ seq 0 (length units).
Proof.
  intros Hr Hf. destruct (pool_inv_reach s nthreads units w p Hr) as [Hp _ _ _ _ _ _ Hd].
  apply andb_true_iff in Hf as [Hdn _]. destruct (Hd Hdn) as [Hw Hb].
  by rewrite Hw, Hb in Hp.
Qed.

(** C12: the retry budget.  In every reachable state a
    unit has failed at most [retry_exceptions] (3) times; a unit given up
    failed exactly three times, and an acknowledged unit fewer. *)
Theorem pool_retry_budget units w p :
  rtc (pstep s nthreads) (init_pool w units) p ->
  (forall i, log_count (p_log p) i <= retry_exceptions) /\
  (forall i, i ∈ (p_failed p).*1 -> log_count (p_log p) i = retry_exceptions) /\
  (forall i, i ∈ p_acked p -> log_count (p_log p) i < retry_exceptions).
Proof.
  intros Hr. destruct (pool_inv_reach s nthreads units w p Hr) as [Hp Hu Hl Hfl Hak Hlg _ _].
  split; [|done]. intros i.
  destruct (decide (i ∈ p_log p)) as [Hin | Hnin].
  - apply Hlg in Hin. assert (Hs : i ∈ seq 0 (length units)) by (apply elem_of_seq; lia).
    rewrite <- Hp in Hs. clear Hin. rename Hs into Hin.
    apply elem_of_app in Hin as [(t & -> & Ht)%list_elem_of_fmap | [Hi | Hi]%elem_of_app].
    + destruct (Hl t Ht). lia.
    + rewrite Hfl by done. lia.
    + specialize (Hak i Hi). lia.
  - rewrite log_count_notin by done. lia.
Qed.

End PoolTheorems.

(** ** An executable schedule and [ThreadedController.scrape]

    [run_serial] is the schedule of one worker whose every result the
    committer saves before the worker takes the next unit; a run of it is
    a run of [pstep] (see [run_serial_sound]).  Its fuel counts attempts:
    [retry_exceptions] per unit is enough ([run_serial_enough]). *)

Section Serial.
Context `{Storage} {U : Type} (s : scraper U).

(** The committer draining [rs]: [result.append(self.save(a))] for the
    articles it persisted. *)
Fixpoint commit_all (rs : list oid) (w : world) (out : list oid) : world * list oid :=
  match rs with
  | [] => (w, out)
  | o :: rest =>
      match save o w with
      | (w1, Ret r) => commit_all rest w1 (out ++ option_list r)
      | (w1, Raise _) => commit_all rest w1 out
      end
  end.

Fixpoint run_serial (fuel : nat) (work : list (task U)) (w : world)
    (fl : list (nat * exn)) (ak lg out : list oid) : option (pool U) :=
  match work with
  | [] => Some (mk_pool w [] [] [] true fl ak lg out)
  | t :: rest =>
      match fuel with
      | 0 => None
      | S fuel' =>
          match scrape_unit s (t_unit t) w with
          | (w1, Ret arts) =>
              let '(w2, out2) := commit_all arts w1 out in
              run_serial fuel' rest w2 fl (ak ++ [t_i t]) lg out2
          | (w1, Raise e) =>
              if decide (1 < t_left t)
              then run_serial fuel' (rest ++ [mk_task (t_i t) (t_unit t) (pred (t_left t))])
                     w1 fl ak (lg ++ [t_i t]) out
              else run_serial fuel' rest w1 (fl ++ [(t_i t, e)]) ak (lg ++ [t_i t]) out
          end
      end
  end.

(** [ThreadedController.scrape(scraper)] under the one-worker schedule:
    discovery, the pool, then the committer's [result].  An exception of
    discovery leaves [_scrape_to_queue] and [scrape] before the queue is
    closed. *)
Definition threaded_scrape : PyM world (list oid) := fun w =>
  match get_units s w with
  | (w1, Ret (units, None)) =>
      match run_serial (retry_exceptions * length units) (init_tasks units) w1 [] [] [] [] with
      | Some p => (p_world p, Ret (p_out p))
      | None => (w1, Ret [])
      end
  | (w1, Ret (_, Some e)) => (w1, Raise e)
  | (w1, Raise e) => (w1, Raise e)
  end.

Lemma commit_all_steps nthreads rs rs' w out work busy d fl ak lg :
  rtc (pstep s nthreads) (mk_pool w work busy (rs ++ rs') d fl ak lg out)
    (mk_pool (commit_all rs w out).1 work busy rs' d fl ak lg (commit_all rs w out).2).
Proof.
  revert w out. induction rs as [|o rs IH]; intros w out; simpl; [reflexivity|].
  destruct (save o w) as [w1 [r|e]] eqn:Hs; eapply rtc_l.
  - by apply step_commit.
  - apply IH.
  - by eapply step_commit_raise.
  - apply IH.
Qed.

(** One unit of the schedule: the worker takes it and finishes it. *)
Lemma take_finish nthreads w t rest rs fl ak lg out p' :
  0 < nthreads ->
  pstep s nthreads (mk_pool w rest [t] rs false fl ak lg out) p' ->
  rtc (pstep s nthreads) (mk_pool w (t :: rest) [] rs false fl ak lg out) p'.
Proof.
  intros Hn Hs. eapply rtc_l; [by apply (step_take s nthreads w t rest [])|].
  by apply rtc_once.
Qed.

Lemma run_serial_sound nthreads fuel work w fl ak lg out p :
  0 < nthreads -> run_serial fuel work w fl ak lg out = Some p ->
  rtc (pstep s nthreads) (mk_pool w work [] [] false fl ak lg out) p /\ pool_final p = true.
Proof.
  intros Hn. revert work w fl ak lg out.
  induction fuel as [|fuel IH]; intros [|t rest] w fl ak lg out; simpl; try discriminate;
    try (intros [= <-]; split; [apply rtc_once, step_close | done]).
  destruct (scrape_unit s (t_unit t) w) as [w1 [arts|e]] eqn:Hsu.
  - destruct (commit_all arts w1 out) as [w2 out2] eqn:Hc. intros Hr.
    destruct (IH _ _ _ _ _ _ Hr) as [Hrt Hf]. split; [|done].
    eapply rtc_trans; [eapply take_finish; [done|]|].
    + by apply (step_harvest s nthreads w w1 t rest [] []).
    + eapply rtc_trans; [|exact Hrt]. simpl.
      pose proof (commit_all_steps nthreads arts [] w1 out rest [] false fl
                    (ak ++ [t_i t]) lg) as Hca.
      rewrite app_nil_r, Hc in Hca. exact Hca.
  - intros Hr. case_decide; destruct (IH _ _ _ _ _ _ Hr) as [Hrt Hf]; split; try done;
      (eapply rtc_trans; [eapply take_finish; [done|]|exact Hrt]).
    + by apply (step_retry s nthreads w w1 t rest [] [] [] false fl ak lg out e).
    + apply (step_give_up s nthreads w w1 t rest [] [] [] false fl ak lg out e); [done|lia].
Qed.

(** Enough fuel: the sum of the attempts the queued units have left. *)
Lemma run_serial_enough fuel work w fl ak lg out :
  Forall (fun t => 1 <= t_left t) work ->
  sum_list_with t_left work <= fuel ->
  exists p, run_serial fuel work w fl ak lg out = Some p.
Proof.
  revert work w fl ak lg out.
  induction fuel as [|fuel IH]; intros [|t rest] w fl ak lg out Hl Hf; simpl in *;
    [by eexists | apply Forall_cons in Hl as [? ?]; lia | by eexists |].
  apply Forall_cons in Hl as [Ht Hl].
  destruct (scrape_unit s (t_unit t) w) as [w1 [arts|e]].
  - destruct (commit_all arts w1 out). apply IH; [done | lia].
  - case_decide; apply IH.
    + apply Forall_app. split; [done|]. constructor; [simpl; lia | constructor].
    + rewrite sum_list_with_app. simpl. lia.
    + done.
    + lia.
Qed.

End Serial.

Section Threaded.
Context `{Storage} {U : Type} (s : scraper U).

Lemma length_enumerate {A} (xs : list A) : length (enumerate xs) = length xs.
Proof. unfold enumerate. rewrite length_zip_with, length_seq. lia. Qed.

Lemma init_tasks_budget (units : list U) :
  Forall (fun t => 1 <= t_left t) (init_tasks units) /\
  sum_list_with t_left (init_tasks units) = retry_exceptions * length units.
Proof.
  unfold init_tasks. rewrite <- (length_enumerate units).
  induction (enumerate units) as [|[i u] l [IHf IHs]]; simpl; [split; [constructor | lia]|].
  unfold retry_exceptions in *. split; [constructor; [simpl; lia | done] | rewrite IHs; lia].
Qed.

(** C22: [ThreadedController.scrape] under the
    one-worker schedule returns (its fuel never runs out), and what it
    returns is a run of the pool: the committer's result and the world
    of a state, reachable from the discovered units, where [join]
    returns. *)
Theorem threaded_scrape_refines nthreads w w1 units :
  0 < nthreads -> get_units s w = (w1, Ret (units, None)) ->
  exists p, threaded_scrape s w = (p_world p, Ret (p_out p)) /\
    rtc (pstep s nthreads) (init_pool w1 units) p /\ pool_final p = true.
Proof.
  intros Hn Hg. unfold threaded_scrape. rewrite Hg.
  destruct (init_tasks_budget units) as [Hl Hs].
  destruct (run_serial_enough s (retry_exceptions * length units) (init_tasks units) w1
              [] [] [] [] Hl ltac:(lia)) as [p Hp].
  rewrite Hp. exists p. split; [done|]. unfold init_pool.
  exact (run_serial_sound s nthreads _ _ _ _ _ _ _ _ Hn Hp).
Qed.

End Threaded.

(** ** The pool and the sequential controller agree on flat batches *)

Section Equivalence.
Context `{Storage} {U : Type} (s : scraper U).

(** A batch without parent links: no article of it has a [parent]. *)
Definition flat (h : heap) (arts : list oid) : Prop :=
  forall a, a ∈ arts -> a_parent (h a) = None.

Lemma save_a_parent o w w' r x :
  save o w = (w', r) -> a_parent (w_heap w' x) = a_parent (w_heap w x).
Proof.
  intros Hs. apply save_cases in Hs
    as [(_ & [(k & _ & Hh & _) | [[-> _] | (e & _ & Hh & _)]]) | [-> _]]; try done.
  - rewrite Hh. unfold hupd. case_decide; [by subst|done].
  - by rewrite Hh.
Qed.

Lemma flat_save o w w' r arts : save o w = (w', r) -> flat (w_heap w) arts -> flat (w_heap w') arts.
Proof. intros Hs Hf a Ha. rewrite (save_a_parent _ _ _ _ _ Hs). by apply Hf. Qed.

(** On a flat batch [adopt] finds no child. *)
Lemma adopt_flat arts u v h : flat h arts -> adopt arts u v h = (h, []).
Proof.
  induction arts as [|a arts IH]; intros Hf; [done|]. simpl.
  unfold parent_eq. rewrite (Hf a) by set_solver. rewrite IH; [done|].
  intros x Hx. apply Hf. set_solver.
Qed.

(** On a flat batch the work-list loop is the committer's drain. *)
Lemma save_loop_flat fuel arts q w w' ys out :
  flat (w_heap w) arts -> save_loop fuel arts q w = Some (w', (ys, None)) ->
  commit_all q w out = (w', out ++ ys).
Proof.
  revert fuel w out ys. induction q as [|u rest IH]; intros [|fuel] w out ys Hf Hl; simpl in *;
    try discriminate; try (injection Hl as <- <-; by rewrite app_nil_r).
  destruct (save u w) as [w1 [[v|]|e]] eqn:Hs; try discriminate.
  - pose proof (flat_save _ _ _ _ _ Hs Hf) as Hf1. rewrite adopt_flat in Hl by done.
    destruct w1 as [h1 d1]. simpl in Hl. rewrite app_nil_r in Hl.
    destruct (save_loop fuel arts rest (mk_world h1 d1)) as [[w3 [ys' e]]|] eqn:Hl';
      try discriminate. injection Hl as <- <- ?; subst.
    rewrite (IH _ _ _ _ Hf1 Hl'). by rewrite <- app_assoc.
  - rewrite app_nil_r. by apply (IH fuel w1 out ys (flat_save _ _ _ _ _ Hs Hf)).
Qed.

(** On a flat batch the loop never runs out of fuel. *)
Lemma save_loop_flat_total fuel arts q w :
  flat (w_heap w) arts -> length q <= fuel -> exists r, save_loop fuel arts q w = Some r.
Proof.
  revert fuel w. induction q as [|u rest IH]; intros [|fuel] w Hf Hle; simpl in *;
    [by eexists | by eexists | lia |].
  destruct (save u w) as [w1 [[v|]|e]] eqn:Hs; [| | by eexists].
  - pose proof (flat_save _ _ _ _ _ Hs Hf) as Hf1. rewrite adopt_flat by done.
    destruct w1 as [h1 d1]. simpl. rewrite app_nil_r.
    destruct (IH fuel (mk_world h1 d1) Hf1 ltac:(lia)) as [[w3 [ys e]] ->]. by eexists.
  - apply IH; [by eapply flat_save | lia].
Qed.

Lemma save_in_order_flat arts w w' ys out :
  flat (w_heap w) arts -> save_in_order arts w = (w', Ret (ys, None)) ->
  commit_all arts w out = (w', out ++ ys).
Proof.
  intros Hf. unfold save_in_order.
  assert (Hr : roots (w_heap w) arts = arts).
  { apply filter_all. intros a Ha. unfold is_root. by rewrite Hf. }
  rewrite Hr. destruct (save_loop_flat_total (length arts) arts arts w Hf (le_n _))
    as [[w1 [ys1 e]] Hl].
  rewrite Hl. intros [= <- <- ?]; subst. by eapply save_loop_flat.
Qed.

Lemma init_tasks_units (units : list U) : t_unit <$> init_tasks units = units.
Proof.
  unfold init_tasks. rewrite <- list_fmap_compose.
  transitivity ((enumerate units).*2); [apply list_fmap_ext; by intros ? []|].
  unfold enumerate. apply snd_zip. rewrite length_seq. lia.
Qed.

Section Harvest.
(** The harvest of a unit yields a flat batch. *)
Hypothesis harvest_flat : forall u w w' arts,
  scrape_unit s u w = (w', Ret arts) -> flat (w_heap w') arts.

Lemma simple_unit_Ret u w w' ys :
  simple_unit s u w = (w', Ret ys) ->
  exists wa arts, scrape_unit s u w = (wa, Ret arts) /\ save_in_order arts wa = (w', Ret (ys, None)).
Proof.
  unfold simple_unit. intros (wa & arts & Hu & Hk)%py_bind_Ret_inv.
  apply py_bind_Ret_inv in Hk as (w1 & [ys1 [e|]] & Hs & Hm); simpl in Hm; [discriminate|].
  injection Hm as -> ->. eauto.
Qed.

Lemma run_serial_simple fuel ts w fl ak lg out w' arts :
  length ts <= fuel -> py_flat_map (simple_unit s) (t_unit <$> ts) w = (w', Ret arts) ->
  exists p, run_serial s fuel ts w fl ak lg out = Some p /\ p_world p = w' /\ p_out p = out ++ arts.
Proof.
  revert fuel w ak out arts. induction ts as [|t ts IH]; intros [|fuel] w ak out arts Hle Hm;
    simpl in *; try lia.
  - injection Hm as <- <-. eexists. split; [done|]. by rewrite app_nil_r.
  - injection Hm as <- <-. eexists. split; [done|]. by rewrite app_nil_r.
  - apply py_bind_Ret_inv in Hm as (w1 & ys & Hu & Hk).
    apply py_bind_Ret_inv in Hk as (w2 & zs & Hr & [= <- <-]).
    destruct (simple_unit_Ret _ _ _ _ Hu) as (wa & arts' & Hsu & Hsv).
    rewrite Hsu, (save_in_order_flat _ _ _ _ out (harvest_flat _ _ _ _ Hsu) Hsv).
    destruct (IH fuel w1 (ak ++ [t_i t]) (out ++ ys) zs ltac:(lia) Hr) as (p & Hp & Hw & Ho).
    exists p. rewrite Ho, <- app_assoc. by split.
Qed.

(** C13: pool equivalence.  For a scraper whose
    units yield articles without parent links, when [SimpleController]
    harvests and saves every unit, [ThreadedController.scrape] under the
    one-worker schedule leaves the same world (the same rows, in the same
    order) and returns the same articles. *)
Theorem threaded_simple_agree w w' arts :
  simple_scrape s w = (w', Ret arts) -> threaded_scrape s w = (w', Ret arts).
Proof.
  unfold simple_scrape, threaded_scrape.
  intros (w1 & [units err] & Hg & Hk)%py_bind_Ret_inv. rewrite Hg.
  apply py_bind_Ret_inv in Hk as (w2 & arts' & Hm & He).
  destruct err as [e|]; simpl in He; [discriminate|]. injection He as <- <-.
  rewrite <- (init_tasks_units units) in Hm.
  assert (Hlen : length (init_tasks units) <= retry_exceptions * length units).
  { unfold init_tasks. rewrite length_map, length_enumerate. unfold retry_exceptions. lia. }
  destruct (run_serial_simple _ _ w1 [] [] [] [] _ _ Hlen Hm) as (p & -> & <- & ->).
  done.
Qed.

End Harvest.

End Equivalence.

(** ** Concrete runs *)

Module PoolRuns.
Import PgTable StoreRuns.

Definition St : Storage := PgStorage reject_bad.

Definition flaky_exn : exn := mk_exn ValueError "connection reset".

(** An article created by a harvest, with its [parent] set to an object
    that is not saved yet (so its [parent_id] column is still empty). *)
Definition new_article (parent : option oid) (headline : string) : obj :=
  mk_obj parent None None headline.

Definition create (o : oid) (a : obj) (w : @world St) : @world St :=
  @mk_world St (hupd (w_heap w) o a) (w_db w).

(** The spec's retry scenario: unit [10] yields article [0]; unit [11]
    fails twice and then yields article [1] (the object [9] counts its
    attempts); unit [12] always fails. *)
Definition retry_scraper : @scraper St nat := mk_scraper
  (fun w => (w, Ret ([10; 11; 12], None)))
  (fun u w =>
     if bool_decide (u = 10) then (create 0 (new_article None "a") w, Ret [0])
     else if bool_decide (u = 11) then
       let c := a_headline (w_heap w 9) in
       if bool_decide (c = "xx") then (create 1 (new_article None "b") w, Ret [1])
       else (create 9 (new_article None (String.append c "x")) w, Raise flaky_exn)
     else (w, Raise flaky_exn))
  None 3.

Definition w_pool : @world St := @mk_world St (fun _ => new_article None "") (mk_pg [] false).

Definition retry_final : pool nat :=
  match run_serial retry_scraper 9 (init_tasks [10; 11; 12]) w_pool [] [] [] [] with
  | Some p => p
  | None => init_pool w_pool []
  end.

Lemma retry_run_reach :
  rtc (pstep retry_scraper 1) (init_pool w_pool [10; 11; 12]) retry_final /\
  pool_final retry_final = true.
Proof.
  apply (run_serial_sound retry_scraper 1 9); [lia | vm_compute; reflexivity].
Qed.

(** Unit [11] is harvested once after two failures, unit [12] is given
    up after three, and the committer saved articles [0] and [1]. *)
Example retry_run_result :
  p_acked retry_final = [0; 1] /\ (p_failed retry_final).*1 = [2] /\
  p_log retry_final = [1; 2; 1; 2; 2] /\ p_out retry_final = [0; 1] /\
  pg_rows (w_db (p_world retry_final)) = [mk_row 1 None "a"; mk_row 2 None "b"].
Proof. vm_compute. repeat split. Qed.

(** A scraper whose units each create one article without a parent. *)
Definition flat_scraper : @scraper St nat := mk_scraper
  (fun w => (w, Ret ([0; 1], None)))
  (fun u w => (create u (new_article None "flat") w, Ret [u]))
  None 3.

Lemma flat_scraper_flat u w w' arts :
  scrape_unit flat_scraper u w = (w', Ret arts) -> flat (w_heap w') arts.
Proof.
  simpl. intros [= <- <-] a Ha. apply list_elem_of_singleton in Ha as ->.
  unfold create, hupd. simpl. by rewrite decide_True.
Qed.

(** One unit creating a parent [p] and its child [c] (the child's
    [parent] is assigned while the parent is unsaved). *)
Definition parent_scraper (p c : oid) (hp hc : string) : @scraper St nat := mk_scraper
  (fun w => (w, Ret ([0], None)))
  (fun u w => (create c (new_article (Some p) hc) (create p (new_article None hp) w), Ret [p; c]))
  None 3.

Section ParentLink.
Variables (p c : oid) (hp hc : string) (w : @world St).
Hypotheses (Hpc : p <> c) (Hhp : hp <> "bad") (Hhc : hc <> "bad") (Ha : pg_aborted (w_db w) = false).

Local Abbreviation h1 := (w_heap (create c (new_article (Some p) hc) (create p (new_article None hp) w))).
Local Abbreviation k := (pg_next (pg_rows (w_db w))).

Lemma h1_p : h1 p = new_article None hp.
Proof. unfold create. cbn [w_heap]. rewrite hupd_ne by done. apply hupd_eq. Qed.

Lemma h1_c : h1 c = new_article (Some p) hc.
Proof. unfold create. cbn [w_heap]. apply hupd_eq. Qed.

(** The committer's two saves: the parent under [k], then the child
    under [S k] with the [parent_id] it was built with. *)
Lemma parent_saved :
  save p (create c (new_article (Some p) hc) (create p (new_article None hp) w)) =
  (@mk_world St (hupd h1 p (set_pk (h1 p) k)) (mk_pg (pg_rows (w_db w) ++ [mk_row k None hp]) false),
   Ret (Some p)).
Proof.
  unfold St. rewrite (pg_save_insert reject_bad); fold St; rewrite ?h1_p; try done.
  unfold reject_bad, row_of, new_article. cbn [r_headline a_headline]. by rewrite bool_decide_false.
Qed.

Lemma child_saved_as_is :
  save c (@mk_world St (hupd h1 p (set_pk (h1 p) k)) (mk_pg (pg_rows (w_db w) ++ [mk_row k None hp]) false)) =
  (@mk_world St (hupd (hupd h1 p (set_pk (h1 p) k)) c (set_pk (new_article (Some p) hc) (S k)))
     (mk_pg (pg_rows (w_db w) ++ [mk_row k None hp; mk_row (S k) None hc]) false), Ret (Some c)).
Proof.
  assert (Hn : pg_next (pg_rows (w_db w) ++ [mk_row k None hp]) = S k) by by apply pg_next_app.
  assert (Hc2 : hupd h1 p (set_pk (h1 p) k) c = new_article (Some p) hc)
    by (rewrite hupd_ne by auto; apply h1_c).
  unfold St. rewrite (pg_save_insert reject_bad); fold St; cbn [w_heap w_db pg_rows pg_aborted];
    rewrite ?Hc2, ?Hn; try done.
  - by rewrite <-app_assoc.
  - unfold unsaved_parent. cbn [a_parent new_article]. rewrite hupd_eq. by rewrite bool_decide_false.
  - unfold reject_bad, row_of. cbn [r_headline a_headline new_article]. by rewrite bool_decide_false.
Qed.

Lemma threaded_parent_rows :
  pg_rows (w_db (fst (threaded_scrape (parent_scraper p c hp hc) w))) =
    pg_rows (w_db w) ++ [mk_row k None hp; mk_row (S k) None hc].
Proof.
  unfold threaded_scrape. cbn [get_units parent_scraper].
  change (init_tasks [0]) with [@mk_task nat 0 0 3]. change (retry_exceptions * length [0]) with 3.
  cbn [run_serial t_unit scrape_unit parent_scraper commit_all].
  rewrite parent_saved. cbn [commit_all]. rewrite child_saved_as_is. done.
Qed.

(** [save_in_order([p, c])]: [p] is the only root ... *)
Lemma roots_parent_child : roots h1 [p; c] = [p].
Proof.
  assert (Hr1 : is_root h1 [p; c] p = true) by (unfold is_root; by rewrite h1_p).
  assert (Hr2 : is_root h1 [p; c] c = false).
  { unfold is_root. rewrite h1_c. cbn [a_parent new_article]. unfold py_in. cbn [existsb].
    unfold py_eq at 1. rewrite h1_p. cbn [a_pk new_article]. by rewrite bool_decide_true. }
  unfold roots. rewrite filter_cons_True by done. rewrite filter_cons_False by (rewrite Hr2; discriminate).
  by rewrite filter_nil.
Qed.

Local Abbreviation h2 := (hupd h1 p (set_pk (h1 p) k)).
Local Abbreviation h3 := (hupd h2 c (set_parent h2 c p)).

(** ... once it is saved, the scan re-points [c] at it ... *)
Lemma adopt_after_parent : adopt [p; c] p p h2 = (h3, [c]).
Proof.
  assert (E1 : parent_eq h2 p p = false)
    by (unfold parent_eq; rewrite hupd_eq, h1_p; done).
  assert (E2 : parent_eq h2 p c = true).
  { unfold parent_eq. rewrite hupd_ne, h1_c by auto. cbn [a_parent new_article].
    unfold py_eq. rewrite hupd_eq, h1_p. cbn. by rewrite bool_decide_true. }
  cbn [adopt]. rewrite E1, E2. reflexivity.
Qed.

Lemma h3_c : h3 c = mk_obj (Some p) (Some k) None hc.
Proof.
  rewrite hupd_eq. unfold set_parent. rewrite hupd_eq, hupd_ne, h1_p, h1_c by auto. done.
Qed.

Lemma h3_p : h3 p = set_pk (new_article None hp) k.
Proof. rewrite hupd_ne by done. by rewrite hupd_eq, h1_p. Qed.

(** ... and [c] is saved with its parent's key ... *)
Lemma child_saved_linked :
  save c (@mk_world St h3 (mk_pg (pg_rows (w_db w) ++ [mk_row k None hp]) false)) =
  (@mk_world St (hupd h3 c (set_pk (h3 c) (S k)))
     (mk_pg (pg_rows (w_db w) ++ [mk_row k None hp; mk_row (S k) (Some k) hc]) false), Ret (Some c)).
Proof.
  assert (Hn : pg_next (pg_rows (w_db w) ++ [mk_row k None hp]) = S k) by by apply pg_next_app.
  unfold St. rewrite (pg_save_insert reject_bad); fold St; cbn [w_heap w_db pg_rows pg_aborted];
    rewrite ?Hn; try done.
  - rewrite <-app_assoc, h3_c. done.
  - unfold unsaved_parent. rewrite h3_c. cbn [a_parent]. rewrite h3_p. by rewrite bool_decide_false.
  - by rewrite h3_c.
  - unfold reject_bad, row_of. rewrite h3_c. cbn [r_headline a_headline]. by rewrite bool_decide_false.
Qed.

(** ... after which the scan finds no more children. *)
Lemma adopt_after_child : adopt [p; c] c c (hupd h3 c (set_pk (h3 c) (S k))) =
  (hupd h3 c (set_pk (h3 c) (S k)), []).
Proof.
  assert (E1 : parent_eq (hupd h3 c (set_pk (h3 c) (S k))) c p = false)
    by (unfold parent_eq; rewrite hupd_ne, h3_p by done; done).
  assert (E2 : parent_eq (hupd h3 c (set_pk (h3 c) (S k))) c c = false).
  { unfold parent_eq. rewrite (hupd_eq h3 c), h3_c. cbn [a_parent set_pk].
    unfold py_eq. rewrite (hupd_ne h3 c _ p), h3_p by done. cbn [a_pk set_pk].
    rewrite (hupd_eq h3 c). cbn [a_pk set_pk]. rewrite bool_decide_false; [done|]. intros Heq. injection Heq. unfold pg_next. lia. }
  cbn [adopt]. rewrite E1, E2. reflexivity.
Qed.

Lemma simple_parent_rows :
  pg_rows (w_db (fst (simple_scrape (parent_scraper p c hp hc) w))) =
    pg_rows (w_db w) ++ [mk_row k None hp; mk_row (S k) (Some k) hc].
Proof.
  unfold simple_scrape. cbv [mbind py_bind]. cbn [get_units parent_scraper py_flat_map].
  unfold simple_unit. cbv [mbind py_bind]. cbn [scrape_unit parent_scraper].
  unfold save_in_order. cbn [length]. rewrite roots_parent_child. cbn [save_loop].
  rewrite parent_saved. cbn [w_heap w_db]. rewrite adopt_after_parent. cbn [save_loop app].
  rewrite child_saved_linked. cbn [w_heap w_db]. rewrite adopt_after_child. reflexivity.
Qed.

End ParentLink.

(** C21: the committer saves each article as it
    arrives, not through [save_in_order], so nothing re-points a child at
    its parent once the parent is saved.  For every state of the table
    and the heap in a live transaction, and every unit that builds a new
    parent [p] and a child [c] whose [parent] is [p] (assigned while
    [p] was unsaved), [ThreadedController.scrape] (one-worker schedule)
    inserts the child's row with the empty [parent_id] captured at
    harvest time, whereas [SimpleController] inserts it with the key
    the parent was just saved under. *)
Theorem threaded_parent_link_lost p c hp hc (w : @world St) :
  p <> c -> hp <> "bad" -> hc <> "bad" -> pg_aborted (w_db w) = false ->
  let k := pg_next (pg_rows (w_db w)) in
  pg_rows (w_db (fst (threaded_scrape (parent_scraper p c hp hc) w))) =
    pg_rows (w_db w) ++ [mk_row k None hp; mk_row (S k) None hc] /\
  pg_rows (w_db (fst (simple_scrape (parent_scraper p c hp hc) w))) =
    pg_rows (w_db w) ++ [mk_row k None hp; mk_row (S k) (Some k) hc].
Proof. intros Hpc Hhp Hhc Ha k. split; [by apply threaded_parent_rows | by apply simple_parent_rows]. Qed.


Lemma pool_join_returns_witness :
  0 < 1 /\ exists p', rtc (pstep retry_scraper 1) (init_pool w_pool [10; 11; 12]) p' /\
                      pool_final p' = true.
Proof. split; [lia|]. apply (pool_join_returns retry_scraper 1). lia. Defined.

Lemma pool_units_accounted_witness :
  rtc (pstep retry_scraper 1) (init_pool w_pool [10; 11; 12]) retry_final /\
  pool_final retry_final = true /\
  (p_failed retry_final).*1 ++ p_acked retry_final ≡ₚ seq 0 3.
Proof.
  split; [exact (proj1 retry_run_reach)|]. split; [exact (proj2 retry_run_reach)|].
  apply (pool_units_accounted retry_scraper 1 [10; 11; 12] w_pool retry_final);
    [exact (proj1 retry_run_reach) | exact (proj2 retry_run_reach)].
Defined.

Lemma pool_retry_budget_witness :
  rtc (pstep retry_scraper 1) (init_pool w_pool [10; 11; 12]) retry_final /\
  (forall i, log_count (p_log retry_final) i <= retry_exceptions) /\
  (forall i, i ∈ (p_failed retry_final).*1 -> log_count (p_log retry_final) i = retry_exceptions) /\
  (forall i, i ∈ p_acked retry_final -> log_count (p_log retry_final) i < retry_exceptions).
Proof.
  split; [exact (proj1 retry_run_reach)|].
  apply (pool_retry_budget retry_scraper 1 [10; 11; 12] w_pool retry_final).
  exact (proj1 retry_run_reach).
Defined.

Lemma threaded_scrape_refines_witness :
  0 < 1 /\ get_units retry_scraper w_pool = (w_pool, Ret ([10; 11; 12], None)) /\
  exists p, threaded_scrape retry_scraper w_pool = (p_world p, Ret (p_out p)) /\
    rtc (pstep retry_scraper 1) (init_pool w_pool [10; 11; 12]) p /\ pool_final p = true.
Proof.
  split; [lia|]. split; [reflexivity|].
  apply (threaded_scrape_refines retry_scraper 1 w_pool w_pool [10; 11; 12]); [lia | reflexivity].
Defined.

Lemma threaded_simple_agree_witness :
  simple_scrape flat_scraper w_pool = (fst (simple_scrape flat_scraper w_pool), Ret [0; 1]) /\
  threaded_scrape flat_scraper w_pool = (fst (simple_scrape flat_scraper w_pool), Ret [0; 1]).
Proof.
  split; [vm_compute; reflexivity|].
  apply (threaded_simple_agree flat_scraper flat_scraper_flat). vm_compute. reflexivity.
Defined.

Lemma threaded_parent_link_lost_witness :
  20 <> 21 /\ "parent" <> "bad" /\ "child" <> "bad" /\ pg_aborted (w_db w_pool) = false /\
  pg_rows (w_db (fst (threaded_scrape (parent_scraper 20 21 "parent" "child") w_pool))) =
    [mk_row 1 None "parent"; mk_row 2 None "child"] /\
  pg_rows (w_db (fst (simple_scrape (parent_scraper 20 21 "parent" "child") w_pool))) =
    [mk_row 1 None "parent"; mk_row 2 (Some 1) "child"].
Proof.
  split; [lia|]. split; [done|]. split; [done|]. split; [reflexivity|].
  apply (threaded_parent_link_lost 20 21 "parent" "child" w_pool); [lia|done|done|reflexivity].
Defined.

End PoolRuns.
