(* ===== verification/ThreadedTests.v ===== *)
(** * [_scrape_to_queue] and [test_threaded] (controller.py, lines 171-189, 248-262)

    [ThreadedController(articleset, nthreads=4)] keeps the set and the
    number of workers.  [_scrape_to_queue(scraper, queue)] runs
    [distribute_tasks] over the scraper's units with [retry_exceptions=3]
    and [add_to_queue_action(queue)] as the output action: each worker
    puts the articles of a harvested unit on the caller's queue, which no
    thread of the pool consumes.  Under the one-worker schedule this is
    the executable [queue_serial]; [queue_serial_sound] shows that a run
    of it is a run of the pool's step relation [pstep] (Pool.v) in which
    the committer never steps, with the queue as the committer's queue.

    [test_threaded] fills a fresh queue with [_scrape_to_queue] and then
    saves, in the test's own thread, every article it takes from the
    queue ([while not q.empty(): c.save(q.get())]); an exception of a
    save leaves the test.  [test_threaded] itself is written with the
    one-worker schedule; the theorems show that this schedule is one run
    of the pool (every harvest first, then every commit), and, over
    every schedule of any number of workers ([worker_step]: the pool's
    steps that take nothing off the queue), that the queue holds the
    scraper's articles in some order and that the test's saves then add
    exactly [ts.n] rows, so that its assertion
    [p.articles.count() == ts.n] holds for every [n] in a live
    transaction.

    [production_test_multithreaded_saving] (lines 288-306) and
    [production_test_logged_multithreaded_error] (lines 308-328) are modelled
    on the fixtures' tables [test_db] ([amcattest], not under [src/], by
    the effect of its helpers) with Python's binding of keyword
    arguments ([bind_kwargs]); the rest of the first test after
    [_TestScraper(projectid=p.id)] is a section variable, since
    [production_test_type_error] shows it is never reached, and so are
    the scrapers the second test imports from outside [src/]. *)

From stdpp Require Import base list gmap sets strings pretty relations.
From S2P Require Import Prelude Store Saver Controller ControllerTests Pool.

Import PgTable.

(** ** [ThreadedController] and [_scrape_to_queue] *)

(** [ThreadedController(articleset=None, nthreads=4)]: the set of
    [Controller.__init__] and the number of workers. *)
Record threaded_controller := mk_threaded_controller {
  tc_articleset : option nat; tc_nthreads : nat }.

Definition ThreadedController_init (articleset : option nat) (nthreads : option nat)
  : threaded_controller :=
  mk_threaded_controller articleset (default 4 nthreads).

Section ScrapeToQueue.
Context `{Storage} {U : Type} (s : scraper U).

(** The one-worker schedule of [distribute_tasks] with
    [add_to_queue_action(q)]: the worker takes the head of the work
    queue and harvests it; the articles of a harvested unit are put on
    [q]; a failed attempt is logged and the unit goes back to the work
    queue while it has attempts left, else it is given up.  Its fuel
    counts attempts. *)
Fixpoint queue_serial (fuel : nat) (work : list (task U)) (w : world) (q : list oid)
    (fl : list (nat * exn)) (ak lg : list nat) : option (pool U) :=
  match work with
  | [] => Some (mk_pool w [] [] q false fl ak lg [])
  | t :: rest =>
      match fuel with
      | 0 => None
      | S fuel' =>
          match scrape_unit s (t_unit t) w with
          | (w1, Ret arts) => queue_serial fuel' rest w1 (q ++ arts) fl (ak ++ [t_i t]) lg
          | (w1, Raise e) =>
              if decide (1 < t_left t)
              then queue_serial fuel' (rest ++ [mk_task (t_i t) (t_unit t) (pred (t_left t))])
                     w1 q fl ak (lg ++ [t_i t])
              else queue_serial fuel' rest w1 q (fl ++ [(t_i t, e)]) ak (lg ++ [t_i t])
          end
      end
  end.

(** [c._scrape_to_queue(scraper, q)] on the queue [q] the caller passes:
    discovery, then the pool; the caller gets the queue back.  An
    exception of discovery leaves [distribute_tasks] before any unit is
    harvested. *)
Definition _scrape_to_queue (c : threaded_controller) (q : list oid) : PyM world (list oid) :=
  fun w =>
  match get_units s w with
  | (w1, Ret (units, None)) =>
      match queue_serial (retry_exceptions * length units) (init_tasks units) w1 q [] [] [] with
      | Some p => (p_world p, Ret (p_results p))
      | None => (w1, Ret q)
      end
  | (w1, Ret (_, Some e)) => (w1, Raise e)
  | (w1, Raise e) => (w1, Raise e)
  end.

End ScrapeToQueue.

(** [while not q.empty(): c.save(q.get())]: the articles are saved in
    the order they were put on the queue; the result of [save] is
    dropped and its exception propagates. *)
Fixpoint drain_save `{Storage} (q : list oid) : PyM world unit :=
  match q with
  | [] => mret tt
  | o :: rest => save o;; drain_save rest
  end.

(** [test_threaded]: [c = ThreadedController()],
    [ts = _TestScraper(project=p)] (its new set is [sid], its articles
    live at [base + unit]), [c._scrape_to_queue(ts, q)] on a new queue,
    then the saves in the test's thread. *)
Definition test_threaded (base n sid : nat) : PyM (@world TestDB) unit :=
  q ← _scrape_to_queue (_TestScraper base n sid) (ThreadedController_init None None) [];
  drain_save q.

(** [self.assertEqual(p.articles.count(), ts.n)] on the new project. *)
Definition test_threaded_asserts (n : nat) (w : @world TestDB) : Prop :=
  length (pg_rows (w_db w)) = n.

(** [test_threaded]'s schedule on any scraper: fill a new queue, then
    save what it holds. *)
Definition scrape_then_save `{Storage} {U} (s : scraper U) (c : threaded_controller)
  : PyM world unit :=
  q ← _scrape_to_queue s c []; drain_save q.

(** ** The queue schedule is a run of the pool *)

Section QueueSerial.
Context `{Storage} {U : Type} (s : scraper U).

(** The state [_scrape_to_queue] leaves: the workers have finished every
    unit, the committer has not stepped, [done] is not set, and the
    queue holds what it held before followed by the harvests. *)
Definition workers_joined (q : list oid) (p : pool U) : Prop :=
  p_work p = [] /\ p_busy p = [] /\ p_done p = false /\ p_out p = [] /\ q `prefix_of` p_results p.

(** A step of the pool that takes nothing from the committer's queue.
    The queue [_scrape_to_queue] fills has no consumer, so its runs are
    the pool's runs in which every step leaves the queue a prefix of the
    next one (a commit takes the head off the queue). *)
Definition worker_step (nthreads : nat) (p p' : pool U) : Prop :=
  pstep s nthreads p p' /\ p_results p `prefix_of` p_results p'.

Lemma worker_steps_pool nthreads p p' :
  rtc (worker_step nthreads) p p' -> rtc (pstep s nthreads) p p'.
Proof. apply rtc_subrel. by intros ?? []. Qed.

Lemma worker_take_finish nthreads w t rest rs fl ak lg p' :
  0 < nthreads -> worker_step nthreads (mk_pool w rest [t] rs false fl ak lg []) p' ->
  rtc (worker_step nthreads) (mk_pool w (t :: rest) [] rs false fl ak lg []) p'.
Proof.
  intros Hn Hs. eapply rtc_l; [|by apply rtc_once].
  split; [by apply (step_take s nthreads w t rest [])|done].
Qed.

Lemma queue_serial_sound nthreads fuel work w q fl ak lg p :
  0 < nthreads -> queue_serial s fuel work w q fl ak lg = Some p ->
  rtc (worker_step nthreads) (mk_pool w work [] q false fl ak lg []) p /\ workers_joined q p.
Proof.
  intros Hn. revert work w q fl ak lg.
  induction fuel as [|fuel IH]; intros [|t rest] w q fl ak lg; simpl; try discriminate;
    try (intros [= <-]; split; [reflexivity | repeat split; done]).
  destruct (scrape_unit s (t_unit t) w) as [w1 [arts|e]] eqn:Hsu.
  - intros (Hrt & Hw & Hb & Hd & Ho & Hq)%IH. split.
    + eapply rtc_trans; [eapply worker_take_finish; [done|]|exact Hrt].
      split; [by apply (step_harvest s nthreads w w1 t rest [] [])|by exists arts].
    + repeat split; try done. by eapply prefix_app_l.
  - intros Hr. case_decide; destruct (IH _ _ _ _ _ _ Hr) as [Hrt Hj]; split; try done;
      (eapply rtc_trans; [eapply worker_take_finish; [done|]|exact Hrt]);
      (split; [|done]).
    + by apply (step_retry s nthreads w w1 t rest [] [] q false fl ak lg [] e).
    + apply (step_give_up s nthreads w w1 t rest [] [] q false fl ak lg [] e); [done|lia].
Qed.

Lemma queue_serial_enough fuel work w q fl ak lg :
  Forall (fun t => 1 <= t_left t) work ->
  sum_list_with t_left work <= fuel ->
  exists p, queue_serial s fuel work w q fl ak lg = Some p.
Proof.
  revert work w q fl ak lg.
  induction fuel as [|fuel IH]; intros [|t rest] w q fl ak lg Hl Hf; simpl in *;
    [by eexists | apply Forall_cons in Hl as [? ?]; lia | by eexists |].
  apply Forall_cons in Hl as [Ht Hl].
  destruct (scrape_unit s (t_unit t) w) as [w1 [arts|e]].
  - apply IH; [done | lia].
  - case_decide; apply IH.
    + apply Forall_app. split; [done|]. constructor; [simpl; lia | constructor].
    + rewrite sum_list_with_app. simpl. lia.
    + done.
    + lia.
Qed.

(** The pool's fuel is enough: once discovery returned, [_scrape_to_queue]
    answers the queue of a finished run of [queue_serial]. *)
Lemma scrape_to_queue_serial c q w w1 units :
  get_units s w = (w1, Ret (units, None)) ->
  exists p, queue_serial s (retry_exceptions * length units) (init_tasks units) w1 q [] [] [] = Some p /\
    _scrape_to_queue s c q w = (p_world p, Ret (p_results p)).
Proof.
  intros Hg. unfold _scrape_to_queue. rewrite Hg.
  destruct (init_tasks_budget units) as [Hl Hs].
  destruct (queue_serial_enough (retry_exceptions * length units) (init_tasks units) w1 q
              [] [] [] Hl ltac:(lia)) as [p Hp].
  rewrite Hp. by exists p.
Qed.

(** C23: [_scrape_to_queue] returns (its fuel never
    runs out) and what it leaves is a run of the pool of [c.nthreads]
    workers from the discovered units, with the caller's queue as the
    committer's queue: every unit is finished, the committer never
    stepped and the queue only grew. *)
Theorem scrape_to_queue_refines c q w w1 units :
  0 < tc_nthreads c -> get_units s w = (w1, Ret (units, None)) ->
  exists p, _scrape_to_queue s c q w = (p_world p, Ret (p_results p)) /\
    rtc (pstep s (tc_nthreads c)) (mk_pool w1 (init_tasks units) [] q false [] [] [] []) p /\
    workers_joined q p.
Proof.
  intros Hn Hg. destruct (scrape_to_queue_serial c q w w1 units Hg) as (p & Hp & Hq).
  exists p. split; [done|].
  destruct (queue_serial_sound _ _ _ _ _ _ _ _ _ Hn Hp) as [Hrt Hj].
  split; [by apply worker_steps_pool|done].
Qed.

End QueueSerial.

(** The saves of the test's thread, when none raises, leave the world the
    committer leaves after draining the same queue. *)
Lemma drain_save_commit_all `{Storage} q w w' out :
  drain_save q w = (w', Ret tt) -> (commit_all q w out).1 = w'.
Proof.
  revert w out. induction q as [|o q IH]; intros w out; simpl; [by intros [= ->]|].
  cbv [mbind py_bind]. destruct (save o w) as [w1 [r|e]]; [apply IH|discriminate].
Qed.

Section Schedule.
Context `{Storage} {U : Type} (s : scraper U).

(** C24: the schedule of [test_threaded] (the
    pool fills a new queue, then the test's thread saves every article on
    it) is one interleaving of [ThreadedController.scrape]'s pool: when
    its saves return, the world it leaves is the world of a state of the
    pool, reachable from the discovered units, in which [join] returns.
    The pool's theorems (Pool.v) therefore hold of the test's run. *)
Theorem scrape_then_save_refines c w w1 w' units :
  0 < tc_nthreads c -> get_units s w = (w1, Ret (units, None)) ->
  scrape_then_save s c w = (w', Ret tt) ->
  exists p, rtc (pstep s (tc_nthreads c)) (init_pool w1 units) p /\
    pool_final p = true /\ p_world p = w'.
Proof.
  intros Hn Hg. destruct (scrape_to_queue_serial s c [] w w1 units Hg) as (p0 & Hp & Hq).
  destruct (queue_serial_sound s _ _ _ _ _ _ _ _ _ Hn Hp)
    as (Hrt%worker_steps_pool & Hw & Hb & Hd & Ho & _). destruct p0 as [w0 work busy rs d fl ak lg out].
  simpl in *; subst. unfold scrape_then_save. cbv [mbind py_bind]. rewrite Hq.
  intros Hdr. pose proof (commit_all_steps s (tc_nthreads c) rs [] w0 [] [] [] false fl ak lg) as Hc.
  rewrite app_nil_r, (drain_save_commit_all _ _ _ [] Hdr) in Hc.
  exists (mk_pool w' [] [] [] true fl ak lg (commit_all rs w0 []).2).
  split; [|split; [reflexivity|reflexivity]].
  eapply rtc_trans; [exact Hrt|]. eapply rtc_r; [exact Hc|]. apply step_close.
Qed.

End Schedule.

(** ** [test_threaded] passes *)

Section TestThreaded.
Variables (base n sid : nat).

(** A new article of the test scraper, before it is saved. *)
Definition fresh_article (u : nat) : obj := mk_obj None None None (pretty u).

Lemma test_scrape_unit u (w : @world TestDB) :
  scrape_unit (_TestScraper base n sid) u w =
  (mk_world (hupd (w_heap w) (base + u) (fresh_article u)) (w_db w), Ret [base + u]).
Proof. reflexivity. Qed.

(** What every run of the workers keeps: the table is untouched; the
    queue and the articles of the units still queued or held by a
    worker are, up to order, the articles of the discovered units; and
    every queued article is a new, unsaved article of its unit. *)
Definition test_pool_inv (w0 : @world TestDB) (p : pool nat) : Prop :=
  w_db (p_world p) = w_db w0 /\
  p_results p ++ ((fun t => base + t_unit t) <$> p_work p ++ p_busy p) ≡ₚ Nat.add base <$> seq 0 n /\
  (forall u, base + u ∈ p_results p -> w_heap (p_world p) (base + u) = fresh_article u).

Lemma test_pool_inv_init (w0 : @world TestDB) : test_pool_inv w0 (init_pool w0 (seq 0 n)).
Proof.
  assert (E : (fun t => base + t_unit t) <$> init_tasks (seq 0 n) = Nat.add base <$> seq 0 n).
  { rewrite <-(init_tasks_units (seq 0 n)) at 2. by rewrite <-list_fmap_compose. }
  split_and!; [done| |set_solver]. cbn [p_results p_work p_busy init_pool].
  by rewrite app_nil_r, app_nil_l, E.
Qed.

Lemma test_pool_inv_step nthreads (w0 : @world TestDB) p p' :
  worker_step (_TestScraper base n sid) nthreads p p' -> test_pool_inv w0 p -> test_pool_inv w0 p'.
Proof.
  unfold test_pool_inv. intros [Hs Hpre] (Hdb & Hperm & Hheap).
  destruct Hs; cbn [p_results p_work p_busy p_world] in *;
    try (rewrite test_scrape_unit in H; discriminate).
  - split_and!; [done| |done]. rewrite <-Hperm. apply Permutation_app_head, Permutation_map.
    rewrite app_assoc. symmetry. apply Permutation_cons_append.
  - rewrite test_scrape_unit in H. injection H as <- <-. split_and!; [done| |].
    + rewrite <-Hperm, <-app_assoc. apply Permutation_app_head.
      rewrite (app_assoc work b1 (t :: b2)), (app_assoc work b1 b2), !fmap_app, fmap_cons.
      by rewrite <-Permutation_middle.
    + cbn [w_heap]. intros u [Hu|Hu%list_elem_of_singleton]%elem_of_app.
      * destruct (decide (u = t_unit t)) as [->|Hne]; [by rewrite hupd_eq|].
        rewrite hupd_ne by lia. by apply Hheap.
      * assert (u = t_unit t) as -> by lia. by rewrite hupd_eq.
  - destruct Hpre as [k Hk]. apply (f_equal length) in Hk. simpl in Hk.
    rewrite length_app in Hk. lia.
  - destruct Hpre as [k Hk]. apply (f_equal length) in Hk. simpl in Hk.
    rewrite length_app in Hk. lia.
  - by split_and!.
Qed.

(** The test thread's saves of distinct new articles, each with a
    headline other than the invalid statement: one row per article, in
    queue order, under consecutive keys. *)
Lemma drain_save_fresh (l : list oid) (hl : oid -> string) (w : @world TestDB) :
  pg_aborted (w_db w) = false -> NoDup l ->
  (forall o, o ∈ l -> w_heap w o = mk_obj None None None (hl o) /\ hl o ≠ invalid_sql) ->
  exists w', drain_save l w = (w', Ret tt) /\
    pg_rows (w_db w') = pg_rows (w_db w) ++
      imap (fun i o => mk_row (pg_next (pg_rows (w_db w)) + i) None (hl o)) l.
Proof.
  revert w. induction l as [|o l IH]; intros w Ha Hnd Hh.
  { exists w. by rewrite app_nil_r. }
  apply NoDup_cons in Hnd as [Ho Hnd].
  destruct (Hh o ltac:(set_solver)) as [Hobj Hinv]. unfold TestDB in *.
  assert (Hs := pg_save_new test_reject w o Ha). rewrite Hobj in Hs.
  specialize (Hs eq_refl eq_refl).
  assert (Hr : test_reject (row_of (pg_next (pg_rows (w_db w))) (mk_obj None None None (hl o))) = None)
    by (unfold test_reject; simpl; by rewrite bool_decide_false).
  specialize (Hs Hr). match type of Hs with _ = (?x, _) => set (w1 := x) in Hs end.
  destruct (IH w1) as (w' & Hrun & Hrows); [done|done| |].
  { intros o' Ho'. unfold w1; cbn [w_heap]. rewrite hupd_ne by set_solver. apply Hh. set_solver. }
  assert (Hk1 : pg_next (pg_rows (w_db w1)) = S (pg_next (pg_rows (w_db w)))) by (apply pg_next_app; done).
  exists w'. cbn [drain_save]. cbv [mbind py_bind]. rewrite Hs, Hrun. split; [done|].
  rewrite Hrows, Hk1. cbn [w1 w_db pg_rows]. rewrite <-app_assoc. f_equal. simpl.
  rewrite Nat.add_0_r. f_equal. apply imap_ext. intros i x _. unfold compose. f_equal. lia.
Qed.

(** C11: [test_threaded] passes under every
    schedule of the pool.  Whatever the number of workers and however
    their steps interleave, once [_scrape_to_queue] has joined its
    workers the queue holds the [n] articles of [_TestScraper] in some
    order; the test thread's saves then never raise and add exactly [n]
    rows to the table, whose headlines are [str(0)], ..., [str(n-1)] in
    some order; on a new project the test's assertion
    [p.articles.count() == ts.n] holds. *)
Theorem test_threaded_any_schedule nthreads (w : @world TestDB) p :
  pg_aborted (w_db w) = false ->
  rtc (worker_step (_TestScraper base n sid) nthreads) (init_pool w (seq 0 n)) p ->
  p_work p = [] -> p_busy p = [] ->
  exists w', drain_save (p_results p) (p_world p) = (w', Ret tt) /\
    length (pg_rows (w_db w')) = length (pg_rows (w_db w)) + n /\
    r_headline <$> drop (length (pg_rows (w_db w))) (pg_rows (w_db w')) ≡ₚ pretty <$> seq 0 n /\
    (pg_rows (w_db w) = [] -> test_threaded_asserts n w').
Proof.
  intros Ha Hrun Hw Hb.
  destruct (rtc_ind_r (test_pool_inv w) (init_pool w (seq 0 n)) (test_pool_inv_init w)
              (fun y z _ Hs Hy => test_pool_inv_step nthreads w y z Hs Hy) p Hrun)
    as (Hdb & Hperm & Hheap).
  rewrite Hw, Hb in Hperm.
  change ((fun t => base + t_unit t) <$> ([] ++ [])) with (@nil nat) in Hperm. rewrite app_nil_r in Hperm.
  assert (Hnd : NoDup (p_results p)).
  { rewrite Hperm. apply NoDup_fmap_2; [intros x y; lia | apply NoDup_seq]. }
  destruct (drain_save_fresh (p_results p) (fun o => pretty (o - base)) (p_world p))
    as (w' & Hd & Hrows); [by rewrite Hdb|done| |].
  { intros o Ho. assert (Hb' : o ∈ Nat.add base <$> seq 0 n) by by rewrite <-Hperm.
    apply list_elem_of_fmap in Hb' as (u & -> & _). rewrite Hheap by done.
    split; [by replace (base + u - base) with u by lia | apply pretty_ne_invalid_sql]. }
  rewrite Hdb in Hrows. exists w'. split; [done|].
  assert (Hnew : r_headline <$> drop (length (pg_rows (w_db w))) (pg_rows (w_db w')) ≡ₚ pretty <$> seq 0 n).
  { rewrite Hrows, drop_app_length.
    transitivity ((fun o => pretty (o - base)) <$> p_results p).
    - rewrite <-(imap_const (fun o => pretty (o - base))), fmap_imap. done.
    - rewrite Hperm, <-list_fmap_compose. apply Permutation_refl'. apply list_fmap_ext.
      intros _ u _. simpl. f_equal. lia. }
  assert (Hlen : length (pg_rows (w_db w')) = length (pg_rows (w_db w)) + n).
  { rewrite Hrows, length_app, length_imap, Hperm, length_fmap, length_seq. done. }
  split; [done|]. split; [done|]. intros Hr. unfold test_threaded_asserts. rewrite Hlen, Hr. done.
Qed.

End TestThreaded.

(** ** [production_test_multithreaded_saving] *)

(** The test fixtures' tables: the projects and the article sets with
    their project.  [amcattest] is not under [src/]; its helpers are
    modelled by their effect on these tables. *)
Record test_db := mk_test_db { td_projects : gset nat; td_sets : gmap nat nat }.

(** [Project.objects.get(pk=k)] *)
Definition project_get (k : nat) : PyM test_db nat := fun d =>
  if bool_decide (k ∈ td_projects d) then (d, Ret k)
  else (d, Raise (mk_exn DoesNotExist "Project matching query does not exist.")).

(** [amcattest.create_test_project()] and
    [amcattest.create_test_set(project=p)]: a new row under a fresh id. *)
Definition create_test_project : PyM test_db nat := fun d =>
  let k := fresh (td_projects d) in (mk_test_db ({[k]} ∪ td_projects d) (td_sets d), Ret k).

Definition add_test_set (p : nat) : PyM test_db nat := fun d =>
  let k := fresh (dom (td_sets d)) in (mk_test_db (td_projects d) (<[k:=p]> (td_sets d)), Ret k).

Definition create_test_set (project : option nat) : PyM test_db nat :=
  p ← match project with Some p => mret p | None => create_test_project end;
  add_test_set p.

(** Python's binding of keyword arguments to the parameters of
    [__init__]: an unknown keyword raises [TypeError] before the body
    runs. *)
Definition bind_kwargs {V} (params : list string) (kwargs : list (string * V))
  : res (string -> option V) :=
  match list_find (fun '(k, _) => k ∉ params) kwargs with
  | Some (_, (k, _)) =>
      Raise (mk_exn TypeError ("__init__() got an unexpected keyword argument '" +:+ k +:+ "'"))
  | None => Ret (fun k => (fun '(_, (_, v)) => v) <$> list_find (fun '(k', _) => k' = k) kwargs)
  end.

(** [_TestScraper(...)] called with keyword arguments only, against
    [__init__(self, project=None, articleset=None, n=10)]: the project,
    the set (created when not given) and [n] of the new scraper. *)
Definition _TestScraper_init (kwargs : list (string * nat)) : PyM test_db (nat * nat * nat) :=
  match bind_kwargs ["project"; "articleset"; "n"] kwargs with
  | Raise e => raise e
  | Ret arg =>
      project ← match arg "project" with Some p => mret p | None => create_test_project end;
      articleset ← match arg "articleset" with Some s => mret s | None => create_test_set None end;
      mret (project, articleset, default 10 (arg "n"))
  end.

Section ProductionTest.
(** What the test does with the controller and the scraper once it has
    them: [c.scrape(ts)] and its assertions. *)
Variable rest : threaded_controller -> nat * nat * nat -> PyM test_db unit.

(** [production_test_multithreaded_saving()]: project [2], a new set in
    it, [ThreadedController(s)], then [_TestScraper(projectid=p.id)]. *)
Definition production_test_multithreaded_saving : PyM test_db unit :=
  p ← project_get 2;
  s ← create_test_set (Some p);
  let c := ThreadedController_init (Some s) None in
  ts ← _TestScraper_init [("projectid", p)];
  rest c ts.

(** [production_test_logged_multithreaded_error()]: project [2], the
    import of [amcat.tests.test_scraping] and the two scrapers built from
    it (not under [src/]: [make_scrapers]), then
    [scrape_logged(ThreadedController(), [s2])]: [scrape_logged] is
    neither defined nor imported in the module, so evaluating the name
    raises [NameError] and the printing that follows is never reached. *)
Variable make_scrapers : nat -> PyM test_db unit.

Definition production_test_logged_multithreaded_error : PyM test_db unit :=
  p ← project_get 2;
  make_scrapers p;;
  raise (mk_exn NameError "global name 'scrape_logged' is not defined").

End ProductionTest.

(** C35: [production_test_multithreaded_saving]
    never reaches [c.scrape(ts)], whatever the rest of the test does.
    When project [2] exists, the test creates a new article set in it
    and then [_TestScraper(projectid=p.id)] raises [TypeError], since
    [__init__] has no parameter [projectid]; the new set is left
    behind.  Without project [2], [Project.objects.get] raises
    [DoesNotExist] before anything is written. *)
Theorem production_test_type_error rest d :
  production_test_multithreaded_saving rest d =
  if bool_decide (2 ∈ td_projects d) then
    (mk_test_db (td_projects d) (<[fresh (dom (td_sets d)) := 2]> (td_sets d)),
     Raise (mk_exn TypeError "__init__() got an unexpected keyword argument 'projectid'"))
  else (d, Raise (mk_exn DoesNotExist "Project matching query does not exist.")).
Proof.
  unfold production_test_multithreaded_saving, project_get. cbv [mbind py_bind].
  case_bool_decide; reflexivity.
Qed.

(** ** Concrete runs *)

Module ThreadedTestsRuns.

(** A new project's table: no rows, a live transaction, an empty heap. *)
Definition w_test : @world TestDB := @mk_world TestDB (fun _ => mk_obj None None None "") (mk_pg [] false).

Definition c_default : threaded_controller := ThreadedController_init None None.

(** [test_threaded] as the test runs it: [n = 10]. *)
Example test_threaded_ten :
  let '(w', r) := test_threaded 100 10 5 w_test in
  length (pg_rows (w_db w')) = 10 /\ r = Ret tt /\ tc_nthreads c_default = 4.
Proof. vm_compute. auto. Qed.

Lemma scrape_to_queue_refines_witness :
  0 < tc_nthreads c_default /\
  get_units (_TestScraper 100 3 5) w_test = (w_test, Ret (seq 0 3, None)) /\
  exists p, _scrape_to_queue (_TestScraper 100 3 5) c_default [7] w_test = (p_world p, Ret (p_results p)) /\
    rtc (pstep (_TestScraper 100 3 5) (tc_nthreads c_default))
      (mk_pool w_test (init_tasks (seq 0 3)) [] [7] false [] [] [] []) p /\
    workers_joined [7] p.
Proof.
  split; [vm_compute; lia|]. split; [reflexivity|].
  apply (scrape_to_queue_refines (_TestScraper 100 3 5) c_default [7] w_test w_test (seq 0 3));
    [vm_compute; lia | reflexivity].
Defined.

Lemma scrape_then_save_refines_witness :
  0 < tc_nthreads c_default /\
  get_units (_TestScraper 100 3 5) w_test = (w_test, Ret (seq 0 3, None)) /\
  scrape_then_save (_TestScraper 100 3 5) c_default w_test =
    (fst (scrape_then_save (_TestScraper 100 3 5) c_default w_test), Ret tt) /\
  exists p, rtc (pstep (_TestScraper 100 3 5) (tc_nthreads c_default)) (init_pool w_test (seq 0 3)) p /\
    pool_final p = true /\ p_world p = fst (scrape_then_save (_TestScraper 100 3 5) c_default w_test).
Proof.
  split; [vm_compute; lia|]. split; [reflexivity|]. split; [vm_compute; reflexivity|].
  apply (scrape_then_save_refines (_TestScraper 100 3 5) c_default w_test w_test
           (fst (scrape_then_save (_TestScraper 100 3 5) c_default w_test)) (seq 0 3));
    [vm_compute; lia | reflexivity | vm_compute; reflexivity].
Defined.

(** The state a run of the pool reaches after [_scrape_to_queue] on
    [_TestScraper] with three units. *)
Definition p_joined : pool nat :=
  default (init_pool w_test [])
    (queue_serial (_TestScraper 100 3 5) 9 (init_tasks (seq 0 3)) w_test [] [] [] []).

Lemma test_threaded_any_schedule_witness :
  pg_aborted (w_db w_test) = false /\
  rtc (worker_step (_TestScraper 100 3 5) 4) (init_pool w_test (seq 0 3)) p_joined /\
  p_work p_joined = [] /\ p_busy p_joined = [] /\
  exists w', drain_save (p_results p_joined) (p_world p_joined) = (w', Ret tt) /\
    length (pg_rows (w_db w')) = length (pg_rows (w_db w_test)) + 3 /\
    r_headline <$> drop (length (pg_rows (w_db w_test))) (pg_rows (w_db w')) ≡ₚ pretty <$> seq 0 3 /\
    (pg_rows (w_db w_test) = [] -> test_threaded_asserts 3 w').
Proof.
  assert (Hrun : rtc (worker_step (_TestScraper 100 3 5) 4) (init_pool w_test (seq 0 3)) p_joined).
  { apply (queue_serial_sound (_TestScraper 100 3 5) 4 9 (init_tasks (seq 0 3)) w_test [] [] [] []);
      [lia | vm_compute; reflexivity]. }
  split; [reflexivity|]. split; [exact Hrun|]. split; [vm_compute; reflexivity|].
  split; [vm_compute; reflexivity|].
  apply (test_threaded_any_schedule 100 3 5 4 w_test p_joined);
    [reflexivity | exact Hrun | vm_compute; reflexivity | vm_compute; reflexivity].
Defined.

(** The test's other calls bind their keywords: [_TestScraper(project=p,
    articleset=s)] keeps both and defaults [n] to [10]. *)
Example test_scraper_init_keywords :
  _TestScraper_init [("project", 3); ("articleset", 7)] (mk_test_db {[3]} ∅) =
  (mk_test_db {[3]} ∅, Ret (3, 7, 10)).
Proof. reflexivity. Qed.

End ThreadedTestsRuns.
