(* ===== verification/Upload.v ===== *)
(** * The article upload script: mapping parsed records to articles

    [src/amcat/scripts/article_upload/upload.py].  A parser yields, per
    unit of an uploaded file, articles or Python dicts of column values;
    [UploadScript.article_from_dict] (lines 230-254) maps a dict to an
    [Article] through the [field_map] option, [_scrape_unit] (lines
    217-228) turns the parser's result into articles and caught
    [ArticleError]s, and [parse_file] (lines 145-151) runs the units of a
    file, wrapping a [ParseError] with the unit's position.

    Python values are [pyval] with their truthiness; a dict is a [gmap]
    from strings ([dict]), and the field map, whose iteration order
    decides which error is raised first, an association list.  The
    article model's required fields ([get_required], lines 284-292) come
    from a [blank] flag per field, which is Django model metadata. *)

From stdpp Require Import base list gmap sets strings pretty.
From S2P Require Import Prelude.

(** ** Python values and dicts *)

Inductive pyval := VNone | VBool (b : bool) | VInt (z : Z) | VStr (s : string).

#[export] Instance pyval_eq_dec : EqDecision pyval.
Proof. solve_decision. Defined.

(** [bool(v)] *)
Definition truthy (v : pyval) : bool :=
  match v with
  | VNone => false
  | VBool b => b
  | VInt z => bool_decide (z <> 0%Z)
  | VStr s => bool_decide (s <> "")
  end.

Abbreviation dict := (gmap string pyval) (only parsing).

(** [d.get(k)] *)
Definition dict_get (d : gmap string pyval) (k : string) : pyval := default VNone (d !! k).

(** [ARTICLE_FIELDS] *)
Definition ARTICLE_FIELDS : list string := ["text"; "title"; "url"; "date"; "parent_hash"].

(** ** Articles *)

(** An [Article] built by the upload: its five fields, the remaining
    mapped columns as [properties], and its [project] (unset until
    [_set_project]). *)
Record article := mk_article {
  art_text : pyval; art_title : pyval; art_url : pyval; art_date : pyval;
  art_parent_hash : pyval; art_properties : gmap string pyval; art_project : option nat }.

(** [getattr(article, field)] for the fields of [ARTICLE_FIELDS]. *)
Definition art_field (a : article) (f : string) : pyval :=
  if bool_decide (f = "text") then art_text a
  else if bool_decide (f = "title") then art_title a
  else if bool_decide (f = "url") then art_url a
  else if bool_decide (f = "date") then art_date a
  else if bool_decide (f = "parent_hash") then art_parent_hash a
  else VNone.

(** The constructor call on [article_kwargs], with [article_kwargs['properties']]. *)
Definition Article (kw props : gmap string pyval) : article :=
  mk_article (dict_get kw "text") (dict_get kw "title") (dict_get kw "url")
    (dict_get kw "date") (dict_get kw "parent_hash") props None.

(** [MissingValueError(field)] *)
Definition missing_value_error (field : string) : exn :=
  mk_exn MissingValueError ("Missing value for field: '" +:+ field +:+ "'").

(** [get_required()]: the fields the article model does not allow to be
    blank, in the order of [ARTICLE_FIELDS]. *)
Definition get_required (blank : string -> bool) : list string :=
  filter (fun f => blank f = false) ARTICLE_FIELDS.

(** ** [article_from_dict] *)

(** [parse_dict.get(key)]: the parsed dicts have string keys. *)
Definition get_key (d : gmap string pyval) (key : pyval) : pyval :=
  match key with VStr c => dict_get d c | _ => VNone end.

(** One entry [field_to: field_from] of the field map (lines 234-242):
    the column's value, or the entry's default [value] when the column
    gives [None] and [use_default] is set or no column is named; without
    a default the lookup [field_from['value']] raises [KeyError], which
    becomes [MissingValueError(field_to)]. *)
Definition column_value (parse_dict : gmap string pyval) (field_from : gmap string pyval) : pyval :=
  if bool_decide (is_Some (field_from !! "column"))
  then get_key parse_dict (dict_get field_from "column") else VNone.

(** [value is None and (field_from.get('use_default') or 'column' not in
    field_from)]: the entry falls back on its default. *)
Definition use_default (parse_dict : gmap string pyval) (field_from : gmap string pyval) : bool :=
  bool_decide (column_value parse_dict field_from = VNone) &&
  (truthy (dict_get field_from "use_default") || negb (bool_decide (is_Some (field_from !! "column")))).

Definition map_field (parse_dict : gmap string pyval) (field_to : string)
    (field_from : gmap string pyval) : res pyval :=
  let value := column_value parse_dict field_from in
  if use_default parse_dict field_from
  then match field_from !! "value" with
       | Some v => Ret v
       | None => Raise (missing_value_error field_to)
       end
  else Ret value.

(** The loop over [self.options['field_map'].items()], filling
    [mapped_fields]. *)
Fixpoint map_fields (parse_dict : gmap string pyval) (fm : list (string * gmap string pyval))
    (mapped : gmap string pyval) : res (gmap string pyval) :=
  match fm with
  | [] => Ret mapped
  | (field_to, field_from) :: rest =>
      match map_field parse_dict field_to field_from with
      | Ret v => map_fields parse_dict rest (<[field_to := v]> mapped)
      | Raise e => Raise e
      end
  end.

(** [for article_field in ARTICLE_FIELDS:
       article_kwargs[article_field] = mapped_fields.pop(article_field, None)] *)
Fixpoint pop_fields (fs : list string) (kw mapped : gmap string pyval)
  : gmap string pyval * gmap string pyval :=
  match fs with
  | [] => (kw, mapped)
  | f :: rest => pop_fields rest (<[f := dict_get mapped f]> kw) (delete f mapped)
  end.

(** [for article_field in get_required(): if article_kwargs[article_field]
    is None: raise MissingValueError(article_field)] *)
Fixpoint check_required (req : list string) (kw : gmap string pyval) : option exn :=
  match req with
  | [] => None
  | f :: rest =>
      if bool_decide (dict_get kw f = VNone) then Some (missing_value_error f)
      else check_required rest kw
  end.

(** [UploadScript.article_from_dict(parse_dict)]; [field_map] is
    [self.options['field_map']] when the option is given. *)
Definition article_from_dict (field_map : option (list (string * gmap string pyval)))
    (blank : string -> bool) (parse_dict : gmap string pyval) : res article :=
  match map_fields parse_dict (default [] field_map) ∅ with
  | Raise e => Raise e
  | Ret mapped =>
      let '(kw, props) := pop_fields ARTICLE_FIELDS ∅ mapped in
      match check_required (get_required blank) kw with
      | Some e => Raise e
      | None => Ret (Article kw props)
      end
  end.

(** ** [_scrape_unit] and [parse_file] *)

(** What [parse_document] returns: [None], one [Article], or a sequence
    whose elements are articles or dicts. *)
Inductive parsed_item := PArt (a : article) | PDict (d : gmap string pyval).
Inductive parsed := PNone | POne (a : article) | PMany (items : list parsed_item).

(** What the upload generators yield: an article, or a caught error. *)
Inductive upload_item := UArt (a : article) | UErr (e : exn).

(** Iterating [None]. *)
Definition none_not_iterable : exn := mk_exn TypeError "'NoneType' object is not iterable".

(** [explain_error(error, article)] *)
Definition explain_error (msg : string) (article : option nat) : string :=
  let index := match article with Some i => " " +:+ pretty i | None => "" end in
  "Error in article or filepart" +:+ index +:+ ": " +:+ msg +:+ ".".

Section ScrapeUnit.
Context {U F : Type}.
Variables (field_map : option (list (string * gmap string pyval))) (blank : string -> bool)
  (parse_document : U -> res parsed) (get_units : F -> list U).

(** The loop [for art in result] of [_scrape_unit]: the items it yields
    and the exception that ends it. *)
Fixpoint scrape_items (items : list parsed_item) : list upload_item * option exn :=
  match items with
  | [] => ([], None)
  | PArt a :: rest => let '(ys, err) := scrape_items rest in (UArt a :: ys, err)
  | PDict d :: rest =>
      match article_from_dict field_map blank d with
      | Ret a => let '(ys, err) := scrape_items rest in (UArt a :: ys, err)
      | Raise e =>
          if isinstance e ArticleError
          then let '(ys, err) := scrape_items rest in (UErr e :: ys, err)
          else ([], Some e)
      end
  end.

(** [UploadScript._scrape_unit(document)] *)
Definition scrape_unit (u : U) : list upload_item * option exn :=
  match parse_document u with
  | Raise e => ([], Some e)
  | Ret PNone => ([], Some none_not_iterable)
  | Ret (POne a) => ([UArt a], None)
  | Ret (PMany items) => scrape_items items
  end.

(** The loop of [parse_file] from the unit numbered [i]: a [ParseError]
    of a unit is re-raised as a [ParseError] naming the unit. *)
Fixpoint parse_units (i : nat) (units : list U) : list upload_item * option exn :=
  match units with
  | [] => ([], None)
  | u :: rest =>
      let '(ys, err) := scrape_unit u in
      match err with
      | None => let '(zs, err') := parse_units (S i) rest in (ys ++ zs, err')
      | Some e =>
          (ys, Some (if isinstance e ParseError
                     then mk_exn ParseError (explain_error (exn_msg e) (Some i)) else e))
      end
  end.

(** [UploadScript.parse_file(file)]: units numbered from 1. *)
Definition parse_file (f : F) : list upload_item * option exn := parse_units 1 (get_units f).

End ScrapeUnit.

(** ** Facts about [article_from_dict] *)

(** What [pop_fields] leaves: the popped fields in the keyword arguments,
    the others in [mapped_fields]. *)
Lemma pop_fields_spec fs kw m kw' m' k :
  NoDup fs -> pop_fields fs kw m = (kw', m') ->
  kw' !! k = (if bool_decide (k ∈ fs) then Some (dict_get m k) else kw !! k) /\
  m' !! k = (if bool_decide (k ∈ fs) then None else m !! k).
Proof.
  revert kw m. induction fs as [|f fs IH]; intros kw m Hnd Hp; simpl in Hp.
  { injection Hp as <- <-. by rewrite !bool_decide_false by set_solver. }
  apply NoDup_cons in Hnd as [Hf Hnd]. destruct (IH _ _ Hnd Hp) as [Hkw Hm].
  rewrite Hkw, Hm. unfold dict_get.
  destruct (decide (k = f)) as [->|Hne].
  - rewrite bool_decide_false by done. rewrite bool_decide_true by set_solver.
    by rewrite lookup_insert_eq, lookup_delete_eq.
  - rewrite (bool_decide_ext (k ∈ f :: fs) (k ∈ fs)) by set_solver.
    by rewrite lookup_insert_ne, !lookup_delete_ne by done.
Qed.

Lemma NoDup_ARTICLE_FIELDS : NoDup ARTICLE_FIELDS.
Proof. unfold ARTICLE_FIELDS. repeat constructor; set_solver. Qed.

Lemma art_field_Article kw props f :
  f ∈ ARTICLE_FIELDS -> art_field (Article kw props) f = dict_get kw f.
Proof. unfold ARTICLE_FIELDS. intros Hf. repeat (apply elem_of_cons in Hf as [->|Hf]; [done|]). set_solver. Qed.

Lemma check_required_None req kw f :
  check_required req kw = None -> f ∈ req -> dict_get kw f <> VNone.
Proof.
  induction req as [|g req IH]; simpl; [set_solver|].
  case_bool_decide as Hg; [discriminate|]. intros Hc [->|Hf]%elem_of_cons; [done|]. by apply IH.
Qed.

Lemma check_required_Some req kw e :
  check_required req kw = Some e -> exists f, f ∈ req /\ dict_get kw f = VNone /\ e = missing_value_error f.
Proof.
  induction req as [|g req IH]; simpl; [discriminate|].
  case_bool_decide as Hg.
  - intros [= <-]. exists g. split; [set_solver | done].
  - intros (f & ? & ? & ?)%IH. exists f. split; [set_solver | done].
Qed.

(** An entry fails only when it falls back on a default it does not have. *)
Lemma map_field_Raise pd to from e :
  map_field pd to from = Raise e ->
  use_default pd from = true /\ from !! "value" = None /\ e = missing_value_error to.
Proof. unfold map_field. destruct (use_default pd from); [destruct (from !! "value")|]; naive_solver. Qed.

Lemma map_fields_Raise pd fm m e :
  map_fields pd fm m = Raise e -> exists to from, (to, from) ∈ fm /\
    use_default pd from = true /\ from !! "value" = None /\ e = missing_value_error to.
Proof.
  revert m. induction fm as [|[to from] fm IH]; intros m; simpl; [discriminate|].
  destruct (map_field pd to from) as [v|e'] eqn:Hf.
  - intros (t & f & ? & ?)%IH. exists t, f. split; [set_solver | done].
  - intros [= <-]. exists to, from. split; [set_solver | by apply map_field_Raise in Hf].
Qed.

(** The value [map_fields] stores for an entry whose key occurs once. *)
Lemma map_fields_lookup pd fm m m' to from :
  NoDup fm.*1 -> (to, from) ∈ fm -> map_fields pd fm m = Ret m' ->
  exists v, map_field pd to from = Ret v /\ m' !! to = Some v.
Proof.
  revert m. induction fm as [|[t f] fm IH]; intros m Hnd Hin; simpl; [set_solver|].
  simpl in Hnd. apply NoDup_cons in Hnd as [Ht Hnd].
  destruct (map_field pd t f) as [v|e] eqn:Hf; [|discriminate]. intros Hm.
  apply elem_of_cons in Hin as [[= -> ->]|Hin].
  - exists v. split; [done|]. clear IH Hf.
    revert m Hm. induction fm as [|[t' f'] fm IH']; intros m Hm; simpl in *.
    + injection Hm as <-. by rewrite lookup_insert_eq.
    + destruct (map_field pd t' f'); [|discriminate].
      apply NoDup_cons in Hnd as [Ht' Hnd].
      rewrite insert_insert_ne in Hm by set_solver. apply (IH' ltac:(set_solver) Hnd _ Hm).
  - by apply (IH (<[t:=v]> m)).
Qed.

Section ArticleFromDict.
Variables (field_map : option (list (string * gmap string pyval))) (blank : string -> bool).

Lemma article_from_dict_Ret pd a :
  article_from_dict field_map blank pd = Ret a ->
  exists mapped kw props, map_fields pd (default [] field_map) ∅ = Ret mapped /\
    pop_fields ARTICLE_FIELDS ∅ mapped = (kw, props) /\
    check_required (get_required blank) kw = None /\ a = Article kw props.
Proof.
  unfold article_from_dict. destruct (map_fields _ _ _) as [mapped|e]; [|discriminate].
  destruct (pop_fields _ _ _) as [kw props] eqn:Hp.
  destruct (check_required _ _) eqn:Hc; [discriminate|]. intros [= <-]. eauto 7.
Qed.

(** C16: an article built from a dict has a
    value for every field the article model requires. *)
Theorem article_from_dict_required pd a f :
  article_from_dict field_map blank pd = Ret a -> f ∈ get_required blank -> art_field a f <> VNone.
Proof.
  intros (mapped & kw & props & _ & _ & Hc & ->)%article_from_dict_Ret Hf.
  rewrite art_field_Article by (eapply list_elem_of_filter; exact Hf).
  by eapply check_required_None.
Qed.

(** C15: [article_from_dict] fails only with a
    [MissingValueError] (so an [ArticleError], which [_scrape_unit]
    catches) naming a field that really has no value: either an entry
    [field_to: field_from] of the field map whose column gives [None]
    (or which names no column), which falls back on its default
    ([use_default] set or no column) and has no ['value']; or a field
    the model requires whose mapped value is [None] or missing. *)
Theorem article_from_dict_error pd e :
  article_from_dict field_map blank pd = Raise e ->
  isinstance e ArticleError = true /\
  exists f, e = missing_value_error f /\
    ((exists from, (f, from) ∈ default [] field_map /\
        column_value pd from = VNone /\ use_default pd from = true /\ from !! "value" = None) \/
     (f ∈ get_required blank /\ exists mapped,
        map_fields pd (default [] field_map) ∅ = Ret mapped /\ dict_get mapped f = VNone)).
Proof.
  unfold article_from_dict. destruct (map_fields _ _ _) as [mapped|e'] eqn:Hm.
  - destruct (pop_fields _ _ _) as [kw props] eqn:Hp.
    destruct (check_required _ _) as [e'|] eqn:Hc; [|discriminate]. intros [= <-].
    destruct (check_required_Some _ _ _ Hc) as (f & Hf & Hv & ->). split; [done|].
    exists f. split; [done|]. right. split; [done|]. exists mapped. split; [done|].
    destruct (pop_fields_spec _ _ _ _ _ f NoDup_ARTICLE_FIELDS Hp) as [Hk _].
    rewrite bool_decide_true in Hk by (eapply list_elem_of_filter; exact Hf).
    unfold dict_get in Hv at 1. by rewrite Hk in Hv.
  - intros [= <-]. destruct (map_fields_Raise _ _ _ _ Hm) as (f & from & Hin & Hu & Hv & ->).
    split; [done|]. exists f. split; [done|]. left. exists from. split_and!; try done.
    unfold use_default in Hu. apply andb_prop in Hu as [Hn _]. by apply bool_decide_eq_true in Hn.
Qed.

(** C17: column mapping.  When an entry of the
    field map (with a target field that occurs once) names a column that
    the dict has with a value other than [None], the article carries that
    value: in the field of that name, or among its [properties]; and the
    properties never hold one of [ARTICLE_FIELDS]. *)
Theorem article_from_dict_columns fm pd a to from c v :
  field_map = Some fm -> NoDup fm.*1 -> (to, from) ∈ fm ->
  from !! "column" = Some (VStr c) -> pd !! c = Some v -> v <> VNone ->
  article_from_dict field_map blank pd = Ret a ->
  (to ∈ ARTICLE_FIELDS -> art_field a to = v) /\
  (to ∉ ARTICLE_FIELDS -> art_properties a !! to = Some v) /\
  (forall f, f ∈ ARTICLE_FIELDS -> art_properties a !! f = None).
Proof.
  intros Hfm Hnd Hin Hc Hv Hnone (mapped & kw & props & Hm & Hp & _ & ->)%article_from_dict_Ret.
  rewrite Hfm in Hm. simpl in Hm.
  destruct (map_fields_lookup _ _ _ _ _ _ Hnd Hin Hm) as (v' & Hf & Hl).
  assert (v' = v) as ->.
  { unfold map_field, use_default, column_value, get_key, dict_get in Hf. rewrite Hc in Hf. simpl in Hf.
    rewrite Hv in Hf. simpl in Hf. rewrite bool_decide_false in Hf by done. by injection Hf. }
  pose proof (fun k => pop_fields_spec _ _ _ _ _ k NoDup_ARTICLE_FIELDS Hp) as Hs.
  split; [|split].
  - intros Hto. rewrite art_field_Article by done. destruct (Hs to) as [Hk _].
    rewrite bool_decide_true in Hk by done. unfold dict_get at 1. rewrite Hk. simpl.
    unfold dict_get. by rewrite Hl.
  - intros Hto. destruct (Hs to) as [_ Hk]. simpl.
    rewrite bool_decide_false in Hk by done. by rewrite Hk, Hl.
  - intros f Hf'. destruct (Hs f) as [_ Hk]. simpl. by rewrite bool_decide_true in Hk.
Qed.

End ArticleFromDict.

(** ** Facts about [_scrape_unit] and [parse_file] *)

Lemma article_from_dict_Raise_missing fm blank pd e :
  article_from_dict fm blank pd = Raise e -> exists f, e = missing_value_error f.
Proof.
  unfold article_from_dict. destruct (map_fields _ _ _) as [mapped|e'] eqn:Hm.
  - destruct (pop_fields _ _ _). destruct (check_required _ _) as [e'|] eqn:Hc; [|discriminate].
    intros [= <-]. destruct (check_required_Some _ _ _ Hc) as (f & _ & _ & ->). eauto.
  - intros [= <-]. destruct (map_fields_Raise _ _ _ _ Hm) as (f & _ & _ & _ & _ & ->). eauto.
Qed.

Section ScrapeUnitFacts.
Context {U F : Type}.
Variables (field_map : option (list (string * gmap string pyval))) (blank : string -> bool)
  (parse_document : U -> res parsed) (get_units : F -> list U).

(** The item [_scrape_unit] yields for an element of the parser's
    sequence. *)
Definition item_of (it : parsed_item) : upload_item :=
  match it with
  | PArt a => UArt a
  | PDict d => match article_from_dict field_map blank d with Ret a => UArt a | Raise e => UErr e end
  end.

(** C14: per-record isolation.  When the parser
    returns a sequence, [_scrape_unit] never raises: each dict that
    [article_from_dict] rejects is yielded as its [MissingValueError], in
    place, and every other element as its article. *)
Theorem scrape_unit_isolates u items :
  parse_document u = Ret (PMany items) ->
  scrape_unit field_map blank parse_document u = (item_of <$> items, None).
Proof.
  intros Hp. unfold scrape_unit. rewrite Hp. clear Hp.
  induction items as [|[a|d] items IH]; simpl; [done| by rewrite IH|].
  destruct (article_from_dict field_map blank d) as [a|e] eqn:Ha; [by rewrite IH|].
  destruct (article_from_dict_Raise_missing _ _ _ _ Ha) as [f ->]. simpl. by rewrite IH.
Qed.

Lemma parse_units_error i units ys e' :
  parse_units field_map blank parse_document i units = (ys, Some e') ->
  exists pre u post ysu e, units = pre ++ u :: post /\
    Forall (fun u' => (scrape_unit field_map blank parse_document u').2 = None) pre /\
    scrape_unit field_map blank parse_document u = (ysu, Some e) /\
    ys = concat ((fun u' => (scrape_unit field_map blank parse_document u').1) <$> pre) ++ ysu /\
    e' = (if isinstance e ParseError
          then mk_exn ParseError (explain_error (exn_msg e) (Some (i + length pre))) else e).
Proof.
  revert i ys. induction units as [|u units IH]; intros i ys; simpl; [discriminate|].
  destruct (scrape_unit _ _ _ u) as [ysu [e|]] eqn:Hu.
  - intros [= <- <-]. exists [], u, units, ysu, e. rewrite Nat.add_0_r. by repeat split.
  - destruct (parse_units _ _ _ (S i) units) as [zs err] eqn:Hr. intros [= <- ->].
    destruct (IH _ _ Hr) as (pre & u' & post & ysu' & e & -> & Hpre & Hu' & -> & ->).
    exists (u :: pre), u', post, ysu', e. simpl. rewrite Hu, <- Nat.add_succ_comm. simpl.
    repeat split; try done; [by constructor; [rewrite Hu|] | by rewrite app_assoc].
Qed.

(** Error wrapping.  When [parse_file] raises, the
    file's units split as [pre ++ u :: post]: the units of [pre] yielded
    their items, [u] yielded some and raised [e], and [parse_file] has
    yielded exactly those items and raises [e] itself, or, when [e] is a
    [ParseError], a [ParseError] explaining it with the 1-based position
    of [u]. *)
Theorem parse_file_error f ys e' :
  parse_file field_map blank parse_document get_units f = (ys, Some e') ->
  exists pre u post ysu e, get_units f = pre ++ u :: post /\
    Forall (fun u' => (scrape_unit field_map blank parse_document u').2 = None) pre /\
    scrape_unit field_map blank parse_document u = (ysu, Some e) /\
    ys = concat ((fun u' => (scrape_unit field_map blank parse_document u').1) <$> pre) ++ ysu /\
    e' = (if isinstance e ParseError
          then mk_exn ParseError (explain_error (exn_msg e) (Some (S (length pre)))) else e).
Proof. apply parse_units_error. Qed.

End ScrapeUnitFacts.
