(* ===== verification/UploadRun.v ===== *)
(** * [UploadScript.run] and the upload form

    [src/amcat/scripts/article_upload/upload.py], lines 55-215 and
    276-281: the state an upload changes ([ustate]: the article-set
    table, the article table, the cached [self.options['articlesets']]
    and [self.errors]), the [articlesets] property that creates the set
    named by the form at most once, [_set_project], the provenance line,
    [run] itself with the subclass hook [postprocess] as a section
    variable (the base class's is the identity), and
    [UploadForm.clean_articleset_name].  [run] calls
    [Article.create_articles] before [postprocess], so the hook only
    changes the provenance count ([run_postprocess_cannot_exclude]).

    [ArticleSet]/[create_new_articleset] and [Article.create_articles]
    live in [amcat.models] (not under [src/]) and are modelled from the
    spec by their effect on the tables; the progress monitor, logging
    and [task.log_usage] are not modelled. *)

From stdpp Require Import base list gmap sets strings pretty.
From S2P Require Import Prelude Upload.

(** ** Python's [repr] *)

(** [repr] of a string without quotes or backslashes, and of an
    exception with one argument. *)
Definition repr_str (s : string) : string := "'" +:+ s +:+ "'".

Definition repr_exn (e : exn) : string :=
  exc_name (exn_class e) +:+ "(" +:+ repr_str (exn_msg e) +:+ ")".

Definition repr_list {A} (r : A -> string) (xs : list A) : string :=
  "[" +:+ foldr (fun x acc => if bool_decide (acc = "") then r x else r x +:+ ", " +:+ acc) "" xs +:+ "]".

Definition repr_opt_exn (o : option exn) : string :=
  match o with Some e => repr_exn e | None => "None" end.

(** ** The upload's state *)

Record articleset := mk_articleset {
  as_name : string; as_project : nat; as_provenance : option string; as_articles : list nat }.

Record ustate := mk_ustate {
  us_sets : gmap nat articleset;
  us_articles : list article;
  us_opt_articlesets : list nat;
  us_errors : list exn }.

Definition set_sets (m : gmap nat articleset) (st : ustate) : ustate :=
  mk_ustate m (us_articles st) (us_opt_articlesets st) (us_errors st).

(** [create_new_articleset(name, project)]: a new set under the next
    free id. *)
Definition create_new_articleset (name : string) (project : nat) : PyM ustate nat := fun st =>
  let id := S (max_list (elements (dom (us_sets st)))) in
  (set_sets (<[id := mk_articleset name project None []]> (us_sets st)) st, Ret id).

(** The property [UploadScript.articlesets] (lines 107-117): the chosen
    sets, else a set created with the given name and cached in the
    options, else no set. *)
Definition articlesets (name : string) (project : nat) : PyM ustate (list nat) := fun st =>
  if bool_decide (us_opt_articlesets st <> []) then (st, Ret (us_opt_articlesets st))
  else if bool_decide (name <> "") then
    match create_new_articleset name project st with
    | (st1, Ret id) =>
        (mk_ustate (us_sets st1) (us_articles st1) [id] (us_errors st1), Ret [id])
    | (st1, Raise e) => (st1, Raise e)
    end
  else (st, Ret []).

(** [Article.create_articles(articles, articlesets=sets)]: the articles
    get the next ids of the article table and are added to each set. *)
Definition create_articles (arts : list article) (sets : list nat) : PyM ustate unit := fun st =>
  let ids := seq (S (length (us_articles st))) (length arts) in
  let add s m := alter (fun a => mk_articleset (as_name a) (as_project a) (as_provenance a)
                                   (as_articles a ++ ids)) s m in
  (mk_ustate (foldr add (us_sets st) sets) (us_articles st ++ arts)
     (us_opt_articlesets st) (us_errors st), Ret tt).

(** [_set_project(art, project)] (lines 276-281) *)
Definition set_project (project : nat) (a : article) : article :=
  match art_project a with
  | Some _ => a
  | None => mk_article (art_text a) (art_title a) (art_url a) (art_date a)
              (art_parent_hash a) (art_properties a) (Some project)
  end.

(** [get_provenance(file, articles)] (lines 138-143): [now] is
    [str(datetime.datetime.now())]. *)
Definition get_provenance (now : string) (filename : option string) (n : nat) (cls : string) : string :=
  "[" +:+ String.substring 0 16 now +:+ "] Uploaded " +:+ pretty n +:+ " articles from file "
  +:+ (match filename with Some f => repr_str f | None => "None" end) +:+ " using " +:+ cls.

(** [aset.provenance = ("%s\n%s" % (aset.provenance or "", new_provenance)).strip(); aset.save()] *)
Definition add_provenance (prov : string) (s : nat) : PyM ustate unit :=
  modify (fun st => set_sets (alter (fun a => mk_articleset (as_name a) (as_project a)
      (Some (py_strip (default "" (as_provenance a) +:+ newline +:+ prov))) (as_articles a))
      s (us_sets st)) st).

(** ** [run] *)

Section Run.
Context {F : Type}.
(** The upload's inputs: [self.parse_file], the files of the form,
    [self.project], the [articleset_name] option, the file name of the
    [file] option, the class name and the time of the run, and the hook
    [self.postprocess(articles)] of the script's class, which may change
    the list in place. *)
Variables (parse_file : F -> list upload_item * option exn) (files : list F)
  (project : nat) (name : string) (filename : option string) (cls now : string)
  (postprocess : list article -> list article).

(** [articles_errors += [... for x in self.parse_file(f)]] for every file:
    an exception of [parse_file] leaves [run]. *)
Fixpoint parse_all (fs : list F) : res (list upload_item) :=
  match fs with
  | [] => Ret []
  | f :: rest =>
      match parse_file f with
      | (ys, None) => match parse_all rest with Ret zs => Ret (ys ++ zs) | Raise e => Raise e end
      | (_, Some e) => Raise e
      end
  end.

Definition item_article (x : upload_item) : option article :=
  match x with UArt a => Some a | UErr _ => None end.

Definition item_error (x : upload_item) : option exn :=
  match x with UErr e => Some e | UArt _ => None end.

(** [articles, errors = map(list, zip( *articles_errors))] on an empty
    list. *)
Definition unpack_error : exn := mk_exn ValueError "not enough values to unpack (expected 2, got 0)".

Definition no_articles_exn : exn := mk_exn Exception "No articles were imported".

(** [article_errors = [errors for error in errors if error]] *)
Definition article_errors (errors : list (option exn)) : list (list (option exn)) :=
  (fun _ => errors) <$> filter (fun e => is_Some e) errors.

(** [ParseError(self.errors, article_errors)] with its [str]. *)
Definition parse_error_exn (self_errors : list exn) (errors : list (option exn)) : exn :=
  mk_exn ParseError ("(" +:+ repr_list repr_exn self_errors +:+ ", "
                     +:+ repr_list (repr_list repr_opt_exn) (article_errors errors) +:+ ")").

(** The loop setting the project of every article. *)
Definition with_project (x : upload_item) : upload_item :=
  match x with UArt a => UArt (set_project project a) | UErr e => UErr e end.

(** [UploadScript.run()] (lines 153-202), returning the ids of the sets. *)
Definition run : PyM ustate (list nat) := fun st =>
  match parse_all files with
  | Raise e => (st, Raise e)
  | Ret items =>
      let items' := with_project <$> items in
      let articles := item_article <$> items' in
      let errors := item_error <$> items' in
      if bool_decide (items = []) then (st, Raise unpack_error)
      else if bool_decide (us_errors st <> []) || existsb (fun x => bool_decide (is_Some x)) errors
      then (st, Raise (parse_error_exn (us_errors st) errors))
      else
        (sets ← articlesets name project;
         create_articles (omap id articles) sets;;
         (if bool_decide (articles = []) then raise no_articles_exn else mret tt);;
         let articles := postprocess (omap id articles) in
         sets2 ← articlesets name project;
         py_for (add_provenance (get_provenance now filename (length articles) cls)) sets2;;
         articlesets name project) st
  end.

End Run.

(** [UploadScript.postprocess(articles)] of the base class: [pass],
    the list is left as it is. *)
Definition postprocess (articles : list article) : list article := articles.

(** [UploadScript.__init__]: [self.errors = []] with the tables and the
    [articlesets] option of the form. *)
Definition upload_init (sets : gmap nat articleset) (arts : list article) (opt_sets : list nat) : ustate :=
  mk_ustate sets arts opt_sets [].

(** [split_file(file)] and [_get_units(file)] of the base class: the
    whole file is one unit. *)
Definition split_file {A} (f : A) : list A := [f].

(** ** [UploadForm.clean_articleset_name] *)

Definition slash : Ascii.ascii := Ascii.ascii_of_nat 47.

(** [os.path.basename(path)]: the part after the last slash. *)
Fixpoint basename_go (s cur : string) : string :=
  match s with
  | EmptyString => cur
  | String c s' => if bool_decide (c = slash) then basename_go s' EmptyString
                   else basename_go s' (cur +:+ String c EmptyString)
  end.

Definition basename (path : string) : string := basename_go path EmptyString.

(** What the method reads: whether the [articlesets] field failed, the
    name of the uploaded file, and the cleaned [articleset_name],
    [articleset] (a key no field of the form has) and [articlesets]. *)
Record form_data := mk_form_data {
  fd_articlesets_error : bool;
  fd_file : option string;
  fd_articleset_name : string;
  fd_articleset : pyval;
  fd_articlesets : list nat }.

Definition validation_exn : exn :=
  mk_exn ValidationError "Please specify either articleset or articleset_name".

(** [clean_articleset_name()] (lines 68-80); [Ret None] is the bare
    [return]. *)
Definition clean_articleset_name (fd : form_data) : res (option string) :=
  if fd_articlesets_error fd then Ret None
  else if bool_decide (is_Some (fd_file fd))
          && negb (bool_decide (fd_articleset_name fd <> "") || truthy (fd_articleset fd))
  then Ret (Some (basename (default "" (fd_file fd))))
  else
    let name := fd_articleset_name fd in
    if negb (xorb (bool_decide (name <> "")) (bool_decide (fd_articlesets fd <> [])))
    then Raise validation_exn
    else Ret (Some name).

(** ** Facts about [basename] and the form *)

Lemma string_app_cons c (s1 s2 : string) : String c s1 +:+ s2 = String c (s1 +:+ s2).
Proof. reflexivity. Qed.

Lemma string_app_nil_l (s : string) : EmptyString +:+ s = s.
Proof. reflexivity. Qed.

Lemma string_app_nil_r (s : string) : s +:+ EmptyString = s.
Proof. induction s as [|c s IH]; [done|]. by rewrite string_app_cons, IH. Qed.

Lemma string_app_assoc (s1 s2 s3 : string) : s1 +:+ (s2 +:+ s3) = (s1 +:+ s2) +:+ s3.
Proof. induction s1 as [|c s1 IH]; [done|]. by rewrite !string_app_cons, IH. Qed.

Lemma basename_go_app s1 s2 cur :
  basename_go (s1 +:+ s2) cur = basename_go s2 (basename_go s1 cur).
Proof.
  revert cur. induction s1 as [|c s1 IH]; intros cur; [done|].
  rewrite string_app_cons. simpl. by case_bool_decide.
Qed.

(** Scanning a name without slashes appends it. *)
Lemma basename_go_noslash name cur :
  (forall c, c ∈ String.list_ascii_of_string name -> c <> slash) ->
  basename_go name cur = cur +:+ name.
Proof.
  revert cur. induction name as [|c name IH]; intros cur Hn; simpl.
  - by rewrite string_app_nil_r.
  - rewrite bool_decide_false by (apply Hn; simpl; set_solver).
    rewrite IH by (intros c' Hc'; apply Hn; simpl; set_solver).
    by rewrite <- string_app_assoc.
Qed.

(** [os.path.basename] gives back the file name of a
    path [dir/name] whose name has no slash. *)
Theorem basename_join dir name :
  (forall c, c ∈ String.list_ascii_of_string name -> c <> slash) ->
  basename (dir +:+ String slash name) = name.
Proof.
  intros Hn. unfold basename. rewrite basename_go_app. simpl.
  by rewrite basename_go_noslash.
Qed.

(** C27: the form's set name.  Unless the
    [articlesets] field failed, the name is the uploaded file's base
    name when a file is given without a name (whatever sets were chosen:
    the [articleset] key it also checks is no field of the form), and
    otherwise the given name, accepted only when exactly one of a name
    and a choice of sets is given. *)
Theorem clean_articleset_name_spec fd r :
  fd_articlesets_error fd = false -> fd_articleset fd = VNone ->
  clean_articleset_name fd = r ->
  (exists f, fd_file fd = Some f /\ fd_articleset_name fd = "" /\ r = Ret (Some (basename f))) \/
  ((fd_file fd = None \/ fd_articleset_name fd <> "") /\
   (r = Ret (Some (fd_articleset_name fd)) <->
      (fd_articleset_name fd <> "" <-> fd_articlesets fd = [])) /\
   (r = Raise validation_exn <->
      ~ (fd_articleset_name fd <> "" <-> fd_articlesets fd = []))).
Proof.
  intros He Ha <-. unfold clean_articleset_name. rewrite He, Ha. cbn [truthy orb negb].
  destruct (fd_file fd) as [f|]; destruct (decide (fd_articleset_name fd = "")) as [Hn|Hn];
    destruct (decide (fd_articlesets fd = [])) as [Hs|Hs];
    repeat first [rewrite bool_decide_true by (done || tauto || by eexists)
                 | rewrite bool_decide_false by (done || tauto || by intros [? ?])]; simpl;
    first [left; by eexists
          | right; repeat split; intros; first [done | tauto | congruence]].
Qed.

(** ** Facts about the [articlesets] property and [run] *)

Section ArticlesetsFacts.
Variables (name : string) (project : nat).

(** The sets the property returns and the state it leaves. *)
Lemma articlesets_spec st :
  articlesets name project st =
    if bool_decide (us_opt_articlesets st <> []) then (st, Ret (us_opt_articlesets st))
    else if bool_decide (name <> "") then
      let id := S (max_list (elements (dom (us_sets st)))) in
      (mk_ustate (<[id := mk_articleset name project None []]> (us_sets st))
         (us_articles st) [id] (us_errors st), Ret [id])
    else (st, Ret []).
Proof. reflexivity. Qed.

Lemma articlesets_total : total (articlesets name project).
Proof. intros st. rewrite articlesets_spec. repeat case_bool_decide; eauto. Qed.

(** Once the property has returned, asking again in a state with the
    same cached option returns the same sets and changes nothing. *)
(** The three branches of the property, as hypotheses. *)
Lemma articlesets_branches st st1 ids :
  articlesets name project st = (st1, Ret ids) ->
  (us_opt_articlesets st <> [] /\ st1 = st /\ ids = us_opt_articlesets st) \/
  (us_opt_articlesets st = [] /\ name <> "" /\
   let id := S (max_list (elements (dom (us_sets st)))) in
   st1 = mk_ustate (<[id := mk_articleset name project None []]> (us_sets st))
           (us_articles st) [id] (us_errors st) /\ ids = [id]) \/
  (us_opt_articlesets st = [] /\ name = "" /\ st1 = st /\ ids = []).
Proof.
  rewrite articlesets_spec.
  destruct (decide (us_opt_articlesets st = [])) as [Ho|Ho];
    [rewrite bool_decide_false by tauto | rewrite bool_decide_true by done; intros [= <- <-]; by left].
  destruct (decide (name = "")) as [Hn|Hn];
    [rewrite bool_decide_false by tauto | rewrite bool_decide_true by done];
    intros [= <- <-]; right; [right | left]; done.
Qed.

Lemma articlesets_stable st st1 st2 ids :
  articlesets name project st = (st1, Ret ids) ->
  us_opt_articlesets st2 = us_opt_articlesets st1 ->
  articlesets name project st2 = (st2, Ret ids).
Proof.
  intros [(Ho & -> & ->) | [(Ho & Hn & -> & ->) | (Ho & Hn & -> & ->)]]%articlesets_branches Ho2;
    rewrite articlesets_spec, Ho2; cbn [us_opt_articlesets].
  - by rewrite bool_decide_true.
  - by rewrite bool_decide_true.
  - rewrite Ho, !bool_decide_false by tauto. done.
Qed.

(** The property adds at most one set, and returns sets of the table
    when the cached option names sets of the table. *)
Lemma articlesets_sets st st1 ids :
  articlesets name project st = (st1, Ret ids) ->
  (forall s, s ∈ us_opt_articlesets st -> is_Some (us_sets st !! s)) ->
  (forall s, s ∈ ids -> is_Some (us_sets st1 !! s)) /\
  (forall s, is_Some (us_sets st !! s) -> is_Some (us_sets st1 !! s)) /\
  size (dom (us_sets st1)) <= S (size (dom (us_sets st))) /\
  us_articles st1 = us_articles st /\ us_errors st1 = us_errors st.
Proof.
  intros [(Ho & -> & ->) | [(Ho & Hn & -> & ->) | (Ho & Hn & -> & ->)]]%articlesets_branches Hwf;
    simpl; try (repeat split; set_solver || lia).
  set (id := S (max_list (elements (dom (us_sets st))))).
  repeat split; try done.
  - intros s ->%list_elem_of_singleton. by rewrite lookup_insert_eq.
  - intros s Hs. destruct (decide (s = id)) as [->|];
      [by rewrite lookup_insert_eq | by rewrite lookup_insert_ne].
  - rewrite dom_insert, size_union_alt, size_singleton.
    assert (size (dom (us_sets st) ∖ {[id]}) <= size (dom (us_sets st)))
      by (apply subseteq_size; set_solver).
    lia.
Qed.

End ArticlesetsFacts.

(** ** Facts about the writes of [run] *)

Lemma create_articles_spec arts sets st :
  let st' := fst (create_articles arts sets st) in
  us_articles st' = us_articles st ++ arts /\ us_opt_articlesets st' = us_opt_articlesets st /\
  us_errors st' = us_errors st /\ dom (us_sets st') = dom (us_sets st) /\
  forall s, s ∈ sets -> is_Some (us_sets st !! s) ->
    exists a, us_sets st' !! s = Some a /\
      seq (S (length (us_articles st))) (length arts) `suffix_of` as_articles a.
Proof.
  simpl. set (ids := seq (S (length (us_articles st))) (length arts)).
  set (g := fun a => mk_articleset (as_name a) (as_project a) (as_provenance a) (as_articles a ++ ids)).
  assert (Hdom : forall xs, dom (foldr (fun s m => alter g s m) (us_sets st) xs) = dom (us_sets st)).
  { induction xs as [|x xs IH]; simpl; [done|]. by rewrite dom_alter_L, IH. }
  repeat split; [apply Hdom|]. intros s Hs Hsome.
  induction sets as [|x xs IH]; [set_solver|]. simpl.
  destruct (decide (s = x)) as [->|Hne].
  - rewrite lookup_alter_eq.
    assert (Hx : is_Some (foldr (fun s m => alter g s m) (us_sets st) xs !! x))
      by (apply elem_of_dom; rewrite Hdom; by apply elem_of_dom).
    destruct Hx as [a Ha]. rewrite Ha. exists (g a). split; [reflexivity|]. simpl. by eexists.
  - rewrite lookup_alter_ne by done. apply IH. set_solver.
Qed.

Lemma py_for_add_provenance prov xs st :
  exists st', py_for (add_provenance prov) xs st = (st', Ret tt) /\
    us_articles st' = us_articles st /\ us_opt_articlesets st' = us_opt_articlesets st /\
    us_errors st' = us_errors st /\ dom (us_sets st') = dom (us_sets st) /\
    forall s, as_articles <$> us_sets st' !! s = as_articles <$> us_sets st !! s.
Proof.
  revert st. induction xs as [|x xs IH]; intros st; simpl; [by eexists|].
  destruct (IH (set_sets (alter (fun a => mk_articleset (as_name a) (as_project a)
      (Some (py_strip (default "" (as_provenance a) +:+ newline +:+ prov))) (as_articles a))
      x (us_sets st)) st)) as (st' & Hr & Ha & Ho & He & Hd & Hs).
  exists st'. split; [exact Hr|]. simpl in *. rewrite Hd, dom_alter_L. repeat split; try done.
  intros s. rewrite Hs. destruct (decide (s = x)) as [->|];
    [rewrite lookup_alter_eq; by destruct (us_sets st !! x) | by rewrite lookup_alter_ne].
Qed.

Lemma omap_with_project project (items : list upload_item) :
  omap id (item_article <$> (with_project project <$> items)) = set_project project <$> omap item_article items.
Proof. induction items as [|[a|e] items IH]; simpl; [done | f_equal; exact IH | exact IH]. Qed.

Lemma item_error_with_project project x : item_error (with_project project x) = item_error x.
Proof. by destruct x. Qed.

(** ** Upload states up to provenance *)

(** Two upload states with the same article table, options, errors and
    set contents; the sets' names, projects and provenance may differ. *)
Definition same_content (st st' : ustate) : Prop :=
  us_articles st = us_articles st' /\ us_opt_articlesets st = us_opt_articlesets st' /\
  us_errors st = us_errors st' /\ dom (us_sets st) = dom (us_sets st') /\
  forall s, as_articles <$> us_sets st !! s = as_articles <$> us_sets st' !! s.

#[export] Instance same_content_equiv : Equivalence same_content.
Proof.
  split.
  - intros st. by repeat split.
  - intros st st' (? & ? & ? & ? & Hs). repeat split; try congruence; intros s; by rewrite Hs.
  - intros a b c (? & ? & ? & ? & Hab) (? & ? & ? & ? & Hbc).
    repeat split; try congruence; intros s; by rewrite Hab, Hbc.
Qed.

(** The [articlesets] property answers the same on states of the same
    content, and keeps them so. *)
Lemma articlesets_same_content name project st st' s1 ids :
  same_content st st' -> articlesets name project st = (s1, Ret ids) ->
  exists s2, articlesets name project st' = (s2, Ret ids) /\ same_content s1 s2.
Proof.
  intros Hs. pose proof Hs as (Ha & Ho & He & Hd & Hc).
  rewrite (articlesets_spec name project st), (articlesets_spec name project st'), <-Ho, <-Hd.
  case_bool_decide; [intros [= <- <-]; by eexists|].
  case_bool_decide; [|intros [= <- <-]; by eexists].
  intros [= <- <-]. eexists. split; [done|]. repeat split; cbn; try done.
  - by rewrite !dom_insert_L, Hd.
  - intros s. destruct (decide (s = S (max_list (elements (dom (us_sets st)))))) as [->|Hne].
    + by rewrite !lookup_insert_eq.
    + by rewrite !lookup_insert_ne.
Qed.

(** [Article.create_articles] keeps states of the same content so. *)
Lemma create_articles_same_content arts sets st st' :
  same_content st st' ->
  same_content (fst (create_articles arts sets st)) (fst (create_articles arts sets st')).
Proof.
  intros (Ha & Ho & He & Hd & Hc). cbn. rewrite Ha.
  set (g := fun a => mk_articleset (as_name a) (as_project a) (as_provenance a)
                      (as_articles a ++ seq (S (length (us_articles st'))) (length arts))).
  repeat split; try done.
  - cbn [us_sets]. clear Hc. induction sets as [|x xs IH]; simpl; [done|]. by rewrite !dom_alter_L, IH.
  - cbn [us_sets]. induction sets as [|x xs IH]; intros s; simpl; [apply Hc|].
    destruct (decide (s = x)) as [->|Hne]; [|by rewrite !lookup_alter_ne].
    rewrite !lookup_alter_eq. specialize (IH x).
    destruct (foldr _ (us_sets st) xs !! x), (foldr _ (us_sets st') xs !! x); simpl in *; try done.
    injection IH as IH. by rewrite IH.
Qed.

(** The saving part of [run] answers the same whatever provenance line
    it writes, on states of the same content. *)
Lemma run_tail_prov name project arts (chk : PyM ustate unit) prov1 prov2 st s1 ids :
  (sets ← articlesets name project; create_articles arts sets;; chk;;
   sets2 ← articlesets name project; py_for (add_provenance prov1) sets2;;
   articlesets name project) st = (s1, Ret ids) ->
  exists s2,
  (sets ← articlesets name project; create_articles arts sets;; chk;;
   sets2 ← articlesets name project; py_for (add_provenance prov2) sets2;;
   articlesets name project) st = (s2, Ret ids) /\ same_content s1 s2.
Proof.
  intros H.
  apply py_bind_Ret_inv in H as (st1 & sets & Ha1 & H).
  apply py_bind_Ret_inv in H as (st2 & [] & Hc & H).
  apply py_bind_Ret_inv in H as (st3 & [] & Hk & H).
  apply py_bind_Ret_inv in H as (st4 & sets2 & Ha2 & H).
  apply py_bind_Ret_inv in H as (st5 & [] & Hf & Ha3).
  destruct (py_for_add_provenance prov1 sets2 st4) as (st5' & Hf1 & A1 & O1 & E1 & D1 & S1).
  rewrite Hf in Hf1. injection Hf1 as <-.
  destruct (py_for_add_provenance prov2 sets2 st4) as (st6 & Hf2 & A2 & O2 & E2 & D2 & S2).
  assert (Hsc : same_content st5 st6).
  { repeat split; try congruence; intros s; by rewrite S1, S2. }
  destruct (articlesets_same_content _ _ _ _ _ _ Hsc Ha3) as (s2 & Ha4 & Hs).
  exists s2. split; [|done].
  rewrite (py_bind_Ret _ _ _ _ _ Ha1), (py_bind_Ret _ _ _ _ _ Hc), (py_bind_Ret _ _ _ _ _ Hk),
    (py_bind_Ret _ _ _ _ _ Ha2), (py_bind_Ret _ _ _ _ _ Hf2). exact Ha4.
Qed.

Section RunFacts.
Context {F : Type}.
Variables (parse_file : F -> list upload_item * option exn) (files : list F)
  (project : nat) (name : string) (filename : option string) (cls now : string)
  (postprocess : list article -> list article).

Lemma create_articles_total arts sets : total (create_articles arts sets).
Proof. intros st. eauto. Qed.

Lemma add_provenance_total prov s : total (add_provenance prov s).
Proof. apply total_modify. Qed.

(** After the checks, the saving part of [run] never raises, whatever
    list of articles it hands to [create_articles]. *)
Lemma run_tail_total (articles : list (option article)) (arts : list article) :
  articles <> [] ->
  total (sets ← articlesets name project;
         create_articles arts sets;;
         (if bool_decide (articles = []) then raise no_articles_exn else mret tt);;
         let articles := postprocess (omap id articles) in
         sets2 ← articlesets name project;
         py_for (add_provenance (get_provenance now filename (length articles) cls)) sets2;;
         articlesets name project).
Proof.
  intros Hne. apply total_bind; [apply articlesets_total|]. intros sets.
  apply total_bind; [apply create_articles_total|]. intros _.
  rewrite bool_decide_false by done.
  apply total_bind; [apply total_ret|]. intros _.
  apply total_bind; [apply articlesets_total|]. intros sets2.
  apply total_bind; [apply total_for; intros; apply add_provenance_total|]. intros _.
  apply articlesets_total.
Qed.

(** How [run] can raise: [parse_file]'s exception, the failed unpacking
    of an empty upload, or the [ParseError] of the collected errors; in
    each case before anything is written. *)
Lemma run_raise_cases st st' e :
  run parse_file files project name filename cls now postprocess st = (st', Raise e) -> st' = st /\
  (parse_all parse_file files = Raise e \/
   (parse_all parse_file files = Ret [] /\ e = unpack_error) \/
   exists items, parse_all parse_file files = Ret items /\
     e = parse_error_exn (us_errors st) (item_error <$> (with_project project <$> items))).
Proof.
  unfold run. destruct (parse_all parse_file files) as [items|e'] eqn:Hp; [|intros [= <- <-]; auto].
  case_bool_decide as Hnil; [intros [= <- <-]; subst; auto|].
  destruct (_ || _); [intros [= <- <-]; eauto 10|].
  intros Hr. exfalso. refine (total_Raise _ _ _ _ (run_tail_total _ _ _) Hr).
  by intros ?%fmap_nil_inv%fmap_nil_inv.
Qed.

(** An upload whose files parse to nothing fails
    with the [ValueError] of unpacking [zip()] of an empty list, before
    its check for an empty upload is reached. *)
Theorem run_empty_upload st :
  parse_all parse_file files = Ret [] -> run parse_file files project name filename cls now postprocess st = (st, Raise unpack_error).
Proof. intros Hp. unfold run. by rewrite Hp. Qed.

(** C18: once the files are parsed, [run]
    never raises [Exception("No articles were imported")] (line 188): an
    empty upload fails earlier, and otherwise there are articles. *)
Theorem run_no_articles_unreachable items st st' :
  parse_all parse_file files = Ret items -> run parse_file files project name filename cls now postprocess st <> (st', Raise no_articles_exn).
Proof.
  intros Hi Hr. apply run_raise_cases in Hr as [_ [Hr | [[_ Hr] | (? & _ & Hr)]]];
    [congruence | discriminate | discriminate].
Qed.

(** C25: the hook [postprocess] cannot
    take an article out of the upload.  Its docstring says that removing
    articles from the list excludes them from the articleset, but [run]
    calls [Article.create_articles] with the sets before
    [self.postprocess(articles)]: whatever a subclass's hook does to the
    list, a run with any other hook answers the same sets, creates the
    same articles and leaves every set holding the same articles; only
    the count in the provenance line can differ. *)
Theorem run_postprocess_cannot_exclude (hook : list article -> list article) st st' ids :
  run parse_file files project name filename cls now postprocess st = (st', Ret ids) ->
  exists st'', run parse_file files project name filename cls now hook st = (st'', Ret ids) /\
    us_articles st'' = us_articles st' /\
    forall s, as_articles <$> us_sets st'' !! s = as_articles <$> us_sets st' !! s.
Proof.
  unfold run. destruct (parse_all parse_file files) as [items|e]; [|discriminate].
  case_bool_decide; [discriminate|]. destruct (_ || _); [discriminate|].
  cbv zeta. intros Hrun. destruct (run_tail_prov _ _ _ _ _
    (get_provenance now filename (length (hook (omap id (item_article <$> (with_project project <$> items))))) cls)
    _ _ _ Hrun) as (s2 & Hr & Ha & _ & _ & _ & Hs).
  exists s2. split; [exact Hr|]. split; [done|]. intros s. by rewrite Hs.
Qed.

(** A run that returns: every record parsed to an article, the set
    property gave [sets], the articles were created in them, and the
    provenance loop ran over the same sets. *)
Lemma run_Ret st st' ids :
  run parse_file files project name filename cls now postprocess st = (st', Ret ids) ->
  exists items st1 st2, parse_all parse_file files = Ret items /\ items <> [] /\
    us_errors st = [] /\ Forall (fun x => item_error x = None) items /\
    articlesets name project st = (st1, Ret ids) /\
    st2 = fst (create_articles (set_project project <$> omap item_article items) ids st1) /\
    py_for (add_provenance (get_provenance now filename
      (length (postprocess (set_project project <$> omap item_article items))) cls)) ids st2 = (st', Ret tt).
Proof.
  unfold run. destruct (parse_all parse_file files) as [items|e] eqn:Hp; [|discriminate].
  case_bool_decide as Hnil; [discriminate|].
  destruct (_ || _) eqn:Hchk; [discriminate|]. apply orb_false_iff in Hchk as [He1 He2].
  intros (st1 & sets & Ha1 & Hr)%py_bind_Ret_inv.
  apply py_bind_Ret_inv in Hr as (st2 & [] & Hc & Hr).
  apply py_bind_Ret_inv in Hr as (st2' & [] & Hif & Hr).
  rewrite bool_decide_false in Hif by (by intros ?%fmap_nil_inv%fmap_nil_inv).
  injection Hif as <-.
  apply py_bind_Ret_inv in Hr as (st3 & sets2 & Ha2 & Hr).
  pose proof (create_articles_spec (omap id (item_article <$> (with_project project <$> items))) sets st1)
    as (_ & Ho & _).
  rewrite Hc in Ho. simpl in Ho.
  rewrite (articlesets_stable _ _ _ _ _ _ Ha1 Ho) in Ha2. injection Ha2 as <- <-.
  apply py_bind_Ret_inv in Hr as (st4 & [] & Hfor & Ha3).
  destruct (py_for_add_provenance (get_provenance now filename
    (length (postprocess (omap id (item_article <$> (with_project project <$> items))))) cls) sets st2)
    as (st4' & Hfor' & _ & Ho4 & _).
  rewrite Hfor in Hfor'. injection Hfor' as Heq4. subst st4'.
  rewrite (articlesets_stable _ _ _ _ st4 _ Ha1 ltac:(by rewrite Ho4, Ho)) in Ha3.
  injection Ha3 as <- <-.
  exists items, st1, st2. repeat split; try done.
  - apply bool_decide_eq_false in He1. destruct (us_errors st); [done|]. by exfalso; apply He1.
  - apply Forall_forall. intros x Hx. destruct (item_error x) eqn:Hex; [|done].
    exfalso. apply not_true_iff_false in He2. apply He2, existsb_exists.
    exists (item_error (with_project project x)). split.
    + apply list_elem_of_In. do 2 apply list_elem_of_fmap_2. done.
    + by rewrite item_error_with_project, Hex.
  - by rewrite <- omap_with_project, Hc.
  - by rewrite omap_with_project in Hfor.
Qed.

(** C6: what a successful upload writes.  When the chosen
    sets are sets of the table and [run] returns the ids [ids], no record
    failed to parse, the article table grew by exactly the parsed
    articles, in order, each with a project (its own or the upload's),
    and every returned set holds the new articles' ids. *)
Theorem run_success st st' ids :
  (forall s, s ∈ us_opt_articlesets st -> is_Some (us_sets st !! s)) ->
  run parse_file files project name filename cls now postprocess st = (st', Ret ids) ->
  exists items, parse_all parse_file files = Ret items /\
    Forall (fun x => item_error x = None) items /\
    us_articles st' = us_articles st ++ (set_project project <$> omap item_article items) /\
    Forall (fun a => is_Some (art_project a)) (set_project project <$> omap item_article items) /\
    forall s, s ∈ ids -> exists a, us_sets st' !! s = Some a /\
      seq (S (length (us_articles st))) (length (omap item_article items)) `suffix_of` as_articles a.
Proof.
  intros Hwf (items & st1 & st2 & Hp & _ & _ & Hall & Ha1 & Hst2 & Hfor)%run_Ret.
  destruct (articlesets_sets _ _ _ _ _ Ha1 Hwf) as (Hids & _ & _ & Hart1 & _).
  pose proof (create_articles_spec (set_project project <$> omap item_article items) ids st1)
    as (Hart2 & _ & _ & _ & Hsets2). rewrite <- Hst2 in Hart2, Hsets2.
  destruct (py_for_add_provenance (get_provenance now filename
    (length (postprocess (set_project project <$> omap item_article items))) cls) ids st2)
    as (st4 & Hfor' & Hart4 & _ & _ & _ & Hs4).
  rewrite Hfor in Hfor'. injection Hfor' as <-.
  exists items. repeat split; try done.
  - by rewrite Hart4, Hart2, Hart1.
  - apply Forall_fmap, Forall_forall. intros a _. unfold set_project. simpl.
    destruct (art_project a) eqn:Hpr; simpl; [by rewrite Hpr | done].
  - intros s Hs. destruct (Hsets2 s Hs (Hids s Hs)) as (a & Ha & Hsuf).
    specialize (Hs4 s). rewrite Ha in Hs4. destruct (us_sets st' !! s) as [a'|] eqn:Ha'; [|done].
    injection Hs4 as Heq. exists a'. split; [done|]. rewrite Heq.
    rewrite length_fmap, Hart1 in Hsuf. exact Hsuf.
Qed.

(** C26: an upload adds at most one article set (the one
    named by the form, created once and then cached in the options). *)
Theorem run_one_new_set st st' ids :
  (forall s, s ∈ us_opt_articlesets st -> is_Some (us_sets st !! s)) ->
  run parse_file files project name filename cls now postprocess st = (st', Ret ids) -> size (dom (us_sets st')) <= S (size (dom (us_sets st))).
Proof.
  intros Hwf (items & st1 & st2 & _ & _ & _ & _ & Ha1 & Hst2 & Hfor)%run_Ret.
  destruct (articlesets_sets _ _ _ _ _ Ha1 Hwf) as (_ & _ & Hsize & _).
  pose proof (create_articles_spec (set_project project <$> omap item_article items) ids st1)
    as (_ & _ & _ & Hd2 & _). rewrite <- Hst2 in Hd2.
  destruct (py_for_add_provenance (get_provenance now filename
    (length (postprocess (set_project project <$> omap item_article items))) cls) ids st2)
    as (st4 & Hfor' & _ & _ & _ & Hd4 & _).
  rewrite Hfor in Hfor'. injection Hfor' as <-. by rewrite Hd4, Hd2.
Qed.

End RunFacts.

(** ** Concrete uploads *)

Module UploadRuns.

(** The article model: [url] and [parent_hash] may be blank. *)
Definition blank (f : string) : bool := bool_decide (f = "url") || bool_decide (f = "parent_hash").

Definition col (c : string) : gmap string pyval := <["column" := VStr c]> ∅.

(** A CSV upload's field map: title, text and date from columns, and a
    [section] property. *)
Definition fm : list (string * gmap string pyval) :=
  [("title", col "kop"); ("text", col "body"); ("date", col "datum"); ("section", col "rubriek")].

Definition row1 : gmap string pyval :=
  <["kop" := VStr "Hello"]> (<["body" := VStr "World"]> (<["datum" := VStr "2024-01-01"]>
    (<["rubriek" := VStr "sport"]> ∅))).

(** A row without a title. *)
Definition row2 : gmap string pyval :=
  <["body" := VStr "Text"]> (<["datum" := VStr "2024-01-02"]> ∅).

Definition dummy : article := Article ∅ ∅.

Definition row1_article : article :=
  match article_from_dict (Some fm) blank row1 with Ret a => a | Raise _ => dummy end.

(** A file of three units: unit [1] is [row1], unit [2] is [row2], unit
    [3] cannot be parsed. *)
Definition parse_doc (u : nat) : res parsed :=
  match u with
  | 1 => Ret (PMany [PDict row1])
  | 2 => Ret (PMany [PDict row2])
  | _ => Raise (mk_exn ParseError "unexpected end of file")
  end.

Definition units_of (f : nat) : list nat :=
  match f with 0 => [1] | 1 => [1; 2] | 2 => [1; 3] | _ => [] end.

Definition pf : nat -> list upload_item * option exn := parse_file (Some fm) blank parse_doc units_of.

Definition st0 : ustate := upload_init ∅ [] [].

(** The exception a run raised, if it did. *)
Definition fst_exn (r : ustate * res (list nat)) : exn :=
  match r with (_, Raise e) => e | _ => mk_exn Exception "" end.

Definition run_file (f : nat) := run pf [f] 5 "uploads" (Some "news.csv") "CSV" "2024-05-01 10:00:00.000" postprocess.

(** The [ParseError] of an upload with one bad record: its payload lists
    the whole [errors] list, [None]s included, once per error. *)
Example bad_record_message :
  run_file 1 st0 = (st0, Raise (mk_exn ParseError
    "([], [[None, MissingValueError('Missing value for field: 'title'')]])")).
Proof. vm_compute. reflexivity. Qed.

Lemma article_from_dict_required_witness :
  article_from_dict (Some fm) blank row1 = Ret row1_article /\ "title" ∈ get_required blank /\
  art_field row1_article "title" <> VNone.
Proof.
  assert (H1 : article_from_dict (Some fm) blank row1 = Ret row1_article) by (vm_compute; reflexivity).
  assert (H2 : "title" ∈ get_required blank) by (vm_compute; set_solver).
  split; [exact H1|]. split; [exact H2|].
  exact (article_from_dict_required (Some fm) blank row1 row1_article "title" H1 H2).
Defined.

Lemma article_from_dict_error_witness :
  article_from_dict (Some fm) blank row2 = Raise (missing_value_error "title") /\
  isinstance (missing_value_error "title") ArticleError = true /\
  exists f, missing_value_error "title" = missing_value_error f /\
    ((exists from, (f, from) ∈ default [] (Some fm) /\
        column_value row2 from = VNone /\ use_default row2 from = true /\ from !! "value" = None) \/
     (f ∈ get_required blank /\ exists mapped,
        map_fields row2 (default [] (Some fm)) ∅ = Ret mapped /\ dict_get mapped f = VNone)).
Proof.
  assert (H : article_from_dict (Some fm) blank row2 = Raise (missing_value_error "title"))
    by (vm_compute; reflexivity).
  split; [exact H|]. exact (article_from_dict_error (Some fm) blank row2 _ H).
Defined.

Lemma article_from_dict_columns_witness :
  NoDup fm.*1 /\ ("section", col "rubriek") ∈ fm /\
  col "rubriek" !! "column" = Some (VStr "rubriek") /\ row1 !! "rubriek" = Some (VStr "sport") /\
  article_from_dict (Some fm) blank row1 = Ret row1_article /\
  ("section" ∈ ARTICLE_FIELDS -> art_field row1_article "section" = VStr "sport") /\
  ("section" ∉ ARTICLE_FIELDS -> art_properties row1_article !! "section" = Some (VStr "sport")) /\
  (forall f, f ∈ ARTICLE_FIELDS -> art_properties row1_article !! f = None).
Proof.
  assert (Hnd : NoDup fm.*1) by (apply (bool_decide_unpack _); vm_compute; reflexivity).
  assert (Hin : ("section", col "rubriek") ∈ fm) by (apply (bool_decide_unpack _); vm_compute; reflexivity).
  assert (Hc : col "rubriek" !! "column" = Some (VStr "rubriek")) by reflexivity.
  assert (Hv : row1 !! "rubriek" = Some (VStr "sport")) by (vm_compute; reflexivity).
  assert (Ha : article_from_dict (Some fm) blank row1 = Ret row1_article) by (vm_compute; reflexivity).
  do 5 (split; [assumption|]).
  exact (article_from_dict_columns (Some fm) blank fm row1 row1_article "section" (col "rubriek")
           "rubriek" (VStr "sport") eq_refl Hnd Hin Hc Hv ltac:(discriminate) Ha).
Defined.

Lemma scrape_unit_isolates_witness :
  parse_doc 2 = Ret (PMany [PDict row2]) /\
  scrape_unit (Some fm) blank parse_doc 2 = (item_of (Some fm) blank <$> [PDict row2], None).
Proof.
  split; [reflexivity|]. exact (scrape_unit_isolates (Some fm) blank parse_doc 2 _ eq_refl).
Defined.

Definition file2_items := [UArt row1_article].
Definition unit3_error := mk_exn ParseError "unexpected end of file".

Lemma parse_file_error_witness :
  pf 2 = (file2_items,
          Some (mk_exn ParseError "Error in article or filepart 2: unexpected end of file.")) /\
  exists pre u post ysu e, units_of 2 = pre ++ u :: post /\
    Forall (fun u' => (scrape_unit (Some fm) blank parse_doc u').2 = None) pre /\
    scrape_unit (Some fm) blank parse_doc u = (ysu, Some e) /\
    file2_items = concat ((fun u' => (scrape_unit (Some fm) blank parse_doc u').1) <$> pre) ++ ysu /\
    mk_exn ParseError "Error in article or filepart 2: unexpected end of file." =
      (if isinstance e ParseError
       then mk_exn ParseError (explain_error (exn_msg e) (Some (S (length pre)))) else e).
Proof.
  assert (H : pf 2 = (file2_items,
          Some (mk_exn ParseError "Error in article or filepart 2: unexpected end of file.")))
    by (vm_compute; reflexivity).
  split; [exact H|]. exact (parse_file_error (Some fm) blank parse_doc units_of 2 _ _ H).
Defined.

Lemma run_empty_upload_witness :
  parse_all pf [3] = Ret [] /\ run_file 3 st0 = (st0, Raise unpack_error).
Proof.
  assert (H : parse_all pf [3] = Ret []) by (vm_compute; reflexivity).
  split; [exact H|].
  exact (run_empty_upload pf [3] 5 "uploads" (Some "news.csv") "CSV" "2024-05-01 10:00:00.000" postprocess st0 H).
Defined.

Definition file0_items := [UArt row1_article].

Lemma run_no_articles_unreachable_witness :
  parse_all pf [0] = Ret file0_items /\
  run_file 0 st0 <> (fst (run_file 0 st0), Raise no_articles_exn).
Proof.
  assert (H : parse_all pf [0] = Ret file0_items) by (vm_compute; reflexivity).
  split; [exact H|].
  exact (run_no_articles_unreachable pf [0] 5 "uploads" (Some "news.csv") "CSV"
           "2024-05-01 10:00:00.000" postprocess file0_items st0 _ H).
Defined.

Lemma st0_wf : forall s, s ∈ us_opt_articlesets st0 -> is_Some (us_sets st0 !! s).
Proof. intros s Hs. by apply elem_of_nil in Hs. Qed.

(** The upload of [row1] creates the set [1] named by the form. *)
(** A subclass's hook that removes every article from the list. *)
Definition drop_all (articles : list article) : list article := [].

Lemma run_postprocess_cannot_exclude_witness :
  run_file 0 st0 = (fst (run_file 0 st0), Ret [1]) /\
  exists st'', run pf [0] 5 "uploads" (Some "news.csv") "CSV" "2024-05-01 10:00:00.000" drop_all st0 = (st'', Ret [1]) /\
    us_articles st'' = us_articles (fst (run_file 0 st0)) /\
    forall s, as_articles <$> us_sets st'' !! s = as_articles <$> us_sets (fst (run_file 0 st0)) !! s.
Proof.
  assert (H : run_file 0 st0 = (fst (run_file 0 st0), Ret [1])) by (vm_compute; reflexivity).
  split; [exact H|].
  exact (run_postprocess_cannot_exclude pf [0] 5 "uploads" (Some "news.csv") "CSV" "2024-05-01 10:00:00.000"
           postprocess drop_all st0 _ _ H).
Defined.

(** With [drop_all] the provenance line counts no article, although the
    set holds the uploaded one. *)
Example drop_all_provenance :
  as_provenance <$> us_sets (fst (run pf [0] 5 "uploads" (Some "news.csv") "CSV" "2024-05-01 10:00:00.000" drop_all st0)) !! 1 =
  Some (Some "[2024-05-01 10:00] Uploaded 0 articles from file 'news.csv' using CSV").
Proof. vm_compute. reflexivity. Qed.

Lemma run_success_witness :
  run_file 0 st0 = (fst (run_file 0 st0), Ret [1]) /\
  exists items, parse_all pf [0] = Ret items /\
    Forall (fun x => item_error x = None) items /\
    us_articles (fst (run_file 0 st0)) = us_articles st0 ++ (set_project 5 <$> omap item_article items) /\
    Forall (fun a => is_Some (art_project a)) (set_project 5 <$> omap item_article items) /\
    forall s, s ∈ [1] -> exists a, us_sets (fst (run_file 0 st0)) !! s = Some a /\
      seq (S (length (us_articles st0))) (length (omap item_article items)) `suffix_of` as_articles a.
Proof.
  assert (H : run_file 0 st0 = (fst (run_file 0 st0), Ret [1])) by (vm_compute; reflexivity).
  split; [exact H|].
  exact (run_success pf [0] 5 "uploads" (Some "news.csv") "CSV" "2024-05-01 10:00:00.000" postprocess
           st0 _ _ st0_wf H).
Defined.

Lemma run_one_new_set_witness :
  run_file 0 st0 = (fst (run_file 0 st0), Ret [1]) /\
  size (dom (us_sets (fst (run_file 0 st0)))) <= S (size (dom (us_sets st0))).
Proof.
  assert (H : run_file 0 st0 = (fst (run_file 0 st0), Ret [1])) by (vm_compute; reflexivity).
  split; [exact H|].
  exact (run_one_new_set pf [0] 5 "uploads" (Some "news.csv") "CSV" "2024-05-01 10:00:00.000" postprocess
           st0 _ _ st0_wf H).
Defined.

Lemma basename_join_witness :
  (forall c, c ∈ String.list_ascii_of_string "news.csv" -> c <> slash) /\
  basename ("data/2024" +:+ String slash "news.csv") = "news.csv".
Proof.
  assert (H : forall c, c ∈ String.list_ascii_of_string "news.csv" -> c <> slash).
  { apply Forall_forall. vm_compute. repeat constructor; discriminate. }
  split; [exact H|]. exact (basename_join "data/2024" "news.csv" H).
Defined.

(** A file uploaded without a name while a set is chosen. *)
Definition fd_file_and_set : form_data := mk_form_data false (Some "data/news.csv") "" VNone [3].

Lemma clean_articleset_name_spec_witness :
  fd_articlesets_error fd_file_and_set = false /\ fd_articleset fd_file_and_set = VNone /\
  ((exists f, fd_file fd_file_and_set = Some f /\ fd_articleset_name fd_file_and_set = "" /\
      clean_articleset_name fd_file_and_set = Ret (Some (basename f))) \/
   ((fd_file fd_file_and_set = None \/ fd_articleset_name fd_file_and_set <> "") /\
    (clean_articleset_name fd_file_and_set = Ret (Some (fd_articleset_name fd_file_and_set)) <->
      (fd_articleset_name fd_file_and_set <> "" <-> fd_articlesets fd_file_and_set = [])) /\
    (clean_articleset_name fd_file_and_set = Raise validation_exn <->
      ~ (fd_articleset_name fd_file_and_set <> "" <-> fd_articlesets fd_file_and_set = [])))).
Proof.
  split; [reflexivity|]. split; [reflexivity|].
  exact (clean_articleset_name_spec fd_file_and_set _ eq_refl eq_refl eq_refl).
Defined.

(** The file's base name becomes the set name although set [3] was
    chosen. *)
Example file_and_set_name : clean_articleset_name fd_file_and_set = Ret (Some "news.csv").
Proof. vm_compute. reflexivity. Qed.

End UploadRuns.
