(* ===== verification/UploadForm.v ===== *)
(** * The upload form and the script's inputs

    [src/amcat/scripts/article_upload/upload.py], lines 55-101 and
    123-136, 204-215: the fields of [UploadForm] and
    [UploadForm.get_empty], which restricts the article sets offered to
    those of the given project and hides the project field; and the
    inputs [UploadScript] reads from its bound form: [decode], the cached
    property [uploaded_texts], [_get_files] and [_get_units].

    Django's form machinery and [RawFileUploadForm] (not under [src/])
    are modelled by the fields' state: a choice field is its queryset
    (the ids it offers), its initial value, whether its widget is a
    [HiddenInput] and whether it is required.  The bound form's own
    methods ([decode], [get_uploaded_texts], [get_entries]) are
    computations on the form's state, which may raise. *)

From stdpp Require Import base list gmap sets strings.
From S2P Require Import Prelude Upload UploadRun.

(** ** [UploadForm] *)

Record choice_field := mk_choice {
  cf_queryset : list nat; cf_initial : option nat; cf_hidden : bool; cf_required : bool }.

(** The form: its data ([post], [None] for an unbound form), the fields
    [project] and [articlesets], and the [max_length] and [required] of
    [articleset_name]. *)
Record upload_form := mk_upload_form {
  uf_data : option (gmap string string);
  uf_project : choice_field;
  uf_articlesets : choice_field;
  uf_name_max_length : nat;
  uf_name_required : bool }.

(** [UploadForm(post, files)] or [UploadForm()] with the class's fields:
    [project] over [Project.objects.all()], [articlesets] over
    [ArticleSet.objects.all()] with [required=False], [articleset_name]
    with the [max_length] of [ArticleSet.name] and [required=False]. *)
Definition upload_form_new (projects : list nat) (sets : gmap nat articleset) (name_max : nat)
    (post : option (gmap string string)) : upload_form :=
  mk_upload_form post (mk_choice projects None false true)
    (mk_choice (map_to_list sets).*1 None false false) name_max false.

(** [ArticleSet.objects.filter(project=project)] *)
Definition sets_of_project (sets : gmap nat articleset) (p : nat) : list nat :=
  (filter (fun '(_, a) => as_project a = p) (map_to_list sets)).*1.

(** [UploadForm.get_empty(project=project, post=post)]: a project
    instance is always true, so [if project:] tests that one was given. *)
Definition get_empty (projects : list nat) (sets : gmap nat articleset) (name_max : nat)
    (project : option nat) (post : option (gmap string string)) : upload_form :=
  let f := upload_form_new projects sets name_max post in
  match project with
  | Some p =>
      mk_upload_form (uf_data f)
        (mk_choice (cf_queryset (uf_project f)) (Some p) true (cf_required (uf_project f)))
        (mk_choice (sets_of_project sets p) (cf_initial (uf_articlesets f))
           (cf_hidden (uf_articlesets f)) (cf_required (uf_articlesets f)))
        (uf_name_max_length f) (uf_name_required f)
  | None => f
  end.

(** ** The script's inputs from its bound form *)

Section Inputs.
(** The bound form's state and its methods. *)
Context {FS T B E : Type}.
Variables (form_decode : B -> PyM FS (string * string))
  (get_uploaded_texts : PyM FS (list T)) (get_entries : PyM FS (list E)).

(** [UploadScript.decode(bytes)]: the text of [bound_form.decode(bytes)]. *)
Definition decode (bytes : B) : PyM FS string :=
  '(enc, text) ← form_decode bytes; mret text.

(** The property [uploaded_texts] on the attribute [_input_texts] ([None]
    while unset) and the form: the first read asks the form and caches
    the answer; a failed read leaves the attribute unset. *)
Definition uploaded_texts : PyM (option (list T) * FS) (list T) := fun '(cache, fs) =>
  match cache with
  | Some ts => ((cache, fs), Ret ts)
  | None =>
      match get_uploaded_texts fs with
      | (fs', Ret ts) => ((Some ts, fs'), Ret ts)
      | (fs', Raise e) => ((None, fs'), Raise e)
      end
  end.

(** [_get_files()]: [bound_form.get_entries()] *)
Definition _get_files : PyM FS (list E) := get_entries.

(** [_get_units(file)]: [split_file(file)] *)
Definition _get_units (file : E) : list E := split_file file.

End Inputs.

(** ** Facts *)

(** [get_empty] for a project offers exactly that project's sets and
    hides the project field with the project as its value; without a
    project it offers every set. *)
Lemma get_empty_choices projects sets name_max project post s :
  (s ∈ cf_queryset (uf_articlesets (get_empty projects sets name_max project post)) <->
   exists a, sets !! s = Some a /\ (forall p, project = Some p -> as_project a = p)) /\
  (forall p, project = Some p ->
     cf_initial (uf_project (get_empty projects sets name_max project post)) = Some p /\
     cf_hidden (uf_project (get_empty projects sets name_max project post)) = true).
Proof.
  destruct project as [p|]; simpl; (split; [|intros ? [= <-]; done]);
    unfold sets_of_project; rewrite list_elem_of_fmap; split.
  - intros ([k a] & -> & [Hp Hin]%list_elem_of_filter). apply elem_of_map_to_list in Hin.
    exists a. split; [done|]. by intros ? [= <-].
  - intros (a & Ha & Hp). exists (s, a). split; [done|].
    apply list_elem_of_filter. split; [by apply Hp|]. by apply elem_of_map_to_list.
  - intros ([k a] & -> & Hin). apply elem_of_map_to_list in Hin. by exists a.
  - intros (a & Ha & _). exists (s, a). split; [done|]. by apply elem_of_map_to_list.
Qed.

Section InputsFacts.
Context {FS T : Type}.
Variable get_uploaded_texts : PyM FS (list T).

(** [uploaded_texts] reads the form at most once: once it returned, the
    texts are cached and every later read answers them without touching
    the form. *)
Lemma uploaded_texts_cached st st' ts :
  uploaded_texts get_uploaded_texts st = (st', Ret ts) ->
  fst st' = Some ts /\ uploaded_texts get_uploaded_texts st' = (st', Ret ts).
Proof.
  destruct st as [[c|] fs]; simpl; [by intros [= <- <-]|].
  destruct (get_uploaded_texts fs) as [fs' [ts'|e]]; [|done]. by intros [= <- <-].
Qed.

End InputsFacts.
