(* ===== verification/Serializer.v ===== *)
(** * The REST serializers: [ArticleSerializer] and [ProjectSerializer]

    [src/api/rest/viewsets/article.py]: [restore_fields] (lines 31-52)
    prepares a posted article's fields (a medium given by name becomes the
    id of the [Medium] of that name, looked up once per serializer in the
    cache [self.media]; a bare date gets a time; a missing project is the
    view's), [from_native] (lines 54-71) builds the article and its
    children, setting each child's [parent], and [save] (lines 73-92)
    flattens the nested result with [_flatten] and saves it with
    [Article.create_articles].  [src/api/rest/resources/project.py]:
    [ProjectSerializer.is_favourite] over the cached set of the user's
    favourite projects (lines 35-43).

    The serializer's state and the tables it reads and writes are the
    record [sstate].  Django REST framework's own [restore_fields] and
    [from_native] (which turn the prepared fields into an unsaved
    [Article]), [Medium.get_or_create] and [Article.create_articles] are
    not under [src/]: they are modelled by their effect on [sstate]. *)

From stdpp Require Import base list gmap sets strings pretty.
From S2P Require Import Prelude Upload.

(** ** Python's [int] and [len] on values *)

Fixpoint parse_digits (s : string) (acc : Z) : option Z :=
  match s with
  | EmptyString => Some acc
  | String c s' =>
      match Ascii.is_nat c with
      | Some d => parse_digits s' (10 * acc + Z.of_nat d)%Z
      | None => None
      end
  end.

(** The decimal literals [int(s)] accepts: surrounding whitespace, an
    optional sign, at least one digit. *)
Definition parse_int (s : string) : option Z :=
  match py_strip s with
  | EmptyString => None
  | String c rest as t =>
      if bool_decide (c = Ascii.ascii_of_nat 45) then
        match rest with EmptyString => None | _ => Z.opp <$> parse_digits rest 0 end
      else if bool_decide (c = Ascii.ascii_of_nat 43) then
        match rest with EmptyString => None | _ => parse_digits rest 0 end
      else parse_digits t 0
  end.

Definition type_name (v : pyval) : string :=
  match v with VNone => "NoneType" | VBool _ => "bool" | VInt _ => "int" | VStr _ => "str" end.

(** [int(v)] *)
Definition py_int (v : pyval) : res Z :=
  match v with
  | VInt z => Ret z
  | VBool b => Ret (if b then 1%Z else 0%Z)
  | VStr s =>
      match parse_int s with
      | Some z => Ret z
      | None => Raise (mk_exn ValueError ("invalid literal for int() with base 10: '" +:+ s +:+ "'"))
      end
  | VNone => Raise (mk_exn TypeError
      "int() argument must be a string, a bytes-like object or a real number, not 'NoneType'")
  end.

(** [len(v)] *)
Definition py_len (v : pyval) : res nat :=
  match v with
  | VStr s => Ret (String.length s)
  | _ => Raise (mk_exn TypeError ("object of type '" +:+ type_name v +:+ "' has no len()"))
  end.

(** ** The serializer's state *)

(** An unsaved article built by [from_native]: its fields and the
    object its [parent] attribute holds. *)
Record nobj := mk_nobj { no_fields : gmap string pyval; no_parent : option nat }.

Record sstate := mk_sstate {
  ss_media : option (gmap string nat);   (* self.media; None while the attribute is unset *)
  ss_mediums : gmap string nat;          (* the Medium table: name to id *)
  ss_objs : gmap nat nobj;               (* the articles from_native built *)
  ss_many : bool;                        (* self.many *)
  ss_saved : list nat }.                 (* the articles create_articles saved, in order *)

(** [Medium.get_or_create(name).id] *)
Definition medium_get_or_create (name : string) (tbl : gmap string nat) : gmap string nat * nat :=
  match tbl !! name with
  | Some id => (tbl, id)
  | None => let id := S (max_list (map_to_list tbl).*2) in (<[name := id]> tbl, id)
  end.

(** [if not hasattr(self, 'media'): self.media = {}; if m not in
    self.media: self.media[m] = Medium.get_or_create(m).id]; the id. *)
Definition medium_id (m : string) : PyM sstate nat := fun st =>
  let media := default ∅ (ss_media st) in
  match media !! m with
  | Some id => (mk_sstate (Some media) (ss_mediums st) (ss_objs st) (ss_many st) (ss_saved st), Ret id)
  | None =>
      let '(tbl, id) := medium_get_or_create m (ss_mediums st) in
      (mk_sstate (Some (<[m := id]> media)) tbl (ss_objs st) (ss_many st) (ss_saved st), Ret id)
  end.

(** ** [restore_fields] *)

Definition T0000 : string := "T00:00".

(** Lines 34-43: a medium that [int()] rejects is a name, replaced by
    the id of the [Medium] of that name.  The [ValueError] of [int(m)]
    only arises for a string [m]. *)
Definition restore_medium (data : gmap string pyval) : PyM sstate (gmap string pyval) :=
  match data !! "medium" with
  | None => mret data
  | Some m =>
      match py_int m with
      | Ret _ => mret data
      | Raise e =>
          if isinstance e ValueError then
            match m with
            | VStr s => id ← medium_id s; mret (<["medium" := VInt (Z.of_nat id)]> data)
            | _ => mret data
            end
          else raise e
      end
  end.

(** Lines 46-47: [data['date'] += "T00:00"] for a date of length 10. *)
Definition restore_date (data : gmap string pyval) : PyM sstate (gmap string pyval) :=
  match data !! "date" with
  | None => mret data
  | Some v =>
      match py_len v with
      | Ret n =>
          if bool_decide (n = 10) then
            match v with VStr s => mret (<["date" := VStr (s +:+ T0000)]> data) | _ => mret data end
          else mret data
      | Raise e => raise e
      end
  end.

(** Lines 49-50: the view's project when none is given. *)
Definition restore_project (view_project : nat) (data : gmap string pyval) : gmap string pyval :=
  if bool_decide (is_Some (data !! "project")) then data
  else <["project" := VInt (Z.of_nat view_project)]> data.

(** The fields [restore_fields] passes to Django REST framework's
    [restore_fields] (lines 31-52). *)
Definition restore_data (view_project : nat) (data : gmap string pyval)
  : PyM sstate (gmap string pyval) :=
  d1 ← restore_medium data;
  d2 ← restore_date d1;
  mret (restore_project view_project d2).

(** ** [from_native] *)

(** A posted article: its fields and the value of its [children] key
    (absent, a list of articles, or a JSON string of such a list). *)
Inductive adoc := mk_adoc (fields : gmap string pyval) (children : kids)
with kids := KAbsent | KList (l : list adoc) | KJson (s : string).

(** What [from_native] returns: an article object, or a list. *)
Inductive native := NObj (o : nat) | NList (l : list native).

Definition recursion_error : exn := mk_exn Exception "maximum recursion depth exceeded".
Definition attribute_error : exn := mk_exn Exception "'list' object has no attribute 'parent'".

(** A new unsaved article with the given fields, under a fresh id. *)
Definition new_object (d : gmap string pyval) : PyM sstate nat := fun st =>
  let o := S (max_list (elements (dom (ss_objs st)))) in
  (mk_sstate (ss_media st) (ss_mediums st) (<[o := mk_nobj d None]> (ss_objs st))
     (ss_many st) (ss_saved st), Ret o).

Section FromNative.
(** The view's project, and [json.loads] on the [children] string. *)
Variables (view_project : nat) (json_loads : string -> res (list adoc)).

(** Django REST framework's [from_native]: the fields through
    [restore_fields], then a new unsaved article with them. *)
Definition build (fields : gmap string pyval) : PyM sstate nat :=
  d ← restore_data view_project fields; new_object d.

(** [child.parent = result] *)
Definition set_child_parent (child : native) (result : nat) : PyM sstate unit :=
  match child with
  | NObj c => modify (fun st => mk_sstate (ss_media st) (ss_mediums st)
      (alter (fun n => mk_nobj (no_fields n) (Some result)) c (ss_objs st)) (ss_many st) (ss_saved st))
  | NList _ => raise attribute_error
  end.

Definition set_many : PyM sstate unit :=
  modify (fun st => mk_sstate (ss_media st) (ss_mediums st) (ss_objs st) true (ss_saved st)).

(** [data.get('children')], decoded when it is a string. *)
Definition children_of (k : kids) : res (list adoc) :=
  match k with KAbsent => Ret [] | KList l => Ret l | KJson s => json_loads s end.

(** [ArticleSerializer.from_native(data)]; [fuel] is the depth Python's
    recursion limit allows. *)
Fixpoint from_native (fuel : nat) (d : adoc) : PyM sstate native :=
  match fuel with
  | 0 => raise recursion_error
  | S fuel' =>
      let '(mk_adoc fields k) := d in
      result ← build fields;
      match children_of k with
      | Raise e => raise e
      | Ret [] => mret (NObj result)
      | Ret children =>
          set_many;;
          cs ← py_flat_map (fun c => child ← from_native fuel' c; set_child_parent child result;; mret [child])
                 children;
          mret (NList (NObj result :: cs))
      end
  end.

End FromNative.

(** ** [__init__] *)

(** The request data the serializer is built with: none, one posted
    article, or a list of them. *)
Inductive request_data := DNone | DDict (d : adoc) | DList (l : list adoc).

(** [ArticleSerializer.__init__(instance, data)]:
    [kwargs['many'] = isinstance(data, list)]; the attribute [media] is
    not set yet and nothing is built or saved. *)
Definition serializer_init (data : request_data) (mediums : gmap string nat) : sstate :=
  mk_sstate None mediums ∅ (match data with DList _ => true | _ => false end) [].

(** ** [save] *)

(** [_flatten(l)] *)
Fixpoint flatten (n : native) : list nat :=
  match n with NObj o => [o] | NList l => flat_map flatten l end.

(** [ArticleSerializer.save()]: [self.object] flattened and saved with
    [Article.create_articles] in that order; [self.many] is set. *)
Definition serializer_save (obj : native) : PyM sstate (list nat) := fun st =>
  let objs := flatten obj in
  (mk_sstate (ss_media st) (ss_mediums st) (ss_objs st) true (ss_saved st ++ objs), Ret objs).

(** ** [ProjectSerializer] *)

(** The cached property [favourite_projects]: the user's favourite
    projects, read once per serializer. *)
Definition favourite_projects (current : gset nat) : PyM (option (gset nat)) (gset nat) := fun c =>
  match c with Some s => (c, Ret s) | None => (Some current, Ret current) end.

(** [is_favourite(project)], with the user's favourites as they are in
    the database at the time of the call. *)
Definition is_favourite (current : gset nat) (project : nat) : PyM (option (gset nat)) bool :=
  s ← favourite_projects current; mret (bool_decide (project ∈ s)).

(** ** Facts about [restore_fields] *)

(** The cache [self.media] agrees with the [Medium] table. *)
Definition media_ok (st : sstate) : Prop :=
  forall m id, default ∅ (ss_media st) !! m = Some id -> ss_mediums st !! m = Some id.

Lemma medium_get_or_create_spec name tbl tbl' id :
  medium_get_or_create name tbl = (tbl', id) ->
  tbl' !! name = Some id /\ forall m i, tbl !! m = Some i -> tbl' !! m = Some i.
Proof.
  unfold medium_get_or_create. destruct (tbl !! name) as [i|] eqn:Hn; intros [= <- <-]; [done|].
  split; [by rewrite lookup_insert_eq|]. intros m i Hm.
  rewrite lookup_insert_ne; [done|]. intros ->. congruence.
Qed.

Lemma medium_id_spec m st st' r :
  media_ok st -> medium_id m st = (st', r) ->
  media_ok st' /\ ss_objs st' = ss_objs st /\
  exists id, r = Ret id /\ ss_mediums st' !! m = Some id.
Proof.
  unfold medium_id. intros Hok. destruct (default ∅ (ss_media st) !! m) as [id|] eqn:Hc.
  - intros [= <- <-]. repeat split; [done|]. eauto.
  - destruct (medium_get_or_create m (ss_mediums st)) as [tbl id] eqn:Hg. intros [= <- <-].
    destruct (medium_get_or_create_spec _ _ _ _ Hg) as [Hm Hold]. simpl.
    repeat split; [|eauto]. intros m' i. simpl.
    destruct (decide (m' = m)) as [->|Hne]; [rewrite lookup_insert_eq; congruence|].
    rewrite lookup_insert_ne by done. intros Hi. by apply Hold, Hok.
Qed.

Lemma restore_date_spec d st st' r :
  restore_date d st = (st', r) -> st' = st /\
  forall d', r = Ret d' -> forall k, k <> "date" -> d' !! k = d !! k.
Proof.
  unfold restore_date. destruct (d !! "date") as [v|]; [|intros [= <- <-]; split; [done|]; by intros ? [= <-]].
  destruct (py_len v) as [n|e]; [|intros [= <- <-]; split; [done|discriminate]].
  case_bool_decide; [destruct v|]; intros [= <- <-]; (split; [done|]); intros ? [= <-] k Hk;
    rewrite ?lookup_insert_ne; done.
Qed.

Lemma restore_project_other vp d k : k <> "project" -> restore_project vp d !! k = d !! k.
Proof. intros Hk. unfold restore_project. case_bool_decide; [done|]. by rewrite lookup_insert_ne. Qed.

(** C30: a medium posted by name.  When the
    cache agrees with the [Medium] table and the posted [medium] is a
    string [int()] rejects, [restore_fields] passes on the id that the
    [Medium] table has for that name, and the cache still agrees with the
    table. *)
Theorem restore_medium_resolves vp data s st st' d :
  media_ok st -> data !! "medium" = Some (VStr s) -> parse_int s = None ->
  restore_data vp data st = (st', Ret d) ->
  media_ok st' /\ exists id, d !! "medium" = Some (VInt (Z.of_nat id)) /\ ss_mediums st' !! s = Some id.
Proof.
  intros Hok Hm Hp. unfold restore_data.
  intros (st1 & d1 & Hmed & Hk)%py_bind_Ret_inv.
  apply py_bind_Ret_inv in Hk as (st2 & d2 & Hdate & [= <- <-]).
  destruct (restore_date_spec _ _ _ _ Hdate) as [-> Hd2].
  unfold restore_medium in Hmed. rewrite Hm in Hmed. simpl in Hmed. rewrite Hp in Hmed. simpl in Hmed.
  destruct (medium_id s st) as [st3 r3] eqn:Hid.
  destruct (medium_id_spec _ _ _ _ Hok Hid) as (Hok3 & _ & id & -> & Hs).
  cbv [mbind py_bind] in Hmed. rewrite Hid in Hmed. injection Hmed as <- <-.
  split; [done|]. exists id. split; [|done].
  rewrite restore_project_other by done. rewrite Hd2 by done. by rewrite lookup_insert_eq.
Qed.

(** ** Facts about [from_native] *)

Section FromNativeFacts.
Variables (view_project : nat) (json_loads : string -> res (list adoc)).

(** Fields [restore_fields] accepts in every state. *)
Definition restore_ok (fields : gmap string pyval) : Prop := total (restore_data view_project fields).

Lemma build_total fs : restore_ok fs -> total (build view_project fs).
Proof. intros Hr. apply total_bind; [done|]. intros d st. by eexists _, _. Qed.

(** An article without [children] gives one object. *)
Lemma from_native_leaf fuel gfs :
  restore_ok gfs ->
  returns (fun n => exists o, n = NObj o) (from_native view_project json_loads (S fuel) (mk_adoc gfs KAbsent)).
Proof.
  intros Hr. simpl. apply (returns_bind (fun _ => True)); [by apply total_returns, build_total|].
  intros r _. apply returns_ret. eauto.
Qed.

(** An article whose children have no children of their own gives a
    list. *)
Lemma from_native_parent fuel cfs gs :
  restore_ok cfs -> gs <> [] -> Forall (fun g => exists gfs, g = mk_adoc gfs KAbsent /\ restore_ok gfs) gs ->
  returns (fun n => exists l, n = NList l)
    (from_native view_project json_loads (S (S fuel)) (mk_adoc cfs (KList gs))).
Proof.
  intros Hr Hne Hgs. simpl. apply (returns_bind (fun _ => True)); [by apply total_returns, build_total|].
  intros r _. destruct gs as [|g gs]; [done|].
  apply (returns_bind (fun _ => True)); [apply total_returns, total_modify|]. intros _ _.
  apply (returns_bind (fun _ => True)); [|intros; apply returns_ret; eauto].
  apply total_returns, total_flat_map. intros c Hc.
  rewrite Forall_forall in Hgs. destruct (Hgs c Hc) as (gfs & -> & Hg).
  intros st. destruct (from_native_leaf fuel gfs Hg st) as (st1 & n & Hn & [o ->]).
  rewrite (py_bind_Ret _ _ _ _ _ Hn). eexists _, _. reflexivity.
Qed.

(** C19: nested children break
    [from_native].  When an article's first child has children of its
    own, [from_native] on that child returns a list, and [child.parent =
    result] raises [AttributeError] on it: a three-level article cannot
    be posted, although [save]'s [_flatten] is written for nested
    lists. *)
Theorem from_native_grandchild_error fuel fs cfs gs rest st :
  restore_ok fs -> restore_ok cfs -> gs <> [] ->
  Forall (fun g => exists gfs, g = mk_adoc gfs KAbsent /\ restore_ok gfs) gs ->
  exists st', from_native view_project json_loads (S (S (S fuel)))
                (mk_adoc fs (KList (mk_adoc cfs (KList gs) :: rest))) st = (st', Raise attribute_error).
Proof.
  intros Hfs Hcfs Hne Hgs.
  destruct (build_total fs Hfs st) as (st1 & r & Hb).
  set (st2 := mk_sstate (ss_media st1) (ss_mediums st1) (ss_objs st1) true (ss_saved st1)).
  destruct (from_native_parent fuel cfs gs Hcfs Hne Hgs st2) as (st3 & n & Hn & [l ->]).
  exists st3. cbn [from_native]. rewrite (py_bind_Ret _ _ _ _ _ Hb). cbn [children_of].
  rewrite (py_bind_Ret set_many _ st1 st2 tt eq_refl).
  apply py_bind_Raise. cbn [py_flat_map]. apply py_bind_Raise.
  by rewrite (py_bind_Ret _ _ _ _ _ Hn).
Qed.

End FromNativeFacts.

Lemma restore_ok_plain vp fs :
  fs !! "medium" = None -> fs !! "date" = None -> restore_ok vp fs.
Proof.
  intros Hm Hd st. unfold restore_data. rewrite (py_bind_Ret (restore_medium fs) _ st st fs);
    [| unfold restore_medium; by rewrite Hm].
  rewrite (py_bind_Ret (restore_date fs) _ st st fs); [| unfold restore_date; by rewrite Hd].
  by eexists _, _.
Qed.

(** ** Concrete requests *)

Module SerializerRuns.

Definition st0 : sstate := mk_sstate None ∅ ∅ false [].

Lemma st0_media_ok : media_ok st0.
Proof. intros m id H. simpl in H. by rewrite lookup_empty in H. Qed.

Definition art (medium date : string) : gmap string pyval :=
  <["headline" := VStr "x"]> (<["medium" := VStr medium]> (<["date" := VStr date]> ∅)).

(** A bare date gets a time, the view's project is added, and the medium
    name becomes the id of a new [Medium]. *)
Example restore_new_medium :
  snd (restore_data 7 (art "NRC" "2024-05-01") st0) =
    Ret (<["project" := VInt 7]> (<["date" := VStr "2024-05-01T00:00"]>
          (<["medium" := VInt 1]> (art "NRC" "2024-05-01")))).
Proof. vm_compute. reflexivity. Qed.

(** A second article with the same medium name reuses the cached id. *)
Example restore_cached_medium :
  let st1 := fst (restore_data 7 (art "NRC" "2024-05-01") st0) in
  ss_mediums (fst (restore_data 7 (art "NRC" "2024-05-02T10:00") st1)) = {["NRC" := 1]}.
Proof. vm_compute. reflexivity. Qed.

Definition nrc_result := snd (restore_data 7 (art "NRC" "2024-05-01") st0).
Definition nrc_fields : gmap string pyval :=
  match nrc_result with Ret d => d | Raise _ => ∅ end.

Lemma restore_medium_resolves_witness :
  media_ok st0 /\ art "NRC" "2024-05-01" !! "medium" = Some (VStr "NRC") /\ parse_int "NRC" = None /\
  restore_data 7 (art "NRC" "2024-05-01") st0 =
    (fst (restore_data 7 (art "NRC" "2024-05-01") st0), Ret nrc_fields) /\
  media_ok (fst (restore_data 7 (art "NRC" "2024-05-01") st0)) /\
  exists id, nrc_fields !! "medium" = Some (VInt (Z.of_nat id)) /\
    ss_mediums (fst (restore_data 7 (art "NRC" "2024-05-01") st0)) !! "NRC" = Some id.
Proof.
  assert (Hm : art "NRC" "2024-05-01" !! "medium" = Some (VStr "NRC")) by (vm_compute; reflexivity).
  assert (Hp : parse_int "NRC" = None) by (vm_compute; reflexivity).
  assert (Hr : restore_data 7 (art "NRC" "2024-05-01") st0 =
                 (fst (restore_data 7 (art "NRC" "2024-05-01") st0), Ret nrc_fields))
    by (vm_compute; reflexivity).
  split; [exact st0_media_ok|]. do 3 (split; [assumption|]).
  exact (restore_medium_resolves 7 _ "NRC" st0 _ _ st0_media_ok Hm Hp Hr).
Defined.

Definition plain : gmap string pyval := <["headline" := VStr "x"]> ∅.

Lemma plain_ok : restore_ok 7 plain.
Proof. apply restore_ok_plain; vm_compute; reflexivity. Qed.

Definition no_json (s : string) : res (list adoc) := Ret [].

Lemma from_native_grandchild_error_witness :
  restore_ok 7 plain /\ [mk_adoc plain KAbsent] <> [] /\
  Forall (fun g => exists gfs, g = mk_adoc gfs KAbsent /\ restore_ok 7 gfs) [mk_adoc plain KAbsent] /\
  exists st', from_native 7 no_json 3
                (mk_adoc plain (KList [mk_adoc plain (KList [mk_adoc plain KAbsent])])) st0
              = (st', Raise attribute_error).
Proof.
  assert (Hf : Forall (fun g => exists gfs, g = mk_adoc gfs KAbsent /\ restore_ok 7 gfs)
                 [mk_adoc plain KAbsent]) by (repeat constructor; exists plain; split; [done | exact plain_ok]).
  split; [exact plain_ok|]. split; [done|]. split; [exact Hf|].
  exact (from_native_grandchild_error 7 no_json 0 plain plain [mk_adoc plain KAbsent] [] st0
           plain_ok plain_ok ltac:(done) Hf).
Defined.

(** A two-level article: the parent first, then its child, whose
    [parent] is the parent; [save] saves them in that order. *)
Example two_level_save :
  let '(st1, r) := from_native 7 no_json 3 (mk_adoc plain (KList [mk_adoc plain KAbsent])) st0 in
  r = Ret (NList [NObj 1; NObj 2]) /\ no_parent <$> ss_objs st1 !! 2 = Some (Some 1) /\
  match r with Ret n => ss_saved (fst (serializer_save n st1)) = [1; 2] | Raise _ => False end.
Proof. vm_compute. repeat split. Qed.

(** The favourites are read once per serializer: a project favourited
    after the first call is not reported. *)
Example favourites_stale :
  let '(c1, r1) := is_favourite {[3]} 3 None in
  let '(_, r2) := is_favourite {[3; 4]} 4 c1 in
  r1 = Ret true /\ r2 = Ret false.
Proof. vm_compute. split; reflexivity. Qed.

End SerializerRuns.
