(* ===== verification/Status.v ===== *)
(** * [StatusView]: the status endpoint (api/rest/views/status.py)

    [StatusView.get] (lines 13-23) builds a dict of the AmCAT, Elastic
    and git status, asks a celery worker for its status with a 3-second
    timeout (a [TimeoutError] becomes an error entry), adds the AMQP
    queue status and answers it with HTTP 200.  [queue_status] (lines
    26-40) declares the default celery queue passively on the local
    broker and reports its name and counts; [git_status] (lines 42-52)
    reports the active branch and the head commit, whose date
    [date2iso] formats as [%Y-%m-%d %H:%M:%S] in UTC.

    The outside world (celery, Elastic, git, the AMQP broker) is the
    class [StatusBackend] on an abstract state; the response is a
    [json] value, a Python dict an association list in insertion order
    ([dict_set] replaces a key in place or appends it).  [time.gmtime]
    of the C library is modelled by its calendar arithmetic ([gmtime]),
    executable with fuel, so that [date2iso] runs on concrete dates.

    The theorems: [gmtime] is the inverse of [timegm] on every
    timestamp, positive or negative, and its fields are in range; the
    response of [StatusView.get] always has the schema [status_schema] (the [type]
    of the body, checked by the executable [json_typeb]); a worker
    timeout is absorbed into the error entry while every other
    exception of a backend propagates, and the backends are called in
    the order of the code. *)

From stdpp Require Import base list strings numbers pretty.
From Stdlib Require Import ZArith.
From S2P Require Import Prelude.

Local Open Scope Z_scope.

(** ** [time.gmtime]: seconds since the epoch to a UTC calendar date *)

Module Gmtime.

(** [struct tm] as [time.gmtime] fills it: year, month [1..12], day
    [1..31], hour, minute, second. *)
Record tm := mk_tm { tm_year : Z; tm_mon : Z; tm_mday : Z; tm_hour : Z; tm_min : Z; tm_sec : Z }.

Definition is_leap (y : Z) : bool :=
  (y mod 4 =? 0) && (negb (y mod 100 =? 0) || (y mod 400 =? 0)).

Definition year_days (y : Z) : Z := if is_leap y then 366 else 365.

Definition month_days (y m : Z) : Z :=
  if m =? 2 then (if is_leap y then 29 else 28)
  else if (m =? 4) || (m =? 6) || (m =? 9) || (m =? 11) then 30 else 31.

(** The year of day [d] counted from January 1st of [y]: forward while
    [d] is past the year, backward while it is negative. *)
Fixpoint year_of (fuel : nat) (y d : Z) : Z * Z :=
  match fuel with
  | O => (y, d)
  | S f =>
      if d <? 0 then year_of f (y - 1) (d + year_days (y - 1))
      else if d <? year_days y then (y, d)
      else year_of f (y + 1) (d - year_days y)
  end.

(** The month of day [d] of year [y], counted from month [m]. *)
Fixpoint month_of (fuel : nat) (y m d : Z) : Z * Z :=
  match fuel with
  | O => (m, d)
  | S f => if d <? month_days y m then (m, d) else month_of f y (m + 1) (d - month_days y m)
  end.

(** [time.gmtime(t)]: Euclidean division of [t] into days and seconds of
    the day; a year moves the day count by at least 365, so [|days| + 1]
    rounds of [year_of] are enough, and twelve of [month_of]. *)
Definition gmtime (t : Z) : tm :=
  let days := t / 86400 in
  let secs := t mod 86400 in
  let '(y, yd) := year_of (S (Z.to_nat (Z.abs days))) 1970 days in
  let '(m, md) := month_of 12 y 1 yd in
  mk_tm y m (md + 1) (secs / 3600) (secs mod 3600 / 60) (secs mod 60).

(** [calendar.timegm], the inverse: the days before January 1st of [y]
    counted from 1970, with the leap days of the Gregorian calendar. *)
Definition leaps (n : Z) : Z := n / 4 - n / 100 + n / 400.

Definition days_before_year (y : Z) : Z := 365 * (y - 1970) + (leaps (y - 1) - leaps 1969).

Definition days_before_month (y m : Z) : Z :=
  match m with
  | 1 => 0 | 2 => 31 | 3 => 59 | 4 => 90 | 5 => 120 | 6 => 151 | 7 => 181
  | 8 => 212 | 9 => 243 | 10 => 273 | 11 => 304 | _ => 334
  end + (if (2 <? m) && is_leap y then 1 else 0).

Definition timegm (x : tm) : Z :=
  (days_before_year (tm_year x) + days_before_month (tm_year x) (tm_mon x) + (tm_mday x - 1)) * 86400
  + tm_hour x * 3600 + tm_min x * 60 + tm_sec x.

(** *** The calendar arithmetic *)

Lemma year_days_bounds y : 365 <= year_days y <= 366.
Proof. unfold year_days. destruct (is_leap y); lia. Qed.

(** [timegm] moves by one year's days from one January 1st to the next. *)
Lemma days_before_year_S y : days_before_year (y + 1) = days_before_year y + year_days y.
Proof.
  unfold days_before_year, year_days, is_leap, leaps. replace (y + 1 - 1) with y by lia.
  destruct (Z.eqb_spec (y mod 4) 0), (Z.eqb_spec (y mod 100) 0), (Z.eqb_spec (y mod 400) 0);
    simpl; Z.div_mod_to_equations; lia.
Qed.

(** With more rounds than days to move, [year_of] lands inside a year,
    and the day count from 1970 is kept. *)
Lemma year_of_spec f y d :
  Z.abs d < Z.of_nat f ->
  let '(y', d') := year_of f y d in
  days_before_year y' + d' = days_before_year y + d /\ 0 <= d' < year_days y'.
Proof.
  revert y d. induction f as [|f IH]; intros y d Hf; [lia|]. cbn [year_of].
  pose proof (days_before_year_S (y - 1)) as Hp. replace (y - 1 + 1) with y in Hp by lia.
  pose proof (days_before_year_S y) as Hs.
  pose proof (year_days_bounds (y - 1)). pose proof (year_days_bounds y).
  destruct (Z.ltb_spec d 0).
  - destruct (Z.ltb_spec (d + year_days (y - 1)) 0).
    + pose proof (IH (y - 1) (d + year_days (y - 1)) ltac:(lia)) as IH'.
      destruct (year_of f _ _). lia.
    + destruct f as [|f]; [lia|]. cbn [year_of].
      rewrite (proj2 (Z.ltb_ge _ _)) by lia. rewrite (proj2 (Z.ltb_lt _ _)) by lia. lia.
  - destruct (Z.ltb_spec d (year_days y)); [lia|].
    pose proof (IH (y + 1) (d - year_days y) ltac:(lia)) as IH'.
    destruct (year_of f _ _). lia.
Qed.

(** Inside a year, [month_of] finds the month and the day of the month. *)
Lemma month_of_spec y d :
  0 <= d < year_days y ->
  let '(m, md) := month_of 12 y 1 d in
  1 <= m <= 12 /\ 0 <= md < month_days y m /\ days_before_month y m + md = d.
Proof.
  unfold year_days. intros Hd. cbn [month_of]. unfold month_days, days_before_month.
  destruct (is_leap y); simpl;
    repeat match goal with |- context [if ?a <? ?b then _ else _] => destruct (Z.ltb_spec a b) end;
    simpl; lia.
Qed.

(** The fields of [gmtime t], with the day count they stand for. *)
Lemma gmtime_fields t :
  let x := gmtime t in
  days_before_year (tm_year x) + days_before_month (tm_year x) (tm_mon x) + (tm_mday x - 1) = t / 86400 /\
  1 <= tm_mon x <= 12 /\ 1 <= tm_mday x <= month_days (tm_year x) (tm_mon x) /\
  tm_hour x * 3600 + tm_min x * 60 + tm_sec x = t mod 86400 /\
  0 <= tm_hour x < 24 /\ 0 <= tm_min x < 60 /\ 0 <= tm_sec x < 60.
Proof.
  unfold gmtime.
  pose proof (year_of_spec (S (Z.to_nat (Z.abs (t / 86400)))) 1970 (t / 86400) ltac:(lia)) as Hy.
  destruct (year_of _ _ _) as [y yd]. destruct Hy as [Hy Hyd].
  pose proof (month_of_spec y yd Hyd) as Hm. destruct (month_of _ _ _ _) as [m md].
  cbn [tm_year tm_mon tm_mday tm_hour tm_min tm_sec].
  assert (days_before_year 1970 = 0) as H0 by reflexivity.
  pose proof (Z.mod_pos_bound t 86400 ltac:(lia)).
  split; [lia|]. split; [lia|]. split; [lia|].
  Z.div_mod_to_equations. lia.
Qed.

(** [time.gmtime] and [calendar.timegm] are
    inverse on every timestamp, before or after the epoch, and the
    fields [date2iso] prints are in range: month [1..12], a day that
    exists in that month of that year, hour [0..23], minute and second
    [0..59]. *)
Theorem gmtime_roundtrip t :
  timegm (gmtime t) = t /\
  1 <= tm_mon (gmtime t) <= 12 /\ 1 <= tm_mday (gmtime t) <= month_days (tm_year (gmtime t)) (tm_mon (gmtime t)) /\
  0 <= tm_hour (gmtime t) < 24 /\ 0 <= tm_min (gmtime t) < 60 /\ 0 <= tm_sec (gmtime t) < 60.
Proof.
  pose proof (gmtime_fields t) as H. cbv zeta in H. destruct H as (Hd & Hm & Hmd & Hs & Hr).
  pose proof (Z.div_mod t 86400 ltac:(lia)). unfold timegm. split; [lia|]. tauto.
Qed.

End Gmtime.

Import Gmtime.

(** ** JSON values and Python dicts *)

(** The values a DRF [Response] serializes. *)
Inductive json :=
| JNull | JBool (b : bool) | JInt (z : Z) | JStr (s : string)
| JList (l : list json) | JObj (kvs : list (string * json)).

(** [d[k] = v] on a dict: the value of an existing key is replaced in
    place, a new key goes last. *)
Fixpoint dict_set (k : string) (v : json) (d : list (string * json)) : list (string * json) :=
  match d with
  | [] => [(k, v)]
  | (k', v') :: rest => if bool_decide (k = k') then (k, v) :: rest else (k', v') :: dict_set k v rest
  end.

(** [d[k]], [None] for a missing key. *)
Fixpoint dict_get (k : string) (d : list (string * json)) : option json :=
  match d with
  | [] => None
  | (k', v) :: rest => if bool_decide (k = k') then Some v else dict_get k rest
  end.

(** ** [date2iso] *)

(** [%m], [%d], [%H], [%M], [%S]: two digits, zero-padded. *)
Definition pad2 (n : Z) : string := if n <? 10 then "0" +:+ pretty n else pretty n.

(** [time.strftime("%Y-%m-%d %H:%M:%S", time.gmtime(date))] *)
Definition date2iso (date : Z) : string :=
  let x := gmtime date in
  pretty (tm_year x) +:+ "-" +:+ pad2 (tm_mon x) +:+ "-" +:+ pad2 (tm_mday x) +:+ " " +:+
  pad2 (tm_hour x) +:+ ":" +:+ pad2 (tm_min x) +:+ ":" +:+ pad2 (tm_sec x).

(** ** The response's schema *)

(** JSON types: any value, an integer, a string, or an object with
    exactly the given keys, each holding a value of its type. *)
Inductive jtype := TAny | TInt | TStr | TObj (fields : list (string * jtype)).

(** The type check, executable: an object has distinct keys, as many as
    the type, and every field of the type is present with its type. *)
Fixpoint json_typeb (t : jtype) (v : json) {struct t} : bool :=
  match t, v with
  | TAny, _ => true
  | TInt, JInt _ => true
  | TStr, JStr _ => true
  | TObj fs, JObj kvs =>
      bool_decide (NoDup kvs.*1) && (length kvs =? length fs)%nat &&
      forallb (fun '(k, t') => match dict_get k kvs with Some v' => json_typeb t' v' | None => false end) fs
  | _, _ => false
  end.

(** What [git_status], [queue_status] and [StatusView.get] answer. *)
Definition git_schema : jtype :=
  TObj [("active_branch", TStr);
        ("last_commit", TObj [("summary", TStr); ("committed_date", TStr); ("commtter", TStr)])].

Definition queue_schema : jtype :=
  TObj [("amcat", TObj [("queue", TStr); ("#tasks", TInt); ("#consumer", TInt)])].

Definition status_schema : jtype :=
  TObj [("amcat", TAny); ("elastic", TAny); ("git", git_schema);
        ("celery_worker", TAny); ("celery_queues", queue_schema)].

(** ** The outside world *)

(** A commit of the repository: [summary], [committed_date] (seconds
    since the epoch) and [str(committer)]. *)
Record git_commit := mk_commit { c_summary : string; c_committed_date : Z; c_committer : string }.

(** The keyword arguments of [amqp.Connection]. *)
Record amqp_params := mk_amqp {
  ap_insist : bool; ap_virtual_host : string; ap_host : string; ap_userid : string; ap_password : string }.

(** What the view calls, on the state [S] of the outside world; every
    call may raise. *)
Class StatusBackend (S : Type) := {
  (** [amcat.amcatcelery.status()] and [ES().status()] *)
  amcat_status : PyM S json;
  es_status : PyM S json;
  (** [status.delay().wait(timeout=t)]: celery's [TimeoutError] when no
      worker answers in time. *)
  worker_status : Z -> PyM S json;
  (** [Repo()], [str(repo.active_branch)] and [repo.head.commit] *)
  repo_open : PyM S unit;
  active_branch : PyM S string;
  head_commit : PyM S git_commit;
  (** [app.conf['CELERY_DEFAULT_QUEUE']] *)
  default_queue : PyM S string;
  (** [amqp.Connection] with keyword arguments and
      [conn.channel().queue_declare(queue=q, passive=p)], which gives the
      queue's name, its number of tasks and of consumers. *)
  Conn : Type;
  amqp_connect : amqp_params -> PyM S Conn;
  queue_declare : Conn -> string -> bool -> PyM S (string * Z * Z)
}.

(** A DRF [Response(data, status=...)]. *)
Record response := mk_response { resp_status : Z; resp_data : json }.

Definition HTTP_200_OK : Z := 200.

Section View.
Context {W : Type} `{!StatusBackend W}.

(** [_inspect_queue(queue, host=..., userid=..., password=...)] *)
Definition inspect_queue (queue host userid password : string) : PyM W json :=
  conn ← amqp_connect (mk_amqp false "/" host userid password);
  '(name, ntask, nconsumer) ← queue_declare conn queue true;
  mret (JObj [("queue", JStr name); ("#tasks", JInt ntask); ("#consumer", JInt nconsumer)]).

(** [queue_status()] *)
Definition queue_status : PyM W json :=
  amcatq ← default_queue;
  q ← inspect_queue amcatq "localhost:5672" "guest" "guest";
  mret (JObj (dict_set "amcat" q [])).

(** [git_status()]: the dict literal evaluates [repo.head.commit] once
    per field. *)
Definition git_status : PyM W json :=
  repo_open;;
  branch ← active_branch;
  c1 ← head_commit; c2 ← head_commit; c3 ← head_commit;
  mret (JObj [("active_branch", JStr branch);
              ("last_commit", JObj [("summary", JStr (c_summary c1));
                                    ("committed_date", JStr (date2iso (c_committed_date c2)));
                                    ("commtter", JStr (c_committer c3))])]).

Definition worker_timeout_entry : json :=
  JObj [("Error", JStr "Timeout on getting worker status")].

End View.

Module StatusView.
Section Get.
Context {W : Type} `{!StatusBackend W}.

(** [StatusView.get(request)] *)
Definition get : PyM W response :=
  a ← amcat_status; e ← es_status; g ← git_status;
  let data := [("amcat", a); ("elastic", e); ("git", g)] in
  w ← try_except (worker_status 3) TimeoutError (fun _ => mret worker_timeout_entry);
  let data := dict_set "celery_worker" w data in
  q ← queue_status;
  let data := dict_set "celery_queues" q data in
  mret (mk_response HTTP_200_OK (JObj data)).

End Get.
End StatusView.

(** ** Facts about the view *)

Section ViewFacts.
Context {W : Type} `{!StatusBackend W}.

(** The dicts [git_status] and [queue_status] return. *)
Lemma git_status_shape :
  ensures (fun g => exists b s d c, g =
    JObj [("active_branch", JStr b);
          ("last_commit", JObj [("summary", JStr s); ("committed_date", JStr d); ("commtter", JStr c)])])
    git_status.
Proof.
  unfold git_status. repeat (eapply ensures_bind; [apply ensures_any|]; intros ? _).
  apply ensures_ret. eauto.
Qed.

Lemma inspect_queue_shape q h u p :
  ensures (fun v => exists n k c, v = JObj [("queue", JStr n); ("#tasks", JInt k); ("#consumer", JInt c)])
    (inspect_queue q h u p).
Proof.
  unfold inspect_queue. eapply ensures_bind; [apply ensures_any|]. intros conn _.
  eapply ensures_bind; [apply ensures_any|]. intros [[n k] c] _. apply ensures_ret. eauto.
Qed.

Lemma queue_status_shape :
  ensures (fun q => exists n k c, q = JObj [("amcat", JObj [("queue", JStr n); ("#tasks", JInt k); ("#consumer", JInt c)])])
    queue_status.
Proof.
  unfold queue_status. eapply ensures_bind; [apply ensures_any|]. intros amcatq _.
  eapply ensures_bind; [apply inspect_queue_shape|]. intros v (n & k & c & ->).
  apply ensures_ret. eauto.
Qed.

(** C28: whenever [StatusView.get] answers, it answers HTTP
    200 with a body of the schema [status_schema]: exactly the keys
    [amcat], [elastic], [git], [celery_worker] and [celery_queues],
    whatever the worker answered or whether it timed out; [git] holds
    exactly [active_branch] and [last_commit] with [summary],
    [committed_date] and the misspelt [commtter] (no [committer] key),
    all strings; [celery_queues] holds [amcat] with the queue's name
    and its integer task and consumer counts. *)
Theorem get_schema :
  ensures (fun r => resp_status r = HTTP_200_OK /\ json_typeb status_schema (resp_data r) = true) StatusView.get.
Proof.
  unfold StatusView.get. do 2 (eapply ensures_bind; [apply ensures_any|]; intros ? _).
  eapply ensures_bind; [apply git_status_shape|]. intros g (b & s & d & c & ->).
  eapply ensures_bind; [apply ensures_any|]. intros w _.
  eapply ensures_bind; [apply queue_status_shape|]. intros q (n & k & cn & ->).
  apply ensures_ret. split; reflexivity.
Qed.

(** C29: the worker's answer.  After the AMCAT,
    Elastic and git status were read, a [TimeoutError] of
    [status.delay().wait(timeout=3)] is caught: the view goes on to the
    queue status and answers with the error entry in [celery_worker];
    any other exception of the worker call propagates out of [StatusView.get]
    before the queue status is asked for. *)
Theorem get_worker_failure w w1 w2 w3 w4 a e g ex :
  amcat_status w = (w1, Ret a) -> es_status w1 = (w2, Ret e) -> git_status w2 = (w3, Ret g) ->
  worker_status 3 w3 = (w4, Raise ex) ->
  (isinstance ex TimeoutError = true ->
   StatusView.get w = let '(w5, r) := queue_status w4 in
     (w5, match r with
          | Ret q => Ret (mk_response HTTP_200_OK
                      (JObj [("amcat", a); ("elastic", e); ("git", g);
                             ("celery_worker", worker_timeout_entry); ("celery_queues", q)]))
          | Raise x => Raise x
          end)) /\
  (isinstance ex TimeoutError = false -> StatusView.get w = (w4, Raise ex)).
Proof.
  intros Ha He Hg Hw. unfold StatusView.get. cbv [mbind py_bind try_except].
  rewrite Ha, He, Hg, Hw. split; intros Ht; rewrite Ht; [|done].
  cbv [mret py_ret]. by destruct (queue_status w4) as [w5 [q|x]].
Qed.

End ViewFacts.

(** ** Concrete runs *)

Module StatusRuns.

(** Commit dates as [date2iso] prints them. *)
Example date2iso_epoch : date2iso 0 = "1970-01-01 00:00:00".
Proof. reflexivity. Qed.

Example date2iso_commit : date2iso 1400000000 = "2014-05-13 16:53:20".
Proof. reflexivity. Qed.

Example date2iso_before_epoch : date2iso (-1) = "1969-12-31 23:59:59".
Proof. reflexivity. Qed.

Example date2iso_leap_day : date2iso 951782400 = "2000-02-29 00:00:00".
Proof. reflexivity. Qed.

(** A server whose worker does not answer: the state logs the calls. *)
Definition call {A} (name : string) (a : A) : PyM (list string) A := fun s => (s ++ [name], Ret a).

Definition timed_out : exn := mk_exn TimeoutError "The operation timed out.".

#[local] Instance quiet_worker : StatusBackend (list string) := {|
  amcat_status := call "amcat" (JStr "ok");
  es_status := call "elastic" (JObj [("status", JStr "green")]);
  worker_status t := fun s => (s ++ ["worker"], Raise timed_out);
  repo_open := call "repo" ();
  active_branch := call "branch" "master";
  head_commit := call "commit" (mk_commit "Fix upload" 1400000000 "Jane");
  default_queue := call "conf" "amcat";
  Conn := unit;
  amqp_connect p := call "connect" ();
  queue_declare c q passive := call "declare" (q, 3, 1) |}.

Definition git_demo : json :=
  JObj [("active_branch", JStr "master");
        ("last_commit", JObj [("summary", JStr "Fix upload"); ("committed_date", JStr "2014-05-13 16:53:20");
                              ("commtter", JStr "Jane")])].

(** The whole answer, and the order of the calls. *)
Example get_quiet_worker :
  StatusView.get [] = (["amcat"; "elastic"; "repo"; "branch"; "commit"; "commit"; "commit"; "worker"; "conf"; "connect"; "declare"],
            Ret (mk_response 200 (JObj [("amcat", JStr "ok"); ("elastic", JObj [("status", JStr "green")]);
              ("git", git_demo); ("celery_worker", worker_timeout_entry);
              ("celery_queues", JObj [("amcat", JObj [("queue", JStr "amcat"); ("#tasks", JInt 3); ("#consumer", JInt 1)])])]))).
Proof. reflexivity. Qed.

Lemma get_worker_failure_witness :
  amcat_status [] = (["amcat"], Ret (JStr "ok")) /\
  es_status ["amcat"] = (["amcat"; "elastic"], Ret (JObj [("status", JStr "green")])) /\
  git_status ["amcat"; "elastic"] = (["amcat"; "elastic"; "repo"; "branch"; "commit"; "commit"; "commit"], Ret git_demo) /\
  worker_status 3 ["amcat"; "elastic"; "repo"; "branch"; "commit"; "commit"; "commit"] =
    (["amcat"; "elastic"; "repo"; "branch"; "commit"; "commit"; "commit"; "worker"], Raise timed_out) /\
  ((isinstance timed_out TimeoutError = true ->
    StatusView.get [] = let '(w5, r) := queue_status ["amcat"; "elastic"; "repo"; "branch"; "commit"; "commit"; "commit"; "worker"] in
      (w5, match r with
           | Ret q => Ret (mk_response HTTP_200_OK
                       (JObj [("amcat", JStr "ok"); ("elastic", JObj [("status", JStr "green")]); ("git", git_demo);
                              ("celery_worker", worker_timeout_entry); ("celery_queues", q)]))
           | Raise x => Raise x
           end)) /\
   (isinstance timed_out TimeoutError = false ->
    StatusView.get [] = (["amcat"; "elastic"; "repo"; "branch"; "commit"; "commit"; "commit"; "worker"], Raise timed_out))).
Proof.
  split; [reflexivity|]. split; [reflexivity|]. split; [reflexivity|]. split; [reflexivity|].
  eapply get_worker_failure; reflexivity.
Defined.

End StatusRuns.
